(** * smart_wallet: the aggregation, listing and transaction API rules

    A shallow embedding of [wallet/forms.py] and [wallet/views.py], and the
    properties of the specification that concern them.

    Layout: the Python values the views work on (exceptions, [Decimal],
    [date], JSON scalars), the store behind the Django ORM, the forms, the
    list views and the JSON views; then the lemmas and the theorems. *)

From stdpp Require Import gmap strings list sorting pretty.
From Stdlib Require Import ZArith Ascii String Lia.

Local Open Scope Z_scope.

(** ** Exceptions and control flow *)

Inductive model := MCategory | MIncome | MExpense.

(** The exception classes the views can meet.  [InvalidOperation] is
    [decimal.InvalidOperation], whose bases are [DecimalException] and
    [ArithmeticError]; [JSONDecodeError] derives from [ValueError]. *)
Inductive exn :=
| ValueError
| TypeError
| AttributeError
| KeyError
| OverflowError
| InvalidOperation
| JSONDecodeError
| DoesNotExist (m : model)
| ValidationError (msg : string).

(** The classes named in the [except] clauses of the views. *)
Inductive exn_class :=
| CValueError
| CTypeError
| CJSONDecodeError
| CDoesNotExist (m : model)
| CException.

Definition model_eqb (a b : model) : bool :=
  match a, b with
  | MCategory, MCategory | MIncome, MIncome | MExpense, MExpense => true
  | _, _ => false
  end.

(** [isinstance e c], following the class hierarchy of Python. *)
Definition isinstance (e : exn) (c : exn_class) : bool :=
  match c, e with
  | CException, _ => true
  | CValueError, (ValueError | JSONDecodeError) => true
  | CTypeError, TypeError => true
  | CJSONDecodeError, JSONDecodeError => true
  | CDoesNotExist m, DoesNotExist m' => model_eqb m m'
  | _, _ => false
  end.

Definition caught_by (cs : list exn_class) (e : exn) : bool :=
  existsb (isinstance e) cs.

(** An expression either has a value or raises. *)
Inductive py (A : Type) :=
| Val (a : A)
| Exc (e : exn).
Arguments Val {A} a.
Arguments Exc {A} e.

#[global] Instance py_ret : MRet py := fun A a => Val a.

#[global] Instance py_bind : MBind py := fun A B f x =>
  match x with
  | Val a => f a
  | Exc e => Exc e
  end.

(** [try: body / except cs: handler] on expressions. *)
Definition py_try {A} (body : py A) (cs : list exn_class) (handler : py A) : py A :=
  match body with
  | Val a => Val a
  | Exc e => if caught_by cs e then handler else Exc e
  end.

(** ** Text *)

Definition ascii_code (c : ascii) : Z := Z.of_N (N_of_ascii c).

(** The ASCII characters [str.strip()] removes. *)
Definition is_space (c : ascii) : bool :=
  let n := ascii_code c in
  ((9 <=? n) && (n <=? 13)) || ((28 <=? n) && (n <=? 32)).

Definition is_digit (c : ascii) : bool :=
  let n := ascii_code c in (48 <=? n) && (n <=? 57).

Definition digit_val (c : ascii) : Z := ascii_code c - 48.

Definition lower_ascii (c : ascii) : ascii :=
  let n := ascii_code c in
  if (65 <=? n) && (n <=? 90) then ascii_of_N (Z.to_N (n + 32)) else c.

Definition chars (s : string) : list ascii := list_ascii_of_string s.
Definition text (l : list ascii) : string := string_of_list_ascii l.

Fixpoint lstrip (l : list ascii) : list ascii :=
  match l with
  | c :: l' => if is_space c then lstrip l' else l
  | [] => []
  end.

Definition strip_chars (l : list ascii) : list ascii :=
  rev (lstrip (rev (lstrip l))).

(** [s.strip()] *)
Definition strip (s : string) : string := text (strip_chars (chars s)).

(** [s.lower()], on ASCII. *)
Definition lower (s : string) : string := text (map lower_ascii (chars s)).

Definition ascii_eqb (a b : ascii) : bool := (ascii_code a =? ascii_code b).

Fixpoint starts_with (p l : list ascii) : bool :=
  match p, l with
  | [], _ => true
  | a :: p', b :: l' => ascii_eqb a b && starts_with p' l'
  | _ :: _, [] => false
  end.

Fixpoint contains_chars (p l : list ascii) : bool :=
  starts_with p l ||
  match l with
  | [] => false
  | _ :: l' => contains_chars p l'
  end.

(** The [__icontains] lookup: case-insensitive substring. *)
Definition icontains (field needle : string) : bool :=
  contains_chars (chars (lower needle)) (chars (lower field)).

(** Value of a run of decimal digits, most significant first. *)
Definition digits_val (l : list ascii) : Z :=
  fold_left (fun acc c => 10 * acc + digit_val c) l 0.

(** One digit or more, and nothing else. *)
Definition all_digits (l : list ascii) : bool :=
  match l with
  | [] => false
  | _ => forallb is_digit l
  end.

(** The digits of an integer literal: single underscores may separate
    digits and are dropped; [None] for anything else. *)
Fixpoint int_digits (after_digit : bool) (l : list ascii) : option (list ascii) :=
  match l with
  | [] => if after_digit then Some [] else None
  | c :: l' =>
      if is_digit c then
        match int_digits true l' with
        | Some d => Some (c :: d)
        | None => None
        end
      else if ascii_eqb c "_"%char && after_digit then int_digits false l'
      else None
  end.

(** [int(s)] for a string: surrounding blanks, a sign, digits. *)
Definition int_of_str (s : string) : py Z :=
  let l := strip_chars (chars s) in
  let '(neg, body) :=
    match l with
    | c :: l' =>
        if ascii_eqb c "-"%char then (true, l')
        else if ascii_eqb c "+"%char then (false, l')
        else (false, l)
    | [] => (false, l)
    end in
  match int_digits false body with
  | Some d => Val (if neg then - digits_val d else digits_val d)
  | None => Exc ValueError
  end.

(** ** [decimal.Decimal]

    A finite decimal is its unscaled coefficient and its number of
    fractional digits: [DFin 1250 2] is [Decimal('12.50')].  A literal with a
    positive exponent is kept with no fractional digit ([1E+3] as
    [DFin 1000 0]); comparison and arithmetic depend on the value only.  The
    arithmetic is exact: the context precision of 28 digits is not modelled. *)
Inductive Decimal :=
| DFin (coef : Z) (places : nat)
| DInf (negative : bool)
| DNaN.

Definition pow10 (n : nat) : Z := 10 ^ Z.of_nat n.

(** Longest prefix of digits, and what follows. *)
Fixpoint span_digits (l : list ascii) : list ascii * list ascii :=
  match l with
  | c :: l' =>
      if is_digit c then let '(d, r) := span_digits l' in (c :: d, r)
      else ([], l)
  | [] => ([], [])
  end.

Definition is_char (a : ascii) (c : ascii) : bool := ascii_eqb a c.

(** The exponent part of a numeric string: nothing, or [E], a sign, digits. *)
Definition parse_exponent (l : list ascii) : option Z :=
  match l with
  | [] => Some 0
  | e :: r =>
      if is_char (lower_ascii e) "e"%char then
        match r with
        | s :: r' =>
            if is_char s "-"%char then
              if all_digits r' then Some (- digits_val r') else None
            else if is_char s "+"%char then
              if all_digits r' then Some (digits_val r') else None
            else if all_digits r then Some (digits_val r) else None
        | [] => None
        end
      else None
  end.

(** The numeric part: integer digits, an optional fraction, an optional
    exponent, with one digit at least before the exponent. *)
Definition parse_number (neg : bool) (l : list ascii) : option Decimal :=
  let '(ip, r1) := span_digits l in
  let '(fp, r2) :=
    match r1 with
    | c :: r => if is_char c "."%char then span_digits r else ([], r1)
    | [] => ([], r1)
    end in
  match ip ++ fp with
  | [] => None
  | ds =>
      match parse_exponent r2 with
      | None => None
      | Some e =>
          let c := if neg then - digits_val ds else digits_val ds in
          let ex := e - Z.of_nat (List.length fp) in
          Some (if 0 <=? ex then DFin (c * 10 ^ ex) 0 else DFin c (Z.to_nat (- ex)))
      end
  end.

(** [Inf], [Infinity], [NaN] and [sNaN] with an optional diagnostic, in any
    case. *)
Definition parse_special (neg : bool) (l : list ascii) : option Decimal :=
  let s := text (map lower_ascii l) in
  if String.eqb s "inf" || String.eqb s "infinity" then Some (DInf neg)
  else
    let l' := map lower_ascii l in
    if starts_with (chars "nan") l' && forallb is_digit (skipn 3 l') then Some DNaN
    else if starts_with (chars "snan") l' && forallb is_digit (skipn 4 l') then Some DNaN
    else None.

Definition parse_signed (neg : bool) (l : list ascii) : option Decimal :=
  match parse_number neg l with
  | Some d => Some d
  | None => parse_special neg l
  end.

(** [Decimal(s)] for a string [s]: blanks around it are dropped and
    underscores removed; a malformed string raises [InvalidOperation]. *)
Definition Decimal_of_str (s : string) : py Decimal :=
  let l := filter (fun c => negb (is_char c "_"%char)) (strip_chars (chars s)) in
  let r :=
    match l with
    | c :: l' =>
        if is_char c "-"%char then parse_signed true l'
        else if is_char c "+"%char then parse_signed false l'
        else parse_signed false l
    | [] => None
    end in
  match r with
  | Some d => Val d
  | None => Exc InvalidOperation
  end.

(** Three-way comparison of the values; [None] when a NaN is involved. *)
Definition dec_compare (a b : Decimal) : option comparison :=
  match a, b with
  | DNaN, _ | _, DNaN => None
  | DInf true, DInf true | DInf false, DInf false => Some Eq
  | DInf true, _ => Some Lt
  | DInf false, _ => Some Gt
  | _, DInf true => Some Gt
  | _, DInf false => Some Lt
  | DFin c1 p1, DFin c2 p2 => Some (c1 * pow10 p2 ?= c2 * pow10 p1)
  end.

(** [a <= b], [a > b] and [a >= b] in Python: an ordering comparison with a
    NaN raises [InvalidOperation]. *)
Definition dec_le (a b : Decimal) : py bool :=
  match dec_compare a b with
  | Some Gt => Val false
  | Some _ => Val true
  | None => Exc InvalidOperation
  end.

Definition dec_gt (a b : Decimal) : py bool :=
  match dec_compare a b with
  | Some Gt => Val true
  | Some _ => Val false
  | None => Exc InvalidOperation
  end.

Definition dec_neg (a : Decimal) : Decimal :=
  match a with
  | DFin c p => DFin (- c) p
  | DInf n => DInf (negb n)
  | DNaN => DNaN
  end.

(** [a + b]: exact on finite operands, at the larger number of fractional
    digits; a NaN is passed on, and infinities of opposite signs raise. *)
Definition dec_add (a b : Decimal) : py Decimal :=
  match a, b with
  | DNaN, _ | _, DNaN => Val DNaN
  | DInf n, DInf m => if Bool.eqb n m then Val (DInf n) else Exc InvalidOperation
  | DInf n, _ | _, DInf n => Val (DInf n)
  | DFin c1 p1, DFin c2 p2 =>
      let p := Nat.max p1 p2 in
      Val (DFin (c1 * pow10 (p - p1) + c2 * pow10 (p - p2)) p)
  end.

Definition dec_sub (a b : Decimal) : py Decimal := dec_add a (dec_neg b).

(** Truth value of a [Decimal]: false for zero only. *)
Definition dec_bool (a : Decimal) : bool :=
  match a with
  | DFin c _ => negb (c =? 0)
  | _ => true
  end.

(** [Decimal('0.00')] and [Decimal('99999999.99')]. *)
Definition zero_00 : Decimal := DFin 0 2.
Definition max_amount : Decimal := DFin 9999999999 2.
Definition dec_zero : Decimal := DFin 0 0.

(** ** [datetime.date] *)

Record Date := mkdate { year : Z; month : Z; day : Z }.

Definition is_leap (y : Z) : bool :=
  (y mod 4 =? 0) && (negb (y mod 100 =? 0) || (y mod 400 =? 0)).

Definition days_in_month (y m : Z) : Z :=
  if m =? 2 then (if is_leap y then 29 else 28)
  else if (m =? 4) || (m =? 6) || (m =? 9) || (m =? 11) then 30
  else 31.

(** The constructor [date(y, m, d)] raises [ValueError] out of range. *)
Definition make_date (y m d : Z) : py Date :=
  if (1 <=? y) && (y <=? 9999) && (1 <=? m) && (m <=? 12)
     && (1 <=? d) && (d <=? days_in_month y m)
  then Val (mkdate y m d) else Exc ValueError.

(** Chronological order; [date_key] reads the ISO form [YYYYMMDD] as a
    number, which orders dates as their [isoformat()] strings do. *)
Definition date_key (d : Date) : Z := year d * 10000 + month d * 100 + day d.
Definition date_leb (a b : Date) : bool := date_key a <=? date_key b.
Definition date_ltb (a b : Date) : bool := date_key a <? date_key b.

(** [d.replace(year=y)] *)
Definition replace_year (d : Date) (y : Z) : py Date := make_date y (month d) (day d).

(** The alternatives of [%m], [1[0-2]|0[1-9]|[1-9]], in the order the
    regular expression tries them: each match with its remainder. *)
Definition month_matches (l : list ascii) : list (Z * list ascii) :=
  let two :=
    match l with
    | a :: b :: r =>
        if is_char a "1"%char && is_digit b && (digit_val b <=? 2) then [(10 + digit_val b, r)]
        else if is_char a "0"%char && is_digit b && (1 <=? digit_val b) then [(digit_val b, r)]
        else []
    | _ => []
    end in
  let one :=
    match l with
    | a :: r => if is_digit a && (1 <=? digit_val a) then [(digit_val a, r)] else []
    | [] => []
    end in
  two ++ one.

(** The alternatives of [%d], [3[0-1]|[1-2]\d|0[1-9]|[1-9]| [1-9]]. *)
Definition day_matches (l : list ascii) : list (Z * list ascii) :=
  let two :=
    match l with
    | a :: b :: r =>
        if is_char a "3"%char && is_digit b && (digit_val b <=? 1) then [(30 + digit_val b, r)]
        else if is_digit a && (1 <=? digit_val a) && (digit_val a <=? 2) && is_digit b
        then [(10 * digit_val a + digit_val b, r)]
        else if is_char a "0"%char && is_digit b && (1 <=? digit_val b) then [(digit_val b, r)]
        else []
    | _ => []
    end in
  let one :=
    match l with
    | a :: r => if is_digit a && (1 <=? digit_val a) then [(digit_val a, r)] else []
    | [] => []
    end in
  let blank :=
    match l with
    | a :: b :: r =>
        if is_char a " "%char && is_digit b && (1 <=? digit_val b) then [(digit_val b, r)] else []
    | _ => []
    end in
  two ++ one ++ blank.

(** [datetime.strptime(s, '%Y-%m-%d').date()]: four digits, a month and a
    day separated by hyphens and nothing after; [ValueError] otherwise, also
    for a day the month does not have. *)
Definition strptime_date (s : string) : py Date :=
  match chars s with
  | y1 :: y2 :: y3 :: y4 :: h :: r =>
      if forallb is_digit [y1; y2; y3; y4] && is_char h "-"%char then
        match filter (fun mr => starts_with (chars "-") (snd mr)) (month_matches r) with
        | (m, _ :: r') :: _ =>
            match day_matches r' with
            | (d, []) :: _ => make_date (digits_val [y1; y2; y3; y4]) m d
            | _ => Exc ValueError
            end
        | _ => Exc ValueError
        end
      else Exc ValueError
  | _ => Exc ValueError
  end.

(** ** JSON values of a request body

    [json.loads] gives a dict; its members are modelled for the scalars.  A
    float is kept as the text [str()] gives for it, which is all the views
    ask of it. *)
Inductive json :=
| JNull
| JBool (b : bool)
| JInt (n : Z)
| JFloat (repr : string)
| JStr (s : string).

(** [str(v)] *)
Definition str (v : json) : string :=
  match v with
  | JNull => "None"
  | JBool true => "True"
  | JBool false => "False"
  | JInt n => pretty n
  | JFloat r => r
  | JStr s => s
  end.

(** Truth value, as in [not data[field]]. *)
Definition truthy (v : json) : bool :=
  match v with
  | JNull => false
  | JBool b => b
  | JInt n => negb (n =? 0)
  | JFloat r => negb (String.eqb r "0.0" || String.eqb r "-0.0")
  | JStr s => negb (String.eqb s "")
  end.

(** [v.strip()]: only a string has the method. *)
Definition json_strip (v : json) : py string :=
  match v with
  | JStr s => Val (strip s)
  | _ => Exc AttributeError
  end.

(** [datetime.strptime(v, '%Y-%m-%d').date()]: a [TypeError] unless [v] is
    a string. *)
Definition json_strptime (v : json) : py Date :=
  match v with
  | JStr s => strptime_date s
  | _ => Exc TypeError
  end.

(** The value a primary-key lookup [pk=v] compares with: the integer field
    converts [v] with [int()]; [None] matches no row. *)
Definition pk_of_json (v : json) : py (option Z) :=
  match v with
  | JNull => Val None
  | JBool b => Val (Some (if b then 1 else 0))
  | JInt n => Val (Some n)
  | JStr s => n ← int_of_str s; Val (Some n)
  | JFloat r =>
      match Decimal_of_str r with
      | Val (DFin c p) => Val (Some (Z.quot c (pow10 p)))
      | Val (DInf _) => Exc OverflowError
      | _ => Exc ValueError
      end
  end.

(** ** The store *)

(** Modelled from the spec: the model [Category] of [wallet/models.py],
    which is not among the sources; its fields are those of the data model,
    the key being the key of the table below. *)
Record Category := mkCategory { name : string; category_created_at : Z }.

Module Income.
(** Modelled from the spec: the model [Income] of [wallet/models.py], which
    is not among the sources.  The fields are those of the data model; an
    empty [note] stands for an absent one; timestamps are instants of the
    clock. *)
Record t := mk {
  category_id : Z;
  source : string;
  amount : Decimal;
  date : Date;
  note : string;
  created_at : Z;
  updated_at : Z }.

Definition set_category_id (v : Z) (i : t) : t :=
  mk v (source i) (amount i) (date i) (note i) (created_at i) (updated_at i).
Definition set_source (v : string) (i : t) : t :=
  mk (category_id i) v (amount i) (date i) (note i) (created_at i) (updated_at i).
Definition set_amount (v : Decimal) (i : t) : t :=
  mk (category_id i) (source i) v (date i) (note i) (created_at i) (updated_at i).
Definition set_date (v : Date) (i : t) : t :=
  mk (category_id i) (source i) (amount i) v (note i) (created_at i) (updated_at i).
Definition set_note (v : string) (i : t) : t :=
  mk (category_id i) (source i) (amount i) (date i) v (created_at i) (updated_at i).
Definition set_updated_at (v : Z) (i : t) : t :=
  mk (category_id i) (source i) (amount i) (date i) (note i) (created_at i) v.
End Income.

Module Expense.
(** Modelled from the spec: the model [Expense] of [wallet/models.py],
    which is not among the sources, with the fields of the data model. *)
Record t := mk {
  title : string;
  amount : Decimal;
  date : Date;
  created_at : Z;
  updated_at : Z }.

Definition set_title (v : string) (e : t) : t :=
  mk v (amount e) (date e) (created_at e) (updated_at e).
Definition set_amount (v : Decimal) (e : t) : t :=
  mk (title e) v (date e) (created_at e) (updated_at e).
Definition set_date (v : Date) (e : t) : t :=
  mk (title e) (amount e) v (created_at e) (updated_at e).
Definition set_updated_at (v : Z) (e : t) : t :=
  mk (title e) (amount e) (date e) (created_at e) v.
End Expense.

Record Store := mkStore {
  categories : gmap Z Category;
  incomes : gmap Z Income.t;
  expenses : gmap Z Expense.t }.

Definition set_categories (c : gmap Z Category) (s : Store) : Store :=
  mkStore c (incomes s) (expenses s).
Definition set_incomes (i : gmap Z Income.t) (s : Store) : Store :=
  mkStore (categories s) i (expenses s).
Definition set_expenses (e : gmap Z Expense.t) (s : Store) : Store :=
  mkStore (categories s) (incomes s) e.

(** What a request reads of the clock: [timezone.now()] for the timestamps
    and [date.today()] / [datetime.now().date()]. *)
Record Clock := mkClock { now : Z; today : Date }.

(** The next value of a table's key sequence: above every key in use. *)
Definition fresh_pk {A} (tbl : gmap Z A) : Z :=
  1 + map_fold (fun k _ acc => Z.max k acc) 0 tbl.

(** ** Responses *)

Module Txn.
Inductive kind := income | expense.

(** An entry of a merged transaction list. *)
Record t := mk {
  id : Z;
  type : kind;
  title : string;
  category : string;
  amount : Decimal;
  date : Date;
  note : string }.
End Txn.

Inductive payload :=
| NoData
| IncomeData (pk : Z) (obj : Income.t)
| ExpenseData (pk : Z) (obj : Expense.t)
| DashboardData (totalIncome totalExpenses currentBalance : Decimal)
                (recent_transactions : list Txn.t)
| SearchData (results : list Txn.t) (count : option nat).

Record JsonResponse := mkResponse {
  http_status : Z;
  status : string;
  message : string;
  data : payload }.

Definition error_response (code : Z) (msg : string) : JsonResponse :=
  mkResponse code "error" msg NoData.

Definition success_response (code : Z) (msg : string) (d : payload) : JsonResponse :=
  mkResponse code "success" msg d.

(** ** Views that change the store

    A view body runs on the store and either goes on with a value, leaves
    through [return JsonResponse(...)], or raises. *)
Inductive outcome (A : Type) :=
| Next (a : A)
| Return (r : JsonResponse)
| Raise (e : exn).
Arguments Next {A} a.
Arguments Return {A} r.
Arguments Raise {A} e.

Definition view (A : Type) : Type := Store -> outcome A * Store.

#[global] Instance view_ret : MRet view := fun A a s => (Next a, s).

#[global] Instance view_bind : MBind view := fun A B f x s =>
  match x s with
  | (Next a, s') => f a s'
  | (Return r, s') => (Return r, s')
  | (Raise e, s') => (Raise e, s')
  end.

Definition lift {A} (x : py A) : view A := fun s =>
  match x with
  | Val a => (Next a, s)
  | Exc e => (Raise e, s)
  end.

Definition return_ {A} (r : JsonResponse) : view A := fun s => (Return r, s).

(** [try: body / except cs: handler] *)
Definition try_ {A} (body : view A) (cs : list exn_class) (handler : view A) : view A :=
  fun s =>
    match body s with
    | (Raise e, s') => if caught_by cs e then handler s' else (Raise e, s')
    | r => r
    end.

(** The outermost [try] of a view: [except json.JSONDecodeError] answers 400,
    [except Exception] answers 500. *)
Definition respond (what : string) (body : view JsonResponse) (s : Store)
  : JsonResponse * Store :=
  match body s with
  | (Next r, s') | (Return r, s') => (r, s')
  | (Raise JSONDecodeError, s') => (error_response 400 "Invalid JSON data", s')
  | (Raise _, s') => (error_response 500 ("Failed to " +:+ what), s')
  end.

(** [json.loads(request.body)]: the parsed dict, or [None] for a body that
    is not JSON. *)
Definition json_loads (body : option (gmap string json)) : view (gmap string json) :=
  match body with
  | Some d => mret d
  | None => lift (Exc JSONDecodeError)
  end.

(** ** The ORM calls of the views *)

#[global] Instance py_fmap : FMap py := fun A B f x =>
  match x with
  | Val a => Val (f a)
  | Exc e => Exc e
  end.

(** [Model.objects.get(pk=v)]: the instance, as its key and its row. *)
Definition objects_get {A} (m : model) (tbl : gmap Z A) (v : json) : py (Z * A) :=
  k ← pk_of_json v;
  match k with
  | Some z =>
      match tbl !! z with
      | Some r => Val (z, r)
      | None => Exc (DoesNotExist m)
      end
  | None => Exc (DoesNotExist m)
  end.

Definition Category_objects_get (v : json) : view (Z * Category) :=
  fun s => lift (objects_get MCategory (categories s) v) s.
Definition Income_objects_get (v : json) : view (Z * Income.t) :=
  fun s => lift (objects_get MIncome (incomes s) v) s.
Definition Expense_objects_get (v : json) : view (Z * Expense.t) :=
  fun s => lift (objects_get MExpense (expenses s) v) s.

(** [Category.objects.get_or_create(name=nm)]; category names are unique in
    the data model, so the first row of that name is the row; a new row gets
    the next key and the time of creation. *)
Definition Category_objects_get_or_create (clk : Clock) (nm : string)
  : view (Z * Category) := fun s =>
  match filter (fun kc => String.eqb (name (snd kc)) nm) (map_to_list (categories s)) with
  | kc :: _ => (Next kc, s)
  | [] =>
      let pk := fresh_pk (categories s) in
      let c := mkCategory nm (now clk) in
      (Next (pk, c), set_categories (<[pk := c]> (categories s)) s)
  end.

(** Modelled from the spec: [Income.objects.create(...)] on the model of
    [wallet/models.py], which is not among the sources: the row gets the next
    key of the table and the time of creation in [created_at] and
    [updated_at]; no validator runs, and the row holds the amount of the
    instance (what the database column does to it is not modelled). *)
Definition Income_objects_create (clk : Clock) (category : Z * Category)
    (source : string) (amount : Decimal) (date : Date) (note : string)
  : view (Z * Income.t) := fun s =>
  let pk := fresh_pk (incomes s) in
  let r := Income.mk (fst category) source amount date note (now clk) (now clk) in
  (Next (pk, r), set_incomes (<[pk := r]> (incomes s)) s).

(** Modelled from the spec: [Expense.objects.create(...)], as for incomes. *)
Definition Expense_objects_create (clk : Clock)
    (title : string) (amount : Decimal) (date : Date)
  : view (Z * Expense.t) := fun s =>
  let pk := fresh_pk (expenses s) in
  let r := Expense.mk title amount date (now clk) (now clk) in
  (Next (pk, r), set_expenses (<[pk := r]> (expenses s)) s).

(** Modelled from the spec: [income.save()] on the model of
    [wallet/models.py], which is not among the sources: the row of that key
    is written and [updated_at] refreshed; no validator runs. *)
Definition Income_save (clk : Clock) (i : Z * Income.t) : view (Z * Income.t) :=
  fun s =>
    let r := Income.set_updated_at (now clk) (snd i) in
    (Next (fst i, r), set_incomes (<[fst i := r]> (incomes s)) s).

(** Modelled from the spec: [expense.save()], as for incomes. *)
Definition Expense_save (clk : Clock) (e : Z * Expense.t) : view (Z * Expense.t) :=
  fun s =>
    let r := Expense.set_updated_at (now clk) (snd e) in
    (Next (fst e, r), set_expenses (<[fst e := r]> (expenses s)) s).

(** [income.delete()] *)
Definition Income_delete (i : Z * Income.t) : view unit :=
  fun s => (Next tt, set_incomes (delete (fst i) (incomes s)) s).

Definition Expense_delete (e : Z * Expense.t) : view unit :=
  fun s => (Next tt, set_expenses (delete (fst e) (expenses s)) s).

(** [Income.objects.select_related('category')]: the rows joined with
    their category (an inner join, the key being required). *)
Definition Income_select_related (s : Store) : list (Z * Income.t * Category) :=
  omap (fun ki => c ← categories s !! Income.category_id (snd ki); Some (ki, c))
       (map_to_list (incomes s)).

(** Sorting as [order_by] and [list.sort] do it: [before x y] says that [x]
    may stand before [y]; elements neither of which must come first keep
    their order. *)
Fixpoint insert_by {A} (before : A -> A -> bool) (x : A) (l : list A) : list A :=
  match l with
  | [] => [x]
  | y :: l' => if before x y then x :: l else y :: insert_by before x l'
  end.

Definition sort_by {A} (before : A -> A -> bool) (l : list A) : list A :=
  foldr (insert_by before) [] l.

(** [order_by('-date', '-created_at')] *)
Definition newest_first (a b : Date * Z) : bool :=
  date_ltb (fst b) (fst a) || ((date_key (fst a) =? date_key (fst b)) && (snd b <=? snd a)).

Definition income_key (r : Z * Income.t * Category) : Date * Z :=
  (Income.date (snd (fst r)), Income.created_at (snd (fst r))).
Definition expense_key (r : Z * Expense.t) : Date * Z :=
  (Expense.date (snd r), Expense.created_at (snd r)).

Definition order_incomes (q : list (Z * Income.t * Category)) :=
  sort_by (fun a b => newest_first (income_key a) (income_key b)) q.
Definition order_expenses (q : list (Z * Expense.t)) :=
  sort_by (fun a b => newest_first (expense_key a) (expense_key b)) q.

(** [aggregate(total=Sum('amount'))['total']]: [None] over no row. *)
Fixpoint sum_from (acc : Decimal) (l : list Decimal) : py Decimal :=
  match l with
  | [] => Val acc
  | a :: l' => acc' ← dec_add acc a; sum_from acc' l'
  end.

Definition Sum (l : list Decimal) : py (option Decimal) :=
  match l with
  | [] => Val None
  | a :: l' => Some <$> sum_from a l'
  end.

Definition income_amounts (s : Store) : list Decimal :=
  map (fun ki => Income.amount (snd ki)) (map_to_list (incomes s)).
Definition expense_amounts (s : Store) : list Decimal :=
  map (fun ke => Expense.amount (snd ke)) (map_to_list (expenses s)).

(** ** forms.py *)

(** [IncomeForm.clean_amount] and [ExpenseForm.clean_amount] (the same
    body), on the value the field has parsed. *)
Definition clean_amount (amount : option Decimal) : py (option Decimal) :=
  match amount with
  | Some a =>
      le0 ← dec_le a dec_zero;
      if le0 : bool then Exc (ValidationError "Amount must be greater than zero.")
      else
        big ← dec_gt a max_amount;
        if big : bool then Exc (ValidationError "Amount cannot exceed $99,999,999.99.")
        else Val amount
  | None => Val amount
  end.

(** [IncomeForm.clean_date] and [ExpenseForm.clean_date]. *)
Definition clean_date (clk : Clock) (transaction_date : option Date) : py (option Date) :=
  match transaction_date with
  | Some d =>
      limit ← replace_year (today clk) (year (today clk) + 1);
      if date_ltb limit d
      then Exc (ValidationError "Date cannot be more than one year in the future.")
      else Val transaction_date
  | None => Val transaction_date
  end.

(** ** views.py: the dashboard *)

Module DashboardView.
Definition calculate_total_income (s : Store) : py Decimal :=
  total ← Sum (income_amounts s);
  Val (match total with Some t => t | None => zero_00 end).

Definition calculate_total_expenses (s : Store) : py Decimal :=
  total ← Sum (expense_amounts s);
  Val (match total with Some t => t | None => zero_00 end).

Definition calculate_balance (total_income total_expenses : Decimal) : py Decimal :=
  dec_sub total_income total_expenses.
End DashboardView.

(** [x or Decimal('0.00')] for the result of an aggregate. *)
Definition or_zero (total : option Decimal) : Decimal :=
  match total with
  | Some t => if dec_bool t then t else zero_00
  | None => zero_00
  end.

Definition income_entry (r : Z * Income.t * Category) : Txn.t :=
  let '(pk, i, c) := r in
  Txn.mk pk Txn.income (Income.source i) (name c) (Income.amount i) (Income.date i)
         (Income.note i).

Definition expense_entry (r : Z * Expense.t) : Txn.t :=
  let '(pk, e) := r in
  Txn.mk pk Txn.expense (Expense.title e) "Expense" (Expense.amount e) (Expense.date e) "".

(** [l.sort(key=lambda x: x['date'], reverse=True)] *)
Definition sort_by_date (l : list Txn.t) : list Txn.t :=
  sort_by (fun a b => date_leb (Txn.date b) (Txn.date a)) l.

Module DashboardDataAPIView.
Definition get (s : Store) : JsonResponse :=
  let body : py JsonResponse :=
    total_income ← or_zero <$> Sum (income_amounts s);
    total_expenses ← or_zero <$> Sum (expense_amounts s);
    current_balance ← dec_sub total_income total_expenses;
    let recent_income := take 5 (order_incomes (Income_select_related s)) in
    let recent_expenses := take 5 (order_expenses (map_to_list (expenses s))) in
    let recent_transactions :=
      map income_entry recent_income ++ map expense_entry recent_expenses in
    let recent_transactions := sort_by_date recent_transactions in
    let recent_transactions := take 10 recent_transactions in
    Val (success_response 200 ""
           (DashboardData total_income total_expenses current_balance
                          recent_transactions)) in
  match body with
  | Val r => r
  | Exc _ => error_response 500 "Failed to retrieve dashboard data"
  end.
End DashboardDataAPIView.

(** ** views.py: the list views *)

(** [request.GET.get(k, '')] *)
Definition GET_get (GET : gmap string string) (k : string) : string :=
  default "" (GET !! k).

(** The comparisons of the [amount__gte] and [amount__lte] lookups, on the
    values; a NaN bound matches no row. *)
Definition amount_gte (a bound : Decimal) : bool :=
  match dec_compare a bound with
  | Some Lt | None => false
  | Some _ => true
  end.

Definition amount_lte (a bound : Decimal) : bool :=
  match dec_compare a bound with
  | Some Gt | None => false
  | Some _ => true
  end.

Definition nonempty (s : string) : bool := negb (String.eqb s "").

Module IncomeListView.
Definition matches_search (q : string) (r : Z * Income.t * Category) : bool :=
  icontains (Income.source (snd (fst r))) q
  || icontains (Income.note (snd (fst r))) q
  || icontains (name (snd r)) q.

(** [get_queryset]; [request] is [None] for a view without a request. *)
Definition get_queryset (request : option (gmap string string)) (s : Store)
  : py (list (Z * Income.t * Category)) :=
  let queryset := order_incomes (Income_select_related s) in
  match request with
  | None => Val queryset
  | Some GET =>
      let search_query := strip (GET_get GET "search") in
      let queryset :=
        if nonempty search_query then filter (matches_search search_query) queryset
        else queryset in
      let category_filter := strip (GET_get GET "category") in
      let queryset :=
        if nonempty category_filter
        then filter (fun r => String.eqb (name (snd r)) category_filter) queryset
        else queryset in
      let date_from := strip (GET_get GET "date_from") in
      let date_to := strip (GET_get GET "date_to") in
      queryset ←
        (if nonempty date_from then
           py_try (from_date ← strptime_date date_from;
                   Val (filter (fun r => date_leb from_date (Income.date (snd (fst r))))
                               queryset))
                  [CValueError] (Val queryset)
         else Val queryset);
      queryset ←
        (if nonempty date_to then
           py_try (to_date ← strptime_date date_to;
                   Val (filter (fun r => date_leb (Income.date (snd (fst r))) to_date)
                               queryset))
                  [CValueError] (Val queryset)
         else Val queryset);
      let amount_min := strip (GET_get GET "amount_min") in
      let amount_max := strip (GET_get GET "amount_max") in
      queryset ←
        (if nonempty amount_min then
           py_try (min_amount ← Decimal_of_str amount_min;
                   Val (filter (fun r => amount_gte (Income.amount (snd (fst r))) min_amount)
                               queryset))
                  [CValueError; CTypeError] (Val queryset)
         else Val queryset);
      queryset ←
        (if nonempty amount_max then
           py_try (max_amount ← Decimal_of_str amount_max;
                   Val (filter (fun r => amount_lte (Income.amount (snd (fst r))) max_amount)
                               queryset))
                  [CValueError; CTypeError] (Val queryset)
         else Val queryset);
      Val queryset
  end.
End IncomeListView.

Module ExpenseListView.
Definition get_queryset (request : option (gmap string string)) (s : Store)
  : py (list (Z * Expense.t)) :=
  let queryset := order_expenses (map_to_list (expenses s)) in
  match request with
  | None => Val queryset
  | Some GET =>
      let search_query := strip (GET_get GET "search") in
      let queryset :=
        if nonempty search_query
        then filter (fun r => icontains (Expense.title (snd r)) search_query) queryset
        else queryset in
      let date_from := strip (GET_get GET "date_from") in
      let date_to := strip (GET_get GET "date_to") in
      queryset ←
        (if nonempty date_from then
           py_try (from_date ← strptime_date date_from;
                   Val (filter (fun r => date_leb from_date (Expense.date (snd r))) queryset))
                  [CValueError] (Val queryset)
         else Val queryset);
      queryset ←
        (if nonempty date_to then
           py_try (to_date ← strptime_date date_to;
                   Val (filter (fun r => date_leb (Expense.date (snd r)) to_date) queryset))
                  [CValueError] (Val queryset)
         else Val queryset);
      let amount_min := strip (GET_get GET "amount_min") in
      let amount_max := strip (GET_get GET "amount_max") in
      queryset ←
        (if nonempty amount_min then
           py_try (min_amount ← Decimal_of_str amount_min;
                   Val (filter (fun r => amount_gte (Expense.amount (snd r)) min_amount)
                               queryset))
                  [CValueError; CTypeError] (Val queryset)
         else Val queryset);
      queryset ←
        (if nonempty amount_max then
           py_try (max_amount ← Decimal_of_str amount_max;
                   Val (filter (fun r => amount_lte (Expense.amount (snd r)) max_amount)
                               queryset))
                  [CValueError; CTypeError] (Val queryset)
         else Val queryset);
      Val queryset
  end.
End ExpenseListView.

(** ** views.py: the JSON views *)

(** [data[k]] *)
Definition item (data : gmap string json) (k : string) : view json :=
  match data !! k with
  | Some v => mret v
  | None => lift (Exc KeyError)
  end.

Definition has_key (data : gmap string json) (k : string) : bool :=
  bool_decide (is_Some (data !! k)).

(** The loop over [required_fields]: the first field that is absent or
    false ends the request. *)
Fixpoint require_fields (fields : list string) (data : gmap string json) : view unit :=
  match fields with
  | [] => mret tt
  | field :: rest =>
      match data !! field with
      | Some v =>
          if truthy v then require_fields rest data
          else return_ (error_response 400 ("Missing required field: " +:+ field))
      | None => return_ (error_response 400 ("Missing required field: " +:+ field))
      end
  end.

(** The block of every JSON view that reads the amount:
    [amount = Decimal(str(v))], a 400 answer when [amount <= 0], and
    [except (ValueError, TypeError)] around both. *)
Definition validate_amount (v : json) : view Decimal :=
  try_ (amount ← lift (Decimal_of_str (str v));
        le0 ← lift (dec_le amount dec_zero);
        if le0 : bool
        then return_ (error_response 400 "Amount must be greater than zero")
        else mret amount)
       [CValueError; CTypeError]
       (return_ (error_response 400 "Invalid amount format")).

(** The block that reads a date: [strptime] under [except ValueError]. *)
Definition validate_date (v : json) : view Date :=
  try_ (lift (json_strptime v)) [CValueError]
       (return_ (error_response 400 "Invalid date format. Use YYYY-MM-DD")).

Module IncomeAPIView.
Definition post_body (clk : Clock) (body : option (gmap string json))
  : view JsonResponse :=
  data ← json_loads body;
  _ ← require_fields ["category_id"; "source"; "amount"; "date"] data;
  v ← item data "category_id";
  category ← try_ (Category_objects_get v) [CDoesNotExist MCategory]
                  (return_ (error_response 400 "Invalid category ID"));
  v ← item data "date";
  transaction_date ← validate_date v;
  v ← item data "amount";
  amount ← validate_amount v;
  v ← item data "source";
  source ← lift (json_strip v);
  note ← lift (json_strip (default (JStr "") (data !! "note")));
  income ← Income_objects_create clk category source amount transaction_date note;
  mret (success_response 201 "Income transaction created successfully"
                         (IncomeData (fst income) (snd income))).

Definition post (clk : Clock) (body : option (gmap string json)) (s : Store)
  : JsonResponse * Store :=
  respond "create income transaction" (post_body clk body) s.

Definition put_body (clk : Clock) (body : option (gmap string json)) (pk : Z)
  : view JsonResponse :=
  data ← json_loads body;
  income ← try_ (Income_objects_get (JInt pk)) [CDoesNotExist MIncome]
                (return_ (error_response 404 "Income transaction not found"));
  income ←
    match data !! "category_id" with
    | Some v =>
        try_ (category ← Category_objects_get v;
              mret (fst income, Income.set_category_id (fst category) (snd income)))
             [CDoesNotExist MCategory]
             (return_ (error_response 400 "Invalid category ID"))
    | None => mret income
    end;
  income ←
    match data !! "source" with
    | Some v =>
        source ← lift (json_strip v);
        if nonempty source
        then mret (fst income, Income.set_source source (snd income))
        else return_ (error_response 400 "Source cannot be empty")
    | None => mret income
    end;
  income ←
    match data !! "amount" with
    | Some v =>
        amount ← validate_amount v;
        mret (fst income, Income.set_amount amount (snd income))
    | None => mret income
    end;
  income ←
    match data !! "date" with
    | Some v =>
        d ← validate_date v;
        mret (fst income, Income.set_date d (snd income))
    | None => mret income
    end;
  income ←
    match data !! "note" with
    | Some v =>
        note ← lift (json_strip v);
        mret (fst income, Income.set_note note (snd income))
    | None => mret income
    end;
  income ← Income_save clk income;
  mret (success_response 200 "Income transaction updated successfully"
                         (IncomeData (fst income) (snd income))).

Definition put (clk : Clock) (body : option (gmap string json)) (pk : Z) (s : Store)
  : JsonResponse * Store :=
  respond "update income transaction" (put_body clk body pk) s.
End IncomeAPIView.

Module ExpenseAPIView.
Definition post_body (clk : Clock) (body : option (gmap string json))
  : view JsonResponse :=
  data ← json_loads body;
  _ ← require_fields ["title"; "amount"; "date"] data;
  v ← item data "date";
  transaction_date ← validate_date v;
  v ← item data "amount";
  amount ← validate_amount v;
  v ← item data "title";
  title ← lift (json_strip v);
  expense ← Expense_objects_create clk title amount transaction_date;
  mret (success_response 201 "Expense transaction created successfully"
                         (ExpenseData (fst expense) (snd expense))).

Definition post (clk : Clock) (body : option (gmap string json)) (s : Store)
  : JsonResponse * Store :=
  respond "create expense transaction" (post_body clk body) s.

Definition put_body (clk : Clock) (body : option (gmap string json)) (pk : Z)
  : view JsonResponse :=
  data ← json_loads body;
  expense ← try_ (Expense_objects_get (JInt pk)) [CDoesNotExist MExpense]
                 (return_ (error_response 404 "Expense transaction not found"));
  expense ←
    match data !! "title" with
    | Some v =>
        title ← lift (json_strip v);
        if nonempty title
        then mret (fst expense, Expense.set_title title (snd expense))
        else return_ (error_response 400 "Title cannot be empty")
    | None => mret expense
    end;
  expense ←
    match data !! "amount" with
    | Some v =>
        amount ← validate_amount v;
        mret (fst expense, Expense.set_amount amount (snd expense))
    | None => mret expense
    end;
  expense ←
    match data !! "date" with
    | Some v =>
        d ← validate_date v;
        mret (fst expense, Expense.set_date d (snd expense))
    | None => mret expense
    end;
  expense ← Expense_save clk expense;
  mret (success_response 200 "Expense transaction updated successfully"
                         (ExpenseData (fst expense) (snd expense))).

Definition put (clk : Clock) (body : option (gmap string json)) (pk : Z) (s : Store)
  : JsonResponse * Store :=
  respond "update expense transaction" (put_body clk body pk) s.
End ExpenseAPIView.

Module TransactionAPIView.
(** [data['type'] in ['income', 'expense']] *)
Definition transaction_type (data : gmap string json) : option Txn.kind :=
  match data !! "type" with
  | Some (JStr t) =>
      if String.eqb t "income" then Some Txn.income
      else if String.eqb t "expense" then Some Txn.expense
      else None
  | _ => None
  end.

Definition post_body (clk : Clock) (body : option (gmap string json))
  : view JsonResponse :=
  data ← json_loads body;
  match transaction_type data with
  | None =>
      return_ (error_response 400
        "Invalid or missing transaction type. Must be 'income' or 'expense'")
  | Some Txn.income =>
      _ ← require_fields ["amount"; "description"] data;
      category ← Category_objects_get_or_create clk "Salary";
      v ← item data "amount";
      amount ← validate_amount v;
      v ← item data "description";
      source ← lift (json_strip v);
      note ← lift (json_strip (default (JStr "") (data !! "note")));
      income ← Income_objects_create clk category source amount (today clk) note;
      mret (success_response 200 "Income transaction created successfully"
                             (IncomeData (fst income) (snd income)))
  | Some Txn.expense =>
      _ ← require_fields ["amount"; "description"] data;
      v ← item data "amount";
      amount ← validate_amount v;
      v ← item data "description";
      title ← lift (json_strip v);
      expense ← Expense_objects_create clk title amount (today clk);
      mret (success_response 200 "Expense transaction created successfully"
                             (ExpenseData (fst expense) (snd expense)))
  end.

Definition post (clk : Clock) (body : option (gmap string json)) (s : Store)
  : JsonResponse * Store :=
  respond "create transaction" (post_body clk body) s.

(** The lookup shared by [put] and [delete]: the income table first, the
    expense table inside its [except Income.DoesNotExist]. *)
Definition find_transaction (transaction_id : json)
  : view (option (Z * Income.t) * option (Z * Expense.t)) :=
  try_ (income_transaction ← Income_objects_get transaction_id;
        mret (Some income_transaction, None))
       [CDoesNotExist MIncome]
       (try_ (expense_transaction ← Expense_objects_get transaction_id;
              mret (None, Some expense_transaction))
             [CDoesNotExist MExpense]
             (return_ (error_response 404 "Transaction not found"))).

(** The branch [if income_transaction:] of [put]. *)
Definition put_income (clk : Clock) (data : gmap string json)
    (income_transaction : Z * Income.t) : view JsonResponse :=
  income_transaction ←
    match data !! "amount" with
    | Some v =>
        amount ← validate_amount v;
        mret (fst income_transaction,
              Income.set_amount amount (snd income_transaction))
    | None => mret income_transaction
    end;
  income_transaction ←
    match data !! "description" with
    | Some v =>
        description ← lift (json_strip v);
        if nonempty description
        then mret (fst income_transaction,
                   Income.set_source description (snd income_transaction))
        else return_ (error_response 400 "Description cannot be empty")
    | None => mret income_transaction
    end;
  income_transaction ← Income_save clk income_transaction;
  mret (success_response 200 "Income transaction updated successfully"
          (IncomeData (fst income_transaction) (snd income_transaction))).

(** The branch [elif expense_transaction:] of [put]. *)
Definition put_expense (clk : Clock) (data : gmap string json)
    (expense_transaction : Z * Expense.t) : view JsonResponse :=
  expense_transaction ←
    match data !! "amount" with
    | Some v =>
        amount ← validate_amount v;
        mret (fst expense_transaction,
              Expense.set_amount amount (snd expense_transaction))
    | None => mret expense_transaction
    end;
  expense_transaction ←
    match data !! "description" with
    | Some v =>
        description ← lift (json_strip v);
        if nonempty description
        then mret (fst expense_transaction,
                   Expense.set_title description (snd expense_transaction))
        else return_ (error_response 400 "Description cannot be empty")
    | None => mret expense_transaction
    end;
  expense_transaction ← Expense_save clk expense_transaction;
  mret (success_response 200 "Expense transaction updated successfully"
          (ExpenseData (fst expense_transaction) (snd expense_transaction))).

Definition put_body (clk : Clock) (body : option (gmap string json))
  : view JsonResponse :=
  data ← json_loads body;
  match data !! "id" with
  | None => return_ (error_response 400 "Missing required field: id")
  | Some transaction_id =>
      found ← find_transaction transaction_id;
      match found with
      | (Some income_transaction, _) => put_income clk data income_transaction
      | (None, Some expense_transaction) => put_expense clk data expense_transaction
      | (None, None) => lift (Exc ValueError)
      end
  end.

Definition put (clk : Clock) (body : option (gmap string json)) (s : Store)
  : JsonResponse * Store :=
  respond "update transaction" (put_body clk body) s.

Definition delete_body (body : option (gmap string json)) : view JsonResponse :=
  data ← json_loads body;
  match data !! "id" with
  | None => return_ (error_response 400 "Missing required field: id")
  | Some transaction_id =>
      found ← find_transaction transaction_id;
      match found with
      | (Some income_transaction, _) =>
          _ ← Income_delete income_transaction;
          mret (success_response 200 "Income transaction deleted successfully"
                  (IncomeData (fst income_transaction) (snd income_transaction)))
      | (None, Some expense_transaction) =>
          _ ← Expense_delete expense_transaction;
          mret (success_response 200 "Expense transaction deleted successfully"
                  (ExpenseData (fst expense_transaction) (snd expense_transaction)))
      | (None, None) => lift (Exc ValueError)
      end
  end.

Definition delete (body : option (gmap string json)) (s : Store)
  : JsonResponse * Store :=
  respond "delete transaction" (delete_body body) s.
End TransactionAPIView.

(** A slice [qs[:limit]] of a queryset: a negative bound is refused. *)
Definition queryset_slice {A} (limit : Z) (q : list A) : py (list A) :=
  if limit <? 0 then Exc ValueError else Val (take (Z.to_nat limit) q).

(** A slice [l[:limit]] of a list: a negative bound counts from the end. *)
Definition list_slice {A} (limit : Z) (l : list A) : list A :=
  if limit <? 0 then take (Z.to_nat (Z.of_nat (List.length l) + limit)) l
  else take (Z.to_nat limit) l.

Module SearchAPIView.
(** [order_by('-date')] *)
Definition income_by_date (q : list (Z * Income.t * Category)) :=
  sort_by (fun a b => date_leb (Income.date (snd (fst b))) (Income.date (snd (fst a)))) q.
Definition expense_by_date (q : list (Z * Expense.t)) :=
  sort_by (fun a b => date_leb (Expense.date (snd b)) (Expense.date (snd a))) q.

Definition income_matches (query : string) (s : Store) :=
  income_by_date (filter (IncomeListView.matches_search query) (Income_select_related s)).
Definition expense_matches (query : string) (s : Store) :=
  expense_by_date (filter (fun r => icontains (Expense.title (snd r)) query)
                          (map_to_list (expenses s))).

(** [int(request.GET.get('limit', 10))] *)
Definition search_limit (GET : gmap string string) : py Z :=
  match GET !! "limit" with
  | Some l => int_of_str l
  | None => Val 10
  end.

Definition get (GET : gmap string string) (s : Store) : JsonResponse :=
  let body : py JsonResponse :=
    let query := strip (GET_get GET "q") in
    let transaction_type := default "all" (GET !! "type") in
    limit ← search_limit GET;
    if negb (nonempty query) then
      Val (mkResponse 200 "success" "No search query provided" (SearchData [] None))
    else
      results ←
        (if String.eqb transaction_type "all" || String.eqb transaction_type "income"
         then income_results ← queryset_slice limit (income_matches query s);
              Val (map income_entry income_results)
         else Val []);
      results ←
        (if String.eqb transaction_type "all" || String.eqb transaction_type "expense"
         then expense_results ← queryset_slice limit (expense_matches query s);
              Val (results ++ map expense_entry expense_results)
         else Val results);
      let results := sort_by_date results in
      Val (mkResponse 200 "success" ""
                      (SearchData (list_slice limit results) (Some (List.length results)))) in
  match body with
  | Val r => r
  | Exc _ => error_response 500 "Search failed"
  end.
End SearchAPIView.

(** ** Vocabulary of the properties *)

(** The number of cents of an amount with exactly two fractional digits, as
    the data model has every stored amount. *)
Definition cents (a : Decimal) : option Z :=
  match a with
  | DFin c 2 => Some c
  | _ => None
  end.

Definition cents_sum (l : list Decimal) : Z :=
  foldr (fun a acc => default 0 (cents a) + acc) 0 l.

Definition stored_amounts (s : Store) : Prop :=
  Forall (fun a => is_Some (cents a)) (income_amounts s)
  /\ Forall (fun a => is_Some (cents a)) (expense_amounts s).

(** Referential integrity: the category of every income exists. *)
Definition fk_ok (s : Store) : Prop :=
  forall pk i, incomes s !! pk = Some i ->
    is_Some (categories s !! Income.category_id i).

Definition income_order (a b : Z * Income.t * Category) : Prop :=
  newest_first (income_key a) (income_key b).
Definition expense_order (a b : Z * Expense.t) : Prop :=
  newest_first (expense_key a) (expense_key b).

(** [a] stands no later than [b] in a list sorted by date, newest first. *)
Definition date_desc (a b : Txn.t) : Prop :=
  date_key (Txn.date b) <= date_key (Txn.date a).

(** [a] is more recent than [b]. *)
Definition newer (a b : Txn.t) : Prop :=
  date_key (Txn.date b) < date_key (Txn.date a).

Definition recent_transactions_of (r : JsonResponse) : list Txn.t :=
  match data r with
  | DashboardData _ _ _ l => l
  | _ => []
  end.

(** All transactions of the store, of both kinds. *)
Definition all_transactions (s : Store) : list Txn.t :=
  map income_entry (Income_select_related s)
  ++ map expense_entry (map_to_list (expenses s)).

(** The wording of the specification for the dashboard list: the [n] most
    recent transactions of the union of both kinds, fewer if fewer exist,
    by date descending. *)
Definition most_recent_of_union (n : nat) (s : Store) (l : list Txn.t) : Prop :=
  List.length l = Nat.min n (List.length (all_transactions s))
  /\ (forall x, x ∈ l -> x ∈ all_transactions s)
  /\ StronglySorted date_desc l
  /\ (forall x y, x ∈ all_transactions s -> x ∉ l -> y ∈ l -> date_desc y x).

Definition results_of (r : JsonResponse) : list Txn.t :=
  match data r with
  | SearchData l _ => l
  | _ => []
  end.

Definition count_of (r : JsonResponse) : option nat :=
  match data r with
  | SearchData _ c => c
  | _ => None
  end.

(** What the specification says a search can do, at a request for both kinds
    and a store: a match beyond the cutoff of its kind is more recent than a
    returned entry of the other kind. *)
Definition cut_match_newer_than_returned (GET : gmap string string) (s : Store) : Prop :=
  let q := strip (GET_get GET "q") in
  exists L m x,
    nonempty q = true
    /\ default "all" (GET !! "type") = "all"
    /\ SearchAPIView.search_limit GET = Val L
    /\ x ∈ results_of (SearchAPIView.get GET s)
    /\ newer m x
    /\ ((m ∈ map income_entry (drop (Z.to_nat L) (SearchAPIView.income_matches q s))
         /\ Txn.type x = Txn.expense)
        \/ (m ∈ map expense_entry (drop (Z.to_nat L) (SearchAPIView.expense_matches q s))
            /\ Txn.type x = Txn.income)).

(** What a partial update asks of the fields of an income: a field the
    request supplies takes the value read from it, any other keeps the value
    of the row [i]. *)
Definition income_fields_after (req : gmap string json) (s : Store)
    (i i' : Income.t) : Prop :=
  match req !! "category_id" with
  | Some v => exists k, pk_of_json v = Val (Some k)
                        /\ is_Some (categories s !! k)
                        /\ Income.category_id i' = k
  | None => Income.category_id i' = Income.category_id i
  end
  /\ match req !! "source" with
     | Some v => exists t, v = JStr t /\ Income.source i' = strip t
     | None => Income.source i' = Income.source i
     end
  /\ match req !! "amount" with
     | Some v => Decimal_of_str (str v) = Val (Income.amount i')
     | None => Income.amount i' = Income.amount i
     end
  /\ match req !! "date" with
     | Some v => json_strptime v = Val (Income.date i')
     | None => Income.date i' = Income.date i
     end
  /\ match req !! "note" with
     | Some v => exists t, v = JStr t /\ Income.note i' = strip t
     | None => Income.note i' = Income.note i
     end.

Definition expense_fields_after (req : gmap string json)
    (x x' : Expense.t) : Prop :=
  match req !! "title" with
  | Some v => exists t, v = JStr t /\ Expense.title x' = strip t
  | None => Expense.title x' = Expense.title x
  end
  /\ match req !! "amount" with
     | Some v => Decimal_of_str (str v) = Val (Expense.amount x')
     | None => Expense.amount x' = Expense.amount x
     end
  /\ match req !! "date" with
     | Some v => json_strptime v = Val (Expense.date x')
     | None => Expense.date x' = Expense.date x
     end.

(** A well-formed amount: a number above zero. *)
Definition amount_ok (v : json) : Prop :=
  exists a, Decimal_of_str (str v) = Val a /\ dec_le a dec_zero = Val false.

(** A partial update of an income whose supplied values are well formed:
    an existing category, a source that is not blank, an amount above zero,
    a calendar date, a note that is text. *)
Definition valid_income_update (req : gmap string json) (s : Store) : Prop :=
  (forall v, req !! "category_id" = Some v ->
     exists k, pk_of_json v = Val (Some k) /\ is_Some (categories s !! k))
  /\ (forall v, req !! "source" = Some v -> exists t, v = JStr t /\ nonempty (strip t) = true)
  /\ (forall v, req !! "amount" = Some v -> amount_ok v)
  /\ (forall v, req !! "date" = Some v -> exists d, json_strptime v = Val d)
  /\ (forall v, req !! "note" = Some v -> exists t, v = JStr t).

Definition valid_expense_update (req : gmap string json) : Prop :=
  (forall v, req !! "title" = Some v -> exists t, v = JStr t /\ nonempty (strip t) = true)
  /\ (forall v, req !! "amount" = Some v -> amount_ok v)
  /\ (forall v, req !! "date" = Some v -> exists d, json_strptime v = Val d).

(** A valid request to create an income through the generic resource: the
    type, an amount above zero, a description that is text and not empty, a
    note that is text when there is one. *)
Definition valid_generic_income (req : gmap string json) : Prop :=
  req !! "type" = Some (JStr "income")
  /\ (exists v, req !! "amount" = Some v /\ truthy v = true /\ amount_ok v)
  /\ (exists t, req !! "description" = Some (JStr t) /\ t <> "")
  /\ (forall v, req !! "note" = Some v -> exists t, v = JStr t).

(** ** Sample data *)

Definition clock_ex : Clock := mkClock 1000 (mkdate 2024 6 15).

Definition income_ex (day_ : Z) (source : string) (cents_ : Z) : Income.t :=
  Income.mk 1 source (DFin cents_ 2) (mkdate 2024 6 day_) "" day_ day_.

(** One category, six incomes from 1 to 6 June 2024 and one expense of
    1 May 2024. *)
Definition store_ex : Store :=
  mkStore
    {[ 1 := mkCategory "Salary" 1 ]}
    (list_to_map
       [ (1, income_ex 1 "Job" 250000); (2, income_ex 2 "Bonus" 50000);
         (3, income_ex 3 "Gift" 10000); (4, income_ex 4 "Job" 250000);
         (5, income_ex 5 "Refund" 1999); (6, income_ex 6 "Job" 250000) ])
    {[ 1 := Expense.mk "Job fair" (DFin 100000 2) (mkdate 2024 5 1) 7 7 ]}.

(** A JSON body for [POST /api/income/]. *)
Definition income_body (amount date : string) : gmap string json :=
  list_to_map
    [ ("category_id", JInt 1); ("source", JStr "Gift");
      ("amount", JStr amount); ("date", JStr date) ].

(** A body for [POST /api/transactions/] that also names a category and a
    date. *)
Definition generic_income_body : gmap string json :=
  list_to_map
    [ ("type", JStr "income"); ("amount", JStr "25.00"); ("description", JStr "Tip");
      ("category", JStr "Business"); ("date", JStr "1999-01-01") ].

(** ** forms.py: the text fields and the reusable validators *)

(** [IncomeForm.clean_source]; [len] counts the characters of the text. *)
Definition clean_source (source : option string) : py (option string) :=
  match source with
  | Some s =>
      if nonempty s then
        let source := strip s in
        if negb (nonempty source)
        then Exc (ValidationError "Source cannot be empty or contain only spaces.")
        else if Nat.ltb (String.length source) 2
        then Exc (ValidationError "Source must be at least 2 characters long.")
        else Val (Some source)
      else Val source
  | None => Val source
  end.

(** [ExpenseForm.clean_title] *)
Definition clean_title (title : option string) : py (option string) :=
  match title with
  | Some s =>
      if nonempty s then
        let title := strip s in
        if negb (nonempty title)
        then Exc (ValidationError "Title cannot be empty or contain only spaces.")
        else if Nat.ltb (String.length title) 2
        then Exc (ValidationError "Title must be at least 2 characters long.")
        else Val (Some title)
      else Val title
  | None => Val title
  end.

(** [validate_positive_amount] *)
Definition validate_positive_amount (value : Decimal) : py unit :=
  le0 ← dec_le value dec_zero;
  if le0 : bool then Exc (ValidationError "Amount must be greater than zero.")
  else Val tt.

(** [validate_reasonable_date] *)
Definition validate_reasonable_date (clk : Clock) (value : Date) : py unit :=
  limit ← replace_year (today clk) (year (today clk) + 1);
  if date_ltb limit value
  then Exc (ValidationError "Date cannot be more than one year in the future.")
  else Val tt.

(** [validate_non_empty_string] *)
Definition validate_non_empty_string (value : option string) : py unit :=
  match value with
  | Some s =>
      if nonempty s && nonempty (strip s) then Val tt
      else Exc (ValidationError "This field cannot be empty or contain only spaces.")
  | None => Exc (ValidationError "This field cannot be empty or contain only spaces.")
  end.

(** ** [date.isoformat()] *)

Definition digit_char (k : Z) : ascii := ascii_of_N (Z.to_N (48 + k)).

(** [d.isoformat()]: the year on four digits, the month and the day on two. *)
Definition isoformat (d : Date) : string :=
  text [ digit_char (year d / 1000 mod 10); digit_char (year d / 100 mod 10);
         digit_char (year d / 10 mod 10); digit_char (year d mod 10); "-"%char;
         digit_char (month d / 10); digit_char (month d mod 10); "-"%char;
         digit_char (day d / 10); digit_char (day d mod 10) ].

(** ** views.py: the dashboard page *)

Module Context.
(** The entries [get_context_data] adds to the template context. *)
Record t := mk {
  total_income : Decimal;
  total_expenses : Decimal;
  current_balance : Decimal;
  recent_income : list (Z * Income.t * Category);
  recent_expenses : list (Z * Expense.t) }.
End Context.

(** [DashboardView.get_recent_income] *)
Definition DashboardView_get_recent_income (limit : Z) (s : Store)
  : py (list (Z * Income.t * Category)) :=
  queryset_slice limit (order_incomes (Income_select_related s)).

(** [DashboardView.get_recent_expenses] *)
Definition DashboardView_get_recent_expenses (limit : Z) (s : Store)
  : py (list (Z * Expense.t)) :=
  queryset_slice limit (order_expenses (map_to_list (expenses s))).

(** [DashboardView.get_context_data], for the entries it adds; both lists
    are asked with the default limit of 5. *)
Definition DashboardView_get_context_data (s : Store) : py Context.t :=
  total_income ← DashboardView.calculate_total_income s;
  total_expenses ← DashboardView.calculate_total_expenses s;
  current_balance ← DashboardView.calculate_balance total_income total_expenses;
  recent_income ← DashboardView_get_recent_income 5 s;
  recent_expenses ← DashboardView_get_recent_expenses 5 s;
  Val (Context.mk total_income total_expenses current_balance recent_income
                  recent_expenses).

(** ** views.py: reading and deleting through the JSON views *)

(** The answer of a view that reads: the status with the payload, or the
    status with the message of an error envelope. *)
Inductive answer (A : Type) :=
| Success (code : Z) (content : A)
| Failure (code : Z) (msg : string).
Arguments Success {A} code content.
Arguments Failure {A} code msg.

Definition answer_code {A} (a : answer A) : Z :=
  match a with
  | Success c _ | Failure c _ => c
  end.

(** What [IncomeAPIView.get] sends: one income with its category, or the
    listing with its statistics. *)
Inductive income_content :=
| IncomeDetail (income : Z * Income.t * Category)
| IncomeListing (transactions : list (Z * Income.t * Category))
                (total : Decimal) (count : nat).

Inductive expense_content :=
| ExpenseDetail (expense : Z * Expense.t)
| ExpenseListing (transactions : list (Z * Expense.t))
                 (total : Decimal) (count : nat).

(** [Income.objects.select_related('category').get(pk=pk)] for an integer
    key: the row of the join, which has no row for an income without its
    category. *)
Definition Income_select_related_get (pk : Z) (s : Store)
  : py (Z * Income.t * Category) :=
  match incomes s !! pk with
  | Some i =>
      match categories s !! Income.category_id i with
      | Some c => Val (pk, i, c)
      | None => Exc (DoesNotExist MIncome)
      end
  | None => Exc (DoesNotExist MIncome)
  end.

(** The test [if pk:] on the key of the URL, [None] when the URL has none. *)
Definition pk_given (pk : option Z) : option Z :=
  match pk with
  | Some z => if z =? 0 then None else Some z
  | None => None
  end.

(** [IncomeAPIView.get] *)
Definition IncomeAPIView_get (pk : option Z) (s : Store) : answer income_content :=
  let body : py (answer income_content) :=
    match pk_given pk with
    | Some pk =>
        py_try (income ← Income_select_related_get pk s;
                Val (Success 200 (IncomeDetail income)))
               [CDoesNotExist MIncome]
               (Val (Failure 404 "Income transaction not found"))
    | None =>
        let income_list := order_incomes (Income_select_related s) in
        let transactions := income_list in
        total_income ← or_zero <$> Sum (income_amounts s);
        Val (Success 200 (IncomeListing transactions total_income
                                        (List.length transactions)))
    end in
  match body with
  | Val r => r
  | Exc _ => Failure 500 "Failed to retrieve income data"
  end.

(** [ExpenseAPIView.get] *)
Definition ExpenseAPIView_get (pk : option Z) (s : Store) : answer expense_content :=
  let body : py (answer expense_content) :=
    match pk_given pk with
    | Some pk =>
        py_try (expense ← objects_get MExpense (expenses s) (JInt pk);
                Val (Success 200 (ExpenseDetail expense)))
               [CDoesNotExist MExpense]
               (Val (Failure 404 "Expense transaction not found"))
    | None =>
        let expense_list := order_expenses (map_to_list (expenses s)) in
        let transactions := expense_list in
        total_expenses ← or_zero <$> Sum (expense_amounts s);
        Val (Success 200 (ExpenseListing transactions total_expenses
                                         (List.length transactions)))
    end in
  match body with
  | Val r => r
  | Exc _ => Failure 500 "Failed to retrieve expense data"
  end.

(** [IncomeAPIView.delete]: [except Income.DoesNotExist] answers 404, any
    other exception 500. *)
Definition IncomeAPIView_delete (pk : Z) (s : Store) : JsonResponse * Store :=
  let body : view JsonResponse :=
    income ← Income_objects_get (JInt pk);
    _ ← Income_delete income;
    mret (success_response 200 "Income transaction deleted successfully"
                           (IncomeData (fst income) (snd income))) in
  match body s with
  | (Next r, s') | (Return r, s') => (r, s')
  | (Raise (DoesNotExist MIncome), s') =>
      (error_response 404 "Income transaction not found", s')
  | (Raise _, s') => (error_response 500 "Failed to delete income transaction", s')
  end.

(** [ExpenseAPIView.delete] *)
Definition ExpenseAPIView_delete (pk : Z) (s : Store) : JsonResponse * Store :=
  let body : view JsonResponse :=
    expense ← Expense_objects_get (JInt pk);
    _ ← Expense_delete expense;
    mret (success_response 200 "Expense transaction deleted successfully"
                           (ExpenseData (fst expense) (snd expense))) in
  match body s with
  | (Next r, s') | (Return r, s') => (r, s')
  | (Raise (DoesNotExist MExpense), s') =>
      (error_response 404 "Expense transaction not found", s')
  | (Raise _, s') => (error_response 500 "Failed to delete expense transaction", s')
  end.

(** An entry of the listing of [TransactionAPIView.get], as the record it
    is built from: an income with its category, or an expense. *)
Definition transaction_row : Type := (Z * Income.t * Category) + (Z * Expense.t).

Definition row_date (r : transaction_row) : Date :=
  match r with
  | inl i => Income.date (snd (fst i))
  | inr e => Expense.date (snd e)
  end.

Module Stats.
(** The listing of [TransactionAPIView.get] and its [stats]. *)
Record t := mk {
  transactions : list transaction_row;
  totalIncome : Decimal;
  totalExpenses : Decimal;
  currentBalance : Decimal;
  totalTransactions : nat }.
End Stats.

(** [TransactionAPIView.get] *)
Definition TransactionAPIView_get (s : Store) : answer Stats.t :=
  let body : py (answer Stats.t) :=
    let income_list := order_incomes (Income_select_related s) in
    let expense_list := order_expenses (map_to_list (expenses s)) in
    let transactions := map inl income_list ++ map inr expense_list in
    let transactions :=
      sort_by (fun a b : transaction_row => date_leb (row_date b) (row_date a))
              transactions in
    total_income ← or_zero <$> Sum (income_amounts s);
    total_expenses ← or_zero <$> Sum (expense_amounts s);
    current_balance ← dec_sub total_income total_expenses;
    Val (Success 200 (Stats.mk transactions total_income total_expenses
                               current_balance (List.length transactions))) in
  match body with
  | Val r => r
  | Exc _ => Failure 500 "Failed to retrieve transaction data"
  end.

(** ** admin.py *)

Module AdminStats.
Record t := mk {
  total_income : Decimal;
  total_expenses : Decimal;
  income_count : nat;
  expense_count : nat;
  categories_count : nat;
  balance : Decimal }.
End AdminStats.

(** [x or 0] for the result of an aggregate. *)
Definition or_int_zero (total : option Decimal) : Decimal :=
  match total with
  | Some t => if dec_bool t then t else dec_zero
  | None => dec_zero
  end.

(** [admin_summary_stats] *)
Definition admin_summary_stats (s : Store) : py AdminStats.t :=
  total_income ← or_int_zero <$> Sum (income_amounts s);
  total_expenses ← or_int_zero <$> Sum (expense_amounts s);
  let income_count := size (incomes s) in
  let expense_count := size (expenses s) in
  let categories_count := size (categories s) in
  balance ← dec_sub total_income total_expenses;
  Val (AdminStats.mk total_income total_expenses income_count expense_count
                     categories_count balance).

(** ** views.py: the totals of the list pages *)

Module ListContext.
(** The two entries [get_context_data] computes from the filtered rows. *)
Record t := mk {
  total : Decimal;
  filtered_count : nat }.
End ListContext.

(** [IncomeListView.get_context_data], for [total_income] and
    [filtered_count]. *)
Definition IncomeListView_get_context_data
    (request : option (gmap string string)) (s : Store) : py ListContext.t :=
  filtered_queryset ← IncomeListView.get_queryset request s;
  total_income ←
    or_zero <$> Sum (map (fun r => Income.amount (snd (fst r))) filtered_queryset);
  Val (ListContext.mk total_income (List.length filtered_queryset)).

(** [ExpenseListView.get_context_data], for [total_expenses] and
    [filtered_count]. *)
Definition ExpenseListView_get_context_data
    (request : option (gmap string string)) (s : Store) : py ListContext.t :=
  filtered_queryset ← ExpenseListView.get_queryset request s;
  total_expenses ←
    or_zero <$> Sum (map (fun r => Expense.amount (snd r)) filtered_queryset);
  Val (ListContext.mk total_expenses (List.length filtered_queryset)).

(** ** Vocabulary of the further properties *)

(** A date of the calendar, as the constructor [date] accepts it. *)
Definition calendar_date (d : Date) : Prop :=
  make_date (year d) (month d) (day d) = Val d.

(** The value of a finite decimal lies in the interval from 0, excluded, to
    99999999.99, included. *)
Definition within_amount_bounds (a : Decimal) : Prop :=
  match a with
  | DFin c p => 0 < c /\ c * 100 <= 9999999999 * pow10 p
  | _ => False
  end.

(** The value of a decimal is above zero: a positive finite one, or the
    positive infinity. *)
Definition above_zero (a : Decimal) : Prop :=
  match a with
  | DFin c _ => 0 < c
  | DInf negative => negative = false
  | DNaN => False
  end.

(** The filters of a request on the expense list, each as a test on a row;
    a filter that is absent, or a date that is no date, tests nothing. *)
Definition search_holds (GET : gmap string string) (field : string) : bool :=
  let q := strip (GET_get GET "search") in
  negb (nonempty q) || icontains field q.

Definition date_from_holds (GET : gmap string string) (d : Date) : bool :=
  match strptime_date (strip (GET_get GET "date_from")) with
  | Val from => date_leb from d
  | Exc _ => true
  end.

Definition date_to_holds (GET : gmap string string) (d : Date) : bool :=
  match strptime_date (strip (GET_get GET "date_to")) with
  | Val to => date_leb d to
  | Exc _ => true
  end.

Definition amount_min_holds (GET : gmap string string) (a : Decimal) : bool :=
  match Decimal_of_str (strip (GET_get GET "amount_min")) with
  | Val m => amount_gte a m
  | Exc _ => true
  end.

Definition amount_max_holds (GET : gmap string string) (a : Decimal) : bool :=
  match Decimal_of_str (strip (GET_get GET "amount_max")) with
  | Val m => amount_lte a m
  | Exc _ => true
  end.

(** An amount bound that is given and is no number. *)
Definition bad_amount_filter (GET : gmap string string) (k : string) : Prop :=
  nonempty (strip (GET_get GET k)) = true
  /\ Decimal_of_str (strip (GET_get GET k)) = Exc InvalidOperation.

Definition expense_passes (GET : gmap string string) (r : Z * Expense.t) : Prop :=
  search_holds GET (Expense.title (snd r))
  /\ date_from_holds GET (Expense.date (snd r))
  /\ date_to_holds GET (Expense.date (snd r))
  /\ amount_min_holds GET (Expense.amount (snd r))
  /\ amount_max_holds GET (Expense.amount (snd r)).

Definition income_passes (GET : gmap string string) (r : Z * Income.t * Category) : Prop :=
  (nonempty (strip (GET_get GET "search")) = true ->
   IncomeListView.matches_search (strip (GET_get GET "search")) r = true)
  /\ (nonempty (strip (GET_get GET "category")) = true ->
      name (snd r) = strip (GET_get GET "category"))
  /\ date_from_holds GET (Income.date (snd (fst r)))
  /\ date_to_holds GET (Income.date (snd (fst r)))
  /\ amount_min_holds GET (Income.amount (snd (fst r)))
  /\ amount_max_holds GET (Income.amount (snd (fst r))).

(** A run of characters that does not begin with a blank. *)
Definition no_blank_head (l : list ascii) : Prop :=
  match l with
  | c :: _ => is_space c = false
  | [] => True
  end.

(** An answer that refuses a request: a status from 400 to 499 with the
    status text [error]. *)
Definition refusal (r : JsonResponse) : Prop :=
  400 <= http_status r < 500 /\ status r = "error" /\ data r = NoData.

(** A step of a view that reads only: it leaves the store as it is, and an
    answer it returns is a refusal. *)
Definition reads_only {A} (v : view A) : Prop :=
  forall s o s', v s = (o, s') ->
    s' = s /\ match o with
              | Return r => refusal r
              | _ => True
              end.

(** An answer that reports a failure: a refusal or the status 500, with the
    status text [error] and no data. *)
Definition failure (r : JsonResponse) : Prop :=
  (400 <= http_status r < 500 \/ http_status r = 500)
  /\ status r = "error" /\ data r = NoData.

(** A step of a view that never leaves the view with the message [m]. *)
Definition never_says {A} (m : string) (v : view A) : Prop :=
  forall s o s', v s = (o, s') ->
    match o with
    | Return r => message r <> m
    | _ => True
    end.

(** A view body whose answer, returned early or at its end, never has the
    message [m]. *)
Definition answers_without (m : string) (v : view JsonResponse) : Prop :=
  forall s o s', v s = (o, s') ->
    match o with
    | Return r | Next r => message r <> m
    | Raise _ => True
    end.

(** An amount bound of a request that is absent or blank, or a number the
    amount column can hold: two fractional digits at most and eight digits
    before them.  The lookup compares with such a bound as it is. *)
Definition column_bound (GET : gmap string string) (k : string) : Prop :=
  strip (GET_get GET k) = ""
  \/ exists c p, Decimal_of_str (strip (GET_get GET k)) = Val (DFin c p)
                 /\ (p <= 2)%nat /\ Z.abs c * pow10 (2 - p) < 10000000000.

(** The entries of a listing of both kinds that bear the date of key [k], and
    the order of such a listing: newest first. *)
Definition on_date (k : Z) (r : transaction_row) : Prop := date_key (row_date r) = k.

Definition row_desc (a b : transaction_row) : Prop :=
  date_key (row_date b) <= date_key (row_date a).

#[global] Instance on_date_dec k r : Decision (on_date k r) :=
  Z.eq_dec (date_key (row_date r)) k.

(** No two categories bear the same name, as the data model requires. *)
Definition category_names_unique (s : Store) : Prop :=
  forall k1 k2 c1 c2,
    categories s !! k1 = Some c1 -> categories s !! k2 = Some c2 ->
    name c1 = name c2 -> k1 = k2.

(** ** Checks of the value layer *)

Example Decimal_of_str_plain : Decimal_of_str "12.50" = Val (DFin 1250 2).
Proof. reflexivity. Qed.

Example Decimal_of_str_exponent : Decimal_of_str " -1e3 " = Val (DFin (-1000) 0).
Proof. reflexivity. Qed.

Example Decimal_of_str_underscore : Decimal_of_str "1_000.5" = Val (DFin 10005 1).
Proof. reflexivity. Qed.

Example Decimal_of_str_infinity : Decimal_of_str "Infinity" = Val (DInf false).
Proof. reflexivity. Qed.

Example Decimal_of_str_malformed :
  Decimal_of_str "abc" = Exc InvalidOperation
  /\ Decimal_of_str "" = Exc InvalidOperation
  /\ Decimal_of_str "." = Exc InvalidOperation
  /\ Decimal_of_str "1e" = Exc InvalidOperation.
Proof. repeat split; reflexivity. Qed.

Example str_of_int : str (JInt (-120)) = "-120".
Proof. reflexivity. Qed.

Example strptime_leap_day :
  strptime_date "2024-02-29" = Val (mkdate 2024 2 29)
  /\ strptime_date "2023-02-29" = Exc ValueError.
Proof. split; reflexivity. Qed.

Example strptime_short_fields : strptime_date "2024-1-5" = Val (mkdate 2024 1 5).
Proof. reflexivity. Qed.

Example strptime_malformed :
  strptime_date "2024-13-01" = Exc ValueError
  /\ strptime_date "2024-01-32" = Exc ValueError
  /\ strptime_date "2024-01-05x" = Exc ValueError
  /\ strptime_date "24-01-05" = Exc ValueError.
Proof. repeat split; reflexivity. Qed.

Example int_of_str_examples :
  int_of_str " -12 " = Val (-12) /\ int_of_str "1_000" = Val 1000
  /\ int_of_str "1a" = Exc ValueError /\ int_of_str "" = Exc ValueError.
Proof. repeat split; reflexivity. Qed.

Example strip_example : strip "  a b  " = "a b".
Proof. reflexivity. Qed.

Example icontains_example :
  icontains "Big Salary" "sal" = true /\ icontains "Rent" "sal" = false.
Proof. split; reflexivity. Qed.

Example clean_amount_bounds :
  clean_amount (Some (DFin 9999999999 2)) = Val (Some (DFin 9999999999 2))
  /\ clean_amount (Some (DFin 1 2)) = Val (Some (DFin 1 2))
  /\ clean_amount (Some (DFin 0 2))
     = Exc (ValidationError "Amount must be greater than zero.")
  /\ clean_amount None = Val None.
Proof. repeat split; reflexivity. Qed.

Example clean_date_bounds :
  clean_date (mkClock 0 (mkdate 2024 6 15)) (Some (mkdate 2025 6 15))
    = Val (Some (mkdate 2025 6 15))
  /\ clean_date (mkClock 0 (mkdate 2024 6 15)) (Some (mkdate 2025 6 16))
     = Exc (ValidationError "Date cannot be more than one year in the future.").
Proof. split; reflexivity. Qed.

Example sort_is_stable :
  sort_by (fun a b : Z * Z => fst b <=? fst a) [(1, 10); (2, 20); (1, 30); (2, 40)]
  = [(2, 20); (2, 40); (1, 10); (1, 30)].
Proof. reflexivity. Qed.

(** ** Sorting *)

Section sort_by.
Context {A : Type} (before : A -> A -> bool).

Lemma insert_by_Permutation x l : insert_by before x l ≡ₚ x :: l.
Proof.
  induction l as [|y l IH]; simpl; [done|].
  destruct (before x y); [done|].
  rewrite IH. apply Permutation_swap.
Qed.

Lemma sort_by_Permutation l : sort_by before l ≡ₚ l.
Proof.
  induction l as [|x l IH]; simpl; [done|].
  rewrite insert_by_Permutation. by f_equiv.
Qed.

Lemma sort_by_length l : List.length (sort_by before l) = List.length l.
Proof. by rewrite sort_by_Permutation. Qed.

Lemma elem_of_sort_by x l : x ∈ sort_by before l <-> x ∈ l.
Proof. by rewrite sort_by_Permutation. Qed.

Hypothesis before_total : forall x y, before x y = false -> before y x = true.
Hypothesis before_trans :
  forall x y z, before x y = true -> before y z = true -> before x z = true.

Lemma insert_by_sorted x l :
  StronglySorted (fun a b => before a b) l ->
  StronglySorted (fun a b => before a b) (insert_by before x l).
Proof.
  induction 1 as [|y l Hl IH Hy]; simpl.
  - repeat constructor.
  - destruct (before x y) eqn:Hxy.
    + constructor; [by constructor|].
      constructor; [by rewrite Hxy|].
      eapply Forall_impl; [exact Hy|]. intros z Hz. simpl in *.
      apply Is_true_true. apply Is_true_true in Hz. eauto.
    + constructor; [done|].
      rewrite insert_by_Permutation. constructor; [|done].
      apply Is_true_true. auto.
Qed.

Lemma sort_by_sorted l : StronglySorted (fun a b => before a b) (sort_by before l).
Proof.
  induction l as [|x l IH]; simpl; [constructor|]. by apply insert_by_sorted.
Qed.

End sort_by.

Lemma StronglySorted_filter {A} (R : relation A) (P : A -> Prop)
    `{!forall x, Decision (P x)} l :
  StronglySorted R l -> StronglySorted R (filter P l).
Proof.
  induction 1 as [|x l Hl IH Hx]; [constructor|].
  rewrite filter_cons. case_decide; [|done].
  constructor; [done|].
  apply Forall_forall. intros y [_ Hy]%list_elem_of_filter.
  by eapply Forall_forall in Hx.
Qed.

Lemma StronglySorted_take {A} (R : relation A) n l :
  StronglySorted R l -> StronglySorted R (take n l).
Proof.
  intros H. rewrite <- (take_drop n l) in H. by apply StronglySorted_app_1_l in H.
Qed.

Lemma StronglySorted_take_drop {A} (R : relation A) n l x y :
  StronglySorted R l -> x ∈ take n l -> y ∈ drop n l -> R x y.
Proof.
  intros H Hx Hy. rewrite <- (take_drop n l) in H.
  eapply StronglySorted_app_1_elem_of; eauto.
Qed.

(** ** Totals and balance *)

Lemma dec_add_cents a b : dec_add (DFin a 2) (DFin b 2) = Val (DFin (a + b) 2).
Proof. unfold dec_add, pow10. simpl. do 2 f_equal. lia. Qed.

Lemma dec_sub_cents a b : dec_sub (DFin a 2) (DFin b 2) = Val (DFin (a - b) 2).
Proof. unfold dec_sub. simpl dec_neg. by rewrite dec_add_cents. Qed.

Lemma sum_from_cents acc l :
  Forall (fun a => is_Some (cents a)) l ->
  sum_from (DFin acc 2) l = Val (DFin (acc + cents_sum l) 2).
Proof.
  intros H. revert acc. induction H as [|a l [c Hc] _ IH]; intros acc.
  - simpl. do 2 f_equal. lia.
  - destruct a as [c' [|[|[|p]]]| |]; try discriminate Hc.
    injection Hc as ->.
    cbn [sum_from]. rewrite dec_add_cents.
    change (sum_from (DFin (acc + c) 2) l = Val (DFin (acc + (c + cents_sum l)) 2)).
    rewrite IH. do 2 f_equal. lia.
Qed.

Lemma Sum_cents l :
  Forall (fun a => is_Some (cents a)) l ->
  (total ← Sum l; Val (match total with Some t => t | None => zero_00 end))
    = Val (DFin (cents_sum l) 2)
  /\ or_zero <$> Sum l = Val (DFin (cents_sum l) 2).
Proof.
  destruct 1 as [|a l [c Hc] Hl]; [done|].
  destruct a as [c' [|[|[|p]]]| |]; try discriminate Hc.
  injection Hc as ->.
  unfold Sum. rewrite (sum_from_cents _ _ Hl).
  change (cents_sum (DFin c 2 :: l)) with (c + cents_sum l).
  split; [done|]. simpl.
  unfold or_zero, dec_bool. destruct (_ =? 0) eqn:E; simpl; [|done].
  apply Z.eqb_eq in E. by rewrite E.
Qed.

Lemma cents_sum_Permutation l l' : l ≡ₚ l' -> cents_sum l = cents_sum l'.
Proof. induction 1; simpl; lia. Qed.



(** ** The orders of the listings *)

Lemma StronglySorted_weaken {A} (R R' : relation A) l :
  (forall x y, R x y -> R' x y) -> StronglySorted R l -> StronglySorted R' l.
Proof.
  intros HR. induction 1 as [|x l Hl IH Hx]; constructor; [done|].
  eapply Forall_impl; eauto.
Qed.

Lemma newest_first_total a b : newest_first a b = false -> newest_first b a = true.
Proof.
  unfold newest_first, date_ltb. intros H.
  apply orb_false_iff in H as [H1 H2]. apply andb_false_iff in H2.
  apply orb_true_iff. rewrite andb_true_iff.
  rewrite Z.ltb_ge in H1. rewrite Z.ltb_lt, Z.eqb_eq, Z.leb_le.
  rewrite Z.eqb_neq, Z.leb_gt in H2. lia.
Qed.

Lemma newest_first_trans a b c :
  newest_first a b = true -> newest_first b c = true -> newest_first a c = true.
Proof.
  unfold newest_first, date_ltb.
  rewrite !orb_true_iff, !andb_true_iff, !Z.ltb_lt, !Z.eqb_eq, !Z.leb_le. lia.
Qed.

Lemma order_incomes_sorted q : StronglySorted income_order (order_incomes q).
Proof.
  eapply StronglySorted_weaken; [|apply sort_by_sorted].
  - intros x y H. exact H.
  - intros x y. apply newest_first_total.
  - intros x y z. apply newest_first_trans.
Qed.

Lemma order_expenses_sorted q : StronglySorted expense_order (order_expenses q).
Proof.
  eapply StronglySorted_weaken; [|apply sort_by_sorted].
  - intros x y H. exact H.
  - intros x y. apply newest_first_total.
  - intros x y z. apply newest_first_trans.
Qed.

Lemma sort_by_date_sorted l : StronglySorted date_desc (sort_by_date l).
Proof.
  eapply StronglySorted_weaken; [|apply sort_by_sorted].
  - intros x y H. apply Is_true_true in H. unfold date_desc.
    unfold date_leb in H. by apply Z.leb_le.
  - intros x y. unfold date_leb. rewrite Z.leb_gt, Z.leb_le. lia.
  - intros x y z. unfold date_leb. rewrite !Z.leb_le. lia.
Qed.

Lemma sort_by_date_Permutation l : sort_by_date l ≡ₚ l.
Proof. apply sort_by_Permutation. Qed.

(** ** The dashboard list *)


Lemma dashboard_succeeds s :
  stored_amounts s ->
  exists ti te b l, data (DashboardDataAPIView.get s) = DashboardData ti te b l.
Proof.
  intros [Hi He]. unfold DashboardDataAPIView.get.
  destruct (Sum_cents _ Hi) as [_ ->]. destruct (Sum_cents _ He) as [_ ->].
  cbn [mbind py_bind]. rewrite dec_sub_cents. cbn [mbind py_bind]. simpl. eauto.
Qed.



(** ** Validation in the JSON views *)


(** C4. With today 15 June 2024 the form rule refuses 1 January 2031, and
    the JSON views do not: the create answers 201 and stores the record, the
    update answers 200 and changes the stored date. *)
Theorem C4_api_accepts_date_beyond_one_year :
  clean_date clock_ex (Some (mkdate 2031 1 1))
    = Exc (ValidationError "Date cannot be more than one year in the future.")
  /\ json_strptime (JStr "2031-01-01") = Val (mkdate 2031 1 1)
  /\ (let r := IncomeAPIView.post clock_ex (Some (income_body "25.00" "2031-01-01"))
                 store_ex in
      http_status (fst r) = 201
      /\ incomes store_ex !! 7 = None
      /\ Income.date <$> incomes (snd r) !! 7 = Some (mkdate 2031 1 1))
  /\ (let r := IncomeAPIView.put clock_ex (Some {[ "date" := JStr "2031-01-01" ]}) 1
                 store_ex in
      http_status (fst r) = 200
      /\ Income.date <$> incomes store_ex !! 1 = Some (mkdate 2024 6 1)
      /\ Income.date <$> incomes (snd r) !! 1 = Some (mkdate 2031 1 1)).
Proof. vm_compute. repeat split; reflexivity. Qed.

(** ** Filters of the list views *)

(** C7. An amount filter that is no number is not dropped: [Decimal] raises
    [InvalidOperation], which [except (ValueError, TypeError)] does not
    catch, so the query raises instead of succeeding; this on every store,
    for both list views and both bounds.  A date filter that is no date is
    dropped, as the specification says. *)
Theorem C7_malformed_amount_filter_raises (s : Store) :
  IncomeListView.get_queryset (Some {[ "amount_min" := "abc" ]}) s = Exc InvalidOperation
  /\ IncomeListView.get_queryset (Some {[ "amount_max" := "abc" ]}) s = Exc InvalidOperation
  /\ ExpenseListView.get_queryset (Some {[ "amount_min" := "abc" ]}) s = Exc InvalidOperation
  /\ ExpenseListView.get_queryset (Some {[ "amount_max" := "abc" ]}) s = Exc InvalidOperation
  /\ IncomeListView.get_queryset (Some {[ "date_from" := "abc" ]}) s
     = IncomeListView.get_queryset (Some ∅) s
  /\ isinstance InvalidOperation CValueError = false
  /\ isinstance InvalidOperation CTypeError = false.
Proof. repeat split; reflexivity. Qed.

(** ** Steps of the JSON views *)

Lemma Decimal_of_str_raises s e : Decimal_of_str s = Exc e -> e = InvalidOperation.
Proof.
  unfold Decimal_of_str.
  destruct (match filter _ _ with [] => None | _ => _ end); [discriminate|].
  by intros [= <-].
Qed.

Lemma dec_le_raises a b e : dec_le a b = Exc e -> e = InvalidOperation.
Proof. unfold dec_le. destruct (dec_compare a b) as [[]|]; by intros [= <-]. Qed.

(** The outcomes of the amount block: the amount, a 400 answer, or
    [InvalidOperation] passed on; the store is left as it is. *)
Lemma validate_amount_cases v s :
  (exists a, Decimal_of_str (str v) = Val a /\ dec_le a dec_zero = Val false
             /\ validate_amount v s = (Next a, s))
  \/ (exists m, validate_amount v s = (Return (error_response 400 m), s))
  \/ validate_amount v s = (Raise InvalidOperation, s).
Proof.
  unfold validate_amount, try_, mbind, view_bind, lift, mret, view_ret, return_.
  destruct (Decimal_of_str (str v)) as [a|e] eqn:Ha.
  - destruct (dec_le a dec_zero) as [[]|e] eqn:Hle.
    + right; left. eauto.
    + left. exists a. done.
    + apply dec_le_raises in Hle as ->. right; right. done.
  - apply Decimal_of_str_raises in Ha as ->. right; right. done.
Qed.

Lemma find_transaction_spec tid z s :
  pk_of_json tid = Val (Some z) ->
  TransactionAPIView.find_transaction tid s =
    match incomes s !! z with
    | Some i => (Next (Some (z, i), None), s)
    | None =>
        match expenses s !! z with
        | Some e => (Next (None, Some (z, e)), s)
        | None => (Return (error_response 404 "Transaction not found"), s)
        end
    end.
Proof.
  intros Hpk. unfold TransactionAPIView.find_transaction, try_.
  unfold Income_objects_get, Expense_objects_get, objects_get.
  unfold mbind, view_bind, py_bind, lift, mret, view_ret, return_. rewrite Hpk.
  destruct (incomes s !! z); [done|]. simpl.
  destruct (expenses s !! z); done.
Qed.

Ltac view_steps :=
  unfold json_loads, item;
  unfold mbind, view_bind, py_bind, lift, mret, view_ret, return_;
  cbv beta iota zeta.

Ltac amount_cases v s :=
  let a := fresh "a" in let m := fresh "m" in
  let H1 := fresh "Hparse" in let H2 := fresh "Hpos" in let H := fresh "Hamount" in
  destruct (validate_amount_cases v s) as [(a & H1 & H2 & H)|[[m H]|H]];
  rewrite H.

(** ** The combined transaction resource *)

Lemma json_strip_raises v e : json_strip v = Exc e -> e = AttributeError.
Proof. destruct v; simpl; congruence. Qed.

(** The outcomes of the income branch of the update: a 200 answer with the
    row saved under the same key, a 400 answer, or an exception that is not
    a JSON error; in the last two the store is left as it is. *)
Lemma put_income_cases clk req z i s :
  (exists i', TransactionAPIView.put_income clk req (z, i) s
              = (Next (success_response 200 "Income transaction updated successfully"
                                        (IncomeData z i')),
                 set_incomes (<[z := i']> (incomes s)) s))
  \/ (exists m, TransactionAPIView.put_income clk req (z, i) s
                = (Return (error_response 400 m), s))
  \/ (exists e, e <> JSONDecodeError
                /\ TransactionAPIView.put_income clk req (z, i) s = (Raise e, s)).
Proof.
  unfold TransactionAPIView.put_income, Income_save. view_steps.
  destruct (req !! "amount") as [v|].
  - amount_cases v s; [|by right; left; eauto|by right; right; exists InvalidOperation].
    destruct (req !! "description") as [w|]; [|by left; eauto].
    destruct (json_strip w) as [t|e'] eqn:Hw.
    + destruct (nonempty t); [by left; eauto|by right; left; eauto].
    + apply json_strip_raises in Hw as ->. right; right. by exists AttributeError.
  - destruct (req !! "description") as [w|]; [|by left; eauto].
    destruct (json_strip w) as [t|e'] eqn:Hw.
    + destruct (nonempty t); [by left; eauto|by right; left; eauto].
    + apply json_strip_raises in Hw as ->. right; right. by exists AttributeError.
Qed.

Lemma put_expense_cases clk req z x s :
  (exists x', TransactionAPIView.put_expense clk req (z, x) s
              = (Next (success_response 200 "Expense transaction updated successfully"
                                        (ExpenseData z x')),
                 set_expenses (<[z := x']> (expenses s)) s))
  \/ (exists m, TransactionAPIView.put_expense clk req (z, x) s
                = (Return (error_response 400 m), s))
  \/ (exists e, e <> JSONDecodeError
                /\ TransactionAPIView.put_expense clk req (z, x) s = (Raise e, s)).
Proof.
  unfold TransactionAPIView.put_expense, Expense_save. view_steps.
  destruct (req !! "amount") as [v|].
  - amount_cases v s; [|by right; left; eauto|by right; right; exists InvalidOperation].
    destruct (req !! "description") as [w|]; [|by left; eauto].
    destruct (json_strip w) as [t|e'] eqn:Hw.
    + destruct (nonempty t); [by left; eauto|by right; left; eauto].
    + apply json_strip_raises in Hw as ->. right; right. by exists AttributeError.
  - destruct (req !! "description") as [w|]; [|by left; eauto].
    destruct (json_strip w) as [t|e'] eqn:Hw.
    + destruct (nonempty t); [by left; eauto|by right; left; eauto].
    + apply json_strip_raises in Hw as ->. right; right. by exists AttributeError.
Qed.

Lemma respond_next what body s r s' :
  body s = (Next r, s') -> respond what body s = (r, s').
Proof. unfold respond. by intros ->. Qed.

Lemma respond_return what body s r s' :
  body s = (Return r, s') -> respond what body s = (r, s').
Proof. unfold respond. by intros ->. Qed.

Lemma respond_raise what body s e s' :
  body s = (Raise e, s') -> e <> JSONDecodeError ->
  respond what body s = (error_response 500 ("Failed to " +:+ what), s').
Proof. unfold respond. intros -> He. by destruct e. Qed.

Lemma transaction_put_body clk req tid z s :
  req !! "id" = Some tid -> pk_of_json tid = Val (Some z) ->
  TransactionAPIView.put_body clk (Some req) s =
    match incomes s !! z with
    | Some i => TransactionAPIView.put_income clk req (z, i) s
    | None =>
        match expenses s !! z with
        | Some x => TransactionAPIView.put_expense clk req (z, x) s
        | None => (Return (error_response 404 "Transaction not found"), s)
        end
    end.
Proof.
  intros Hid Hpk. unfold TransactionAPIView.put_body. view_steps.
  rewrite Hid, (find_transaction_spec _ _ _ Hpk).
  destruct (incomes s !! z); [done|]. by destruct (expenses s !! z).
Qed.

Lemma transaction_delete_body req tid z s :
  req !! "id" = Some tid -> pk_of_json tid = Val (Some z) ->
  TransactionAPIView.delete_body (Some req) s =
    match incomes s !! z with
    | Some i =>
        (Next (success_response 200 "Income transaction deleted successfully"
                                (IncomeData z i)),
         set_incomes (delete z (incomes s)) s)
    | None =>
        match expenses s !! z with
        | Some x =>
            (Next (success_response 200 "Expense transaction deleted successfully"
                                    (ExpenseData z x)),
             set_expenses (delete z (expenses s)) s)
        | None => (Return (error_response 404 "Transaction not found"), s)
        end
    end.
Proof.
  intros Hid Hpk. unfold TransactionAPIView.delete_body. view_steps.
  rewrite Hid, (find_transaction_spec _ _ _ Hpk).
  destruct (incomes s !! z); [done|]. by destruct (expenses s !! z).
Qed.



(** ** Partial updates *)

Ltac view_steps_in H :=
  unfold json_loads, item in H;
  unfold mbind, view_bind, py_bind, lift, mret, view_ret, return_ in H;
  cbv beta iota zeta in H.

Lemma json_strip_Val v t : json_strip v = Val t -> exists u, v = JStr u /\ t = strip u.
Proof. destruct v; simpl; intros [=]; eauto. Qed.

Ltac put_fields_done :=
  eexists; split; [reflexivity|]; split; [reflexivity|]; simpl;
  repeat match goal with
  | H : json_strip _ = Val _ |- _ => apply json_strip_Val in H as (? & -> & ->)
  end;
  repeat split; eauto.

Lemma income_put_fields clk req pk s i r s' :
  incomes s !! pk = Some i ->
  IncomeAPIView.put clk (Some req) pk s = (r, s') ->
  http_status r = 200 ->
  exists i',
    data r = IncomeData pk i'
    /\ s' = set_incomes (<[pk := i']> (incomes s)) s
    /\ Income.created_at i' = Income.created_at i
    /\ Income.updated_at i' = now clk
    /\ income_fields_after req s i i'.
Proof.
  intros Hi Hput H200. unfold income_fields_after.
  unfold IncomeAPIView.put, respond, IncomeAPIView.put_body in Hput.
  unfold Income_objects_get, Category_objects_get, objects_get, validate_amount,
    validate_date, try_, Income_save in Hput.
  view_steps_in Hput. simpl pk_of_json in Hput. cbv beta iota in Hput.
  rewrite Hi in Hput. cbv beta iota in Hput.
  repeat (case_match; simplify_eq/=; try done).
  all: put_fields_done.
Qed.

Lemma expense_put_fields clk req pk s x r s' :
  expenses s !! pk = Some x ->
  ExpenseAPIView.put clk (Some req) pk s = (r, s') ->
  http_status r = 200 ->
  exists x',
    data r = ExpenseData pk x'
    /\ s' = set_expenses (<[pk := x']> (expenses s)) s
    /\ Expense.created_at x' = Expense.created_at x
    /\ Expense.updated_at x' = now clk
    /\ expense_fields_after req x x'.
Proof.
  intros Hx Hput H200. unfold expense_fields_after.
  unfold ExpenseAPIView.put, respond, ExpenseAPIView.put_body in Hput.
  unfold Expense_objects_get, objects_get, validate_amount,
    validate_date, try_, Expense_save in Hput.
  view_steps_in Hput. simpl pk_of_json in Hput. cbv beta iota in Hput.
  rewrite Hx in Hput. cbv beta iota in Hput.
  repeat (case_match; simplify_eq/=; try done).
  all: put_fields_done.
Qed.

Lemma validate_amount_ok v s :
  amount_ok v ->
  exists a, Decimal_of_str (str v) = Val a /\ validate_amount v s = (Next a, s).
Proof.
  intros (a & Ha & Hle). exists a. split; [done|].
  unfold validate_amount, try_, mbind, view_bind, lift, mret, view_ret, return_.
  by rewrite Ha, Hle.
Qed.

Lemma income_put_succeeds clk req pk s i :
  incomes s !! pk = Some i ->
  valid_income_update req s ->
  http_status (fst (IncomeAPIView.put clk (Some req) pk s)) = 200.
Proof.
  intros Hi (Hc & Hs & Ha & Hd & Hn).
  unfold IncomeAPIView.put, respond, IncomeAPIView.put_body.
  unfold Income_objects_get, Category_objects_get, objects_get,
    validate_date, try_, Income_save.
  view_steps. simpl pk_of_json. cbv beta iota. rewrite Hi. cbv beta iota.
  destruct (req !! "category_id") as [v|];
    [destruct (Hc v eq_refl) as (k & -> & [c ->])|]; cbv beta iota;
  (destruct (req !! "source") as [v1|];
    [destruct (Hs v1 eq_refl) as (t & -> & Ht); simpl json_strip; cbv beta iota;
     rewrite Ht|]; cbv beta iota);
  (destruct (req !! "amount") as [v2|];
    [destruct (validate_amount_ok v2 s (Ha v2 eq_refl)) as (a & _ & ->)|];
    cbv beta iota);
  (destruct (req !! "date") as [v3|];
    [destruct (Hd v3 eq_refl) as (d & ->)|]; cbv beta iota);
  (destruct (req !! "note") as [v4|];
    [destruct (Hn v4 eq_refl) as (t4 & ->)|]; reflexivity).
Qed.

Lemma expense_put_succeeds clk req pk s x :
  expenses s !! pk = Some x ->
  valid_expense_update req ->
  http_status (fst (ExpenseAPIView.put clk (Some req) pk s)) = 200.
Proof.
  intros Hx (Hs & Ha & Hd).
  unfold ExpenseAPIView.put, respond, ExpenseAPIView.put_body.
  unfold Expense_objects_get, objects_get, validate_date, try_, Expense_save.
  view_steps. simpl pk_of_json. cbv beta iota. rewrite Hx. cbv beta iota.
  destruct (req !! "title") as [v1|];
    [destruct (Hs v1 eq_refl) as (t & -> & Ht); simpl json_strip; cbv beta iota;
     rewrite Ht|]; cbv beta iota;
  (destruct (req !! "amount") as [v2|];
    [destruct (validate_amount_ok v2 s (Ha v2 eq_refl)) as (a & _ & ->)|];
    cbv beta iota);
  (destruct (req !! "date") as [v3|];
    [destruct (Hd v3 eq_refl) as (d & ->)|]; reflexivity).
Qed.



(** ** Order and completeness of the listings *)

Lemma py_try_sorted {A} (R : relation A) (body : py (list A)) cs q l :
  (forall l', body = Val l' -> StronglySorted R l') ->
  StronglySorted R q ->
  py_try body cs (Val q) = Val l -> StronglySorted R l.
Proof.
  intros Hb Hq. unfold py_try. destruct body as [l'|e].
  - intros [= <-]. by apply Hb.
  - destruct (caught_by cs e); [|done]. by intros [= <-].
Qed.

Lemma filter_step_sorted {A B} (R : relation A) (parse : py B)
    (keep : B -> A -> bool) (on : bool) cs q l :
  StronglySorted R q ->
  (if on then py_try (b ← parse; Val (filter (fun r => keep b r) q)) cs (Val q)
   else Val q) = Val l ->
  StronglySorted R l.
Proof.
  intros Hq. destruct on; [|by intros [= <-]].
  apply py_try_sorted; [|done].
  intros l'. destruct parse as [b|e]; [|done].
  intros [= <-]. by apply StronglySorted_filter.
Qed.

Lemma income_queryset_sorted request s l :
  IncomeListView.get_queryset request s = Val l -> StronglySorted income_order l.
Proof.
  unfold IncomeListView.get_queryset. destruct request as [GET|].
  2:{ intros [= <-]. apply order_incomes_sorted. }
  set (q0 := if nonempty (strip (GET_get GET "category")) then _ else _).
  assert (H0 : StronglySorted income_order q0).
  { subst q0. repeat case_match; repeat apply StronglySorted_filter;
      apply order_incomes_sorted. }
  clearbody q0. unfold mbind, py_bind.
  destruct (if nonempty (strip (GET_get GET "date_from")) then _ else _) as [q1|] eqn:E1;
    [|done].
  apply (filter_step_sorted income_order) in E1; [|done].
  destruct (if nonempty (strip (GET_get GET "date_to")) then _ else _) as [q2|] eqn:E2;
    [|done].
  apply (filter_step_sorted income_order) in E2; [|done].
  destruct (if nonempty (strip (GET_get GET "amount_min")) then _ else _) as [q3|] eqn:E3;
    [|done].
  apply (filter_step_sorted income_order) in E3; [|done].
  destruct (if nonempty (strip (GET_get GET "amount_max")) then _ else _) as [q4|] eqn:E4;
    [|done].
  apply (filter_step_sorted income_order) in E4; [|done].
  by intros [= <-].
Qed.

Lemma expense_queryset_sorted request s l :
  ExpenseListView.get_queryset request s = Val l -> StronglySorted expense_order l.
Proof.
  unfold ExpenseListView.get_queryset. destruct request as [GET|].
  2:{ intros [= <-]. apply order_expenses_sorted. }
  set (q0 := if nonempty (strip (GET_get GET "search")) then _ else _).
  assert (H0 : StronglySorted expense_order q0).
  { subst q0. repeat case_match; repeat apply StronglySorted_filter;
      apply order_expenses_sorted. }
  clearbody q0. unfold mbind, py_bind.
  destruct (if nonempty (strip (GET_get GET "date_from")) then _ else _) as [q1|] eqn:E1;
    [|done].
  apply (filter_step_sorted expense_order) in E1; [|done].
  destruct (if nonempty (strip (GET_get GET "date_to")) then _ else _) as [q2|] eqn:E2;
    [|done].
  apply (filter_step_sorted expense_order) in E2; [|done].
  destruct (if nonempty (strip (GET_get GET "amount_min")) then _ else _) as [q3|] eqn:E3;
    [|done].
  apply (filter_step_sorted expense_order) in E3; [|done].
  destruct (if nonempty (strip (GET_get GET "amount_max")) then _ else _) as [q4|] eqn:E4;
    [|done].
  apply (filter_step_sorted expense_order) in E4; [|done].
  by intros [= <-].
Qed.

(** Under referential integrity the join with the categories keeps every
    income row. *)
Lemma select_related_keys s :
  fk_ok s ->
  map (fun r => fst (fst r)) (Income_select_related s) = map fst (map_to_list (incomes s)).
Proof.
  intros Hfk. unfold Income_select_related.
  assert (H : forall ki, ki ∈ map_to_list (incomes s) ->
                is_Some (categories s !! Income.category_id (snd ki))).
  { intros [k i] Hki. apply elem_of_map_to_list in Hki. by eapply Hfk. }
  induction (map_to_list (incomes s)) as [|ki l IH]; [done|].
  simpl. destruct (H ki) as [c Hc]; [by left|].
  rewrite Hc. simpl. f_equal. apply IH. intros ki' Hin. apply H. by right.
Qed.

Lemma keys_of_table {A} (m : gmap Z A) k :
  k ∈ map fst (map_to_list m) <-> is_Some (m !! k).
Proof.
  rewrite list_elem_of_fmap. split.
  - intros ([k' a] & -> & Hin). apply elem_of_map_to_list in Hin. by eexists.
  - intros [a Ha]. exists (k, a). split; [done|]. by apply elem_of_map_to_list.
Qed.

(** A check of referential integrity that computes. *)
Lemma fk_ok_check s :
  forallb (fun ki => bool_decide (is_Some (categories s !! Income.category_id (snd ki))))
          (map_to_list (incomes s)) = true ->
  fk_ok s.
Proof.
  intros H pk i Hi. rewrite forallb_forall in H.
  apply elem_of_map_to_list, list_elem_of_In in Hi.
  apply H in Hi. by apply bool_decide_eq_true in Hi.
Qed.



(** ** Defaults of the generic create *)

(** [get_or_create(name=nm)] gives a category of that name that the store
    holds afterwards; it adds a row only when none had the name. *)
Lemma get_or_create_spec clk nm s :
  exists k c s',
    Category_objects_get_or_create clk nm s = (Next (k, c), s')
    /\ incomes s' = incomes s /\ expenses s' = expenses s
    /\ categories s' !! k = Some c /\ name c = nm
    /\ ((exists k0 c0, categories s !! k0 = Some c0 /\ name c0 = nm) ->
        categories s' = categories s)
    /\ ((forall k0 c0, categories s !! k0 = Some c0 -> name c0 <> nm) ->
        categories s' = <[fresh_pk (categories s) := mkCategory nm (now clk)]> (categories s)).
Proof.
  unfold Category_objects_get_or_create.
  destruct (filter _ (map_to_list (categories s))) as [|[k c] l] eqn:Hf.
  - eexists _, _, _. split; [reflexivity|]. simpl. rewrite lookup_insert_eq.
    split_and!; try done.
    intros (k0 & c0 & Hk0 & Hn).
    assert (Hin : (k0, c0) ∈ filter (fun kc : Z * Category => String.eqb (name kc.2) nm)
                               (map_to_list (categories s))).
    { apply list_elem_of_filter. split; [|by apply elem_of_map_to_list].
      simpl. apply Is_true_true. by apply String.eqb_eq. }
    rewrite Hf in Hin. by apply elem_of_nil in Hin.
  - assert (Hin : (k, c) ∈ filter (fun kc : Z * Category => String.eqb (name kc.2) nm)
                               (map_to_list (categories s))).
    { rewrite Hf. by left. }
    apply list_elem_of_filter in Hin as [Hn Hin]. apply elem_of_map_to_list in Hin.
    simpl in Hn. apply Is_true_true, String.eqb_eq in Hn.
    eexists _, _, _. split; [reflexivity|]. split_and!; try done.
    intros Hno. by destruct (Hno _ _ Hin).
Qed.

Lemma require_fields_store fields req s o s' :
  require_fields fields req s = (o, s') -> s' = s.
Proof.
  revert s'. induction fields as [|f fields IH]; simpl; intros s'.
  - by intros [= _ <-].
  - destruct (req !! f) as [v|]; [|by intros [= _ <-]].
    destruct (truthy v); [apply IH|by intros [= _ <-]].
Qed.

(** A key the generic create does not read can take any value. *)
Lemma transaction_post_ignores clk req k v :
  k <> "type" -> k <> "amount" -> k <> "description" -> k <> "note" ->
  TransactionAPIView.post_body clk (Some (<[k := v]> req))
  = TransactionAPIView.post_body clk (Some req).
Proof.
  intros H1 H2 H3 H4.
  unfold TransactionAPIView.post_body, TransactionAPIView.transaction_type,
    require_fields, json_loads, item.
  unfold mbind, view_bind, mret, view_ret. cbv beta iota.
  by rewrite !lookup_insert_ne.
Qed.

Lemma generic_income_succeeds clk req s :
  valid_generic_income req ->
  TransactionAPIView.transaction_type req = Some Txn.income
  /\ exists pk obj,
       fst (TransactionAPIView.post clk (Some req) s)
       = success_response 200 "Income transaction created successfully"
                          (IncomeData pk obj).
Proof.
  intros (Htype & (v & Hv & Htruthy & Hok) & (t & Ht & Hne) & Hnote).
  assert (Hty : TransactionAPIView.transaction_type req = Some Txn.income)
    by (unfold TransactionAPIView.transaction_type; by rewrite Htype).
  split; [done|].
  unfold TransactionAPIView.post, respond, TransactionAPIView.post_body.
  unfold json_loads. unfold mbind, view_bind, mret, view_ret. cbv beta iota.
  rewrite Hty. unfold require_fields. rewrite Hv, Htruthy, Ht.
  assert (Htt : truthy (JStr t) = true).
  { simpl. destruct (String.eqb_spec t ""); [done|done]. }
  rewrite Htt. unfold return_, mret, view_ret. cbv beta iota.
  destruct (get_or_create_spec clk "Salary" s) as (k & c & s2 & -> & _).
  unfold item. rewrite Hv, Ht. unfold mret, view_ret. cbv beta iota.
  destruct (validate_amount_ok v s2 Hok) as (a & _ & ->).
  unfold lift, Income_objects_create. simpl json_strip. cbv beta iota.
  destruct (req !! "note") as [w|]; [destruct (Hnote w eq_refl) as (u & ->)|];
    simpl; eauto.
Qed.



(** ** Search across both kinds *)

Lemma filter_all {A} (P : A -> Prop) `{!forall x, Decision (P x)} (l : list A) :
  Forall P l -> filter P l = l.
Proof.
  induction 1 as [|x l Hx _ IH]; [done|].
  rewrite filter_cons. case_decide; [|done]. by rewrite IH.
Qed.

Lemma filter_none {A} (P : A -> Prop) `{!forall x, Decision (P x)} (l : list A) :
  Forall (fun x => ~ P x) l -> filter P l = [].
Proof.
  induction 1 as [|x l Hx _ IH]; [done|].
  rewrite filter_cons. by case_decide.
Qed.

(** In a list sorted by date, newest first, that holds [n] entries all at
    least as recent as [m], every entry among the first [n] is at least as
    recent as [m]. *)
Lemma newer_block_fills_prefix (S A B : list Txn.t) (n : nat) (m x : Txn.t) :
  S ≡ₚ A ++ B ->
  StronglySorted date_desc S ->
  List.length A = n ->
  Forall (fun y => date_desc y m) A ->
  x ∈ take n S ->
  date_desc x m.
Proof.
  intros Hperm Hsorted Hlen HA Hx.
  unfold date_desc.
  destruct (Z_le_gt_dec (date_key (Txn.date m)) (date_key (Txn.date x))) as [|Hnewer];
    [done|]. exfalso.
  set (P := fun y : Txn.t => date_key (Txn.date x) < date_key (Txn.date y)).
  assert (Hge : (n <= List.length (filter P S))%nat).
  { rewrite Hperm, filter_app, length_app, (filter_all P A); [lia|].
    eapply Forall_impl; [exact HA|]. intros y Hy. unfold P, date_desc in *. lia. }
  apply elem_of_take in Hx as (i & Hi & Hin).
  rewrite <- (take_drop_middle _ _ _ Hi) in Hsorted, Hge.
  apply StronglySorted_app_1_r, StronglySorted_cons in Hsorted as [Hx _].
  rewrite filter_app, length_app, (filter_none P (x :: _)) in Hge.
  - pose proof (length_filter P (take i S)) as Hf. rewrite length_take in Hf.
    simpl in Hge. lia.
  - constructor; [unfold P; lia|].
    eapply Forall_impl; [exact Hx|]. intros y Hy. unfold P, date_desc in *. lia.
Qed.

Lemma income_entry_date r : Txn.date (income_entry r) = Income.date (snd (fst r)).
Proof. by destruct r as [[pk i] c]. Qed.

Lemma expense_entry_date r : Txn.date (expense_entry r) = Expense.date (snd r).
Proof. by destruct r as [pk e]. Qed.

Lemma expense_entry_type r : Txn.type (expense_entry r) = Txn.expense.
Proof. by destruct r as [pk e]. Qed.

Lemma income_entry_type r : Txn.type (income_entry r) = Txn.income.
Proof. by destruct r as [[pk i] c]. Qed.

Lemma income_matches_sorted q s :
  StronglySorted (fun a b => date_desc (income_entry a) (income_entry b))
                 (SearchAPIView.income_matches q s).
Proof.
  eapply StronglySorted_weaken; [|apply sort_by_sorted].
  - intros a b H. apply Is_true_true in H. unfold date_desc.
    rewrite !income_entry_date. unfold date_leb in H. by apply Z.leb_le.
  - intros a b. unfold date_leb. rewrite Z.leb_gt, Z.leb_le. lia.
  - intros a b c. unfold date_leb. rewrite !Z.leb_le. lia.
Qed.

Lemma expense_matches_sorted q s :
  StronglySorted (fun a b => date_desc (expense_entry a) (expense_entry b))
                 (SearchAPIView.expense_matches q s).
Proof.
  eapply StronglySorted_weaken; [|apply sort_by_sorted].
  - intros a b H. apply Is_true_true in H. unfold date_desc.
    rewrite !expense_entry_date. unfold date_leb in H. by apply Z.leb_le.
  - intros a b. unfold date_leb. rewrite Z.leb_gt, Z.leb_le. lia.
  - intros a b c. unfold date_leb. rewrite !Z.leb_le. lia.
Qed.

(** The entries of one kind before its cutoff are [n] in number and at
    least as recent as any entry of that kind after the cutoff. *)
Lemma cutoff_block {A} (entry : A -> Txn.t) (l : list A) (n : nat) (m : Txn.t) :
  StronglySorted (fun a b => date_desc (entry a) (entry b)) l ->
  m ∈ map entry (drop n l) ->
  List.length (map entry (take n l)) = n
  /\ Forall (fun y => date_desc y m) (map entry (take n l)).
Proof.
  intros Hs Hm. apply list_elem_of_fmap in Hm as (b & -> & Hb). split.
  - rewrite length_map, length_take.
    assert (0 < List.length (drop n l))%nat
      by (destruct (drop n l); [by apply elem_of_nil in Hb|simpl; lia]).
    rewrite length_drop in H. lia.
  - apply Forall_forall. intros y (a & -> & Ha)%list_elem_of_fmap.
    by apply (StronglySorted_take_drop
                (fun a b => date_desc (entry a) (entry b)) n l a b).
Qed.

(** The merged list of a search, before the final cut. *)
Lemma search_merged_dominates q s (n : nat) (m x : Txn.t) :
  let merged :=
    sort_by_date (map income_entry (take n (SearchAPIView.income_matches q s))
                  ++ map expense_entry (take n (SearchAPIView.expense_matches q s))) in
  x ∈ take n merged ->
  (m ∈ map income_entry (drop n (SearchAPIView.income_matches q s))
   \/ m ∈ map expense_entry (drop n (SearchAPIView.expense_matches q s))
   \/ (m ∈ merged /\ m ∉ take n merged)) ->
  date_desc x m.
Proof.
  intros merged Hx [Hm|[Hm|[Hm Hout]]].
  - destruct (cutoff_block _ _ _ _ (income_matches_sorted q s) Hm) as [Hlen Hall].
    eapply newer_block_fills_prefix; [|apply sort_by_date_sorted|exact Hlen|exact Hall|exact Hx].
    apply sort_by_date_Permutation.
  - destruct (cutoff_block _ _ _ _ (expense_matches_sorted q s) Hm) as [Hlen Hall].
    eapply newer_block_fills_prefix; [|apply sort_by_date_sorted|exact Hlen|exact Hall|exact Hx].
    subst merged. rewrite sort_by_date_Permutation. apply Permutation_app_comm.
  - eapply (StronglySorted_take_drop _ n merged); [apply sort_by_date_sorted|done|].
    rewrite <- (take_drop n merged) in Hm. apply elem_of_app in Hm as [|]; done.
Qed.

(** What a search of both kinds answers. *)
Lemma search_all_answer GET s L :
  nonempty (strip (GET_get GET "q")) = true ->
  default "all" (GET !! "type") = "all" ->
  SearchAPIView.search_limit GET = Val L ->
  0 <= L ->
  let q := strip (GET_get GET "q") in
  let n := Z.to_nat L in
  let merged :=
    sort_by_date (map income_entry (take n (SearchAPIView.income_matches q s))
                  ++ map expense_entry (take n (SearchAPIView.expense_matches q s))) in
  SearchAPIView.get GET s
  = mkResponse 200 "success" "" (SearchData (take n merged) (Some (List.length merged))).
Proof.
  intros Hq Ht HL Hpos. unfold SearchAPIView.get.
  rewrite HL, Hq, Ht. unfold mbind, py_bind, queryset_slice, list_slice.
  assert ((L <? 0) = false) as -> by lia. reflexivity.
Qed.

Lemma search_negative_limit GET s L :
  nonempty (strip (GET_get GET "q")) = true ->
  default "all" (GET !! "type") = "all" ->
  SearchAPIView.search_limit GET = Val L ->
  L < 0 ->
  SearchAPIView.get GET s = error_response 500 "Search failed".
Proof.
  intros Hq Ht HL Hneg. unfold SearchAPIView.get.
  rewrite HL, Hq, Ht. unfold mbind, py_bind, queryset_slice, list_slice.
  assert ((L <? 0) = true) as -> by lia. reflexivity.
Qed.

(** C10, last clause: it holds at no request and no store.  An entry that
    the answer returns is at least as recent as every match beyond the
    cutoff of either kind. *)
Lemma C10_counterexample :
  ~ exists GET s, cut_match_newer_than_returned GET s.
Proof.
  intros (GET & s & L & m & x & Hq & Ht & HL & Hx & Hnewer & Hm).
  destruct (Z_lt_le_dec L 0) as [Hneg|Hpos].
  - rewrite (search_negative_limit GET s L Hq Ht HL Hneg) in Hx.
    by apply elem_of_nil in Hx.
  - rewrite (search_all_answer GET s L Hq Ht HL Hpos) in Hx. simpl in Hx.
    assert (Hd : date_desc x m).
    { eapply search_merged_dominates; [exact Hx|]. destruct Hm as [[Hm _]|[Hm _]]; eauto. }
    unfold newer in Hnewer. unfold date_desc in Hd. lia.
Qed.

(** C10, amended. For a search of both kinds with a query and a limit that
    is not negative: each kind is cut to its first [limit] matches by date,
    the merged list is sorted by date and cut to [limit] entries, and
    [count] is the length before that cut, at most twice the limit and equal
    to it when both kinds have [limit] matches; every match that is left out
    is no more recent than any entry returned. *)
Theorem C10_search_count_precedes_cut (GET : gmap string string) (s : Store) (L : Z) :
  nonempty (strip (GET_get GET "q")) = true ->
  default "all" (GET !! "type") = "all" ->
  SearchAPIView.search_limit GET = Val L ->
  0 <= L ->
  let q := strip (GET_get GET "q") in
  let n := Z.to_nat L in
  let im := SearchAPIView.income_matches q s in
  let em := SearchAPIView.expense_matches q s in
  let r := SearchAPIView.get GET s in
  http_status r = 200
  /\ results_of r
     = take n (sort_by_date (map income_entry (take n im) ++ map expense_entry (take n em)))
  /\ count_of r = Some (Nat.min n (List.length im) + Nat.min n (List.length em))%nat
  /\ (forall c, count_of r = Some c ->
        (c <= 2 * n)%nat
        /\ List.length (results_of r) = Nat.min n c
        /\ ((n <= List.length im)%nat -> (n <= List.length em)%nat ->
            c = (2 * n)%nat /\ List.length (results_of r) = n))
  /\ StronglySorted date_desc (results_of r)
  /\ (forall m x,
        x ∈ results_of r ->
        m ∈ map income_entry im \/ m ∈ map expense_entry em ->
        m ∉ results_of r ->
        date_desc x m).
Proof.
  intros Hq Ht HL Hpos q n im em r.
  assert (Hr : r = mkResponse 200 "success" ""
                 (SearchData
                    (take n (sort_by_date (map income_entry (take n im)
                                           ++ map expense_entry (take n em))))
                    (Some (List.length
                             (sort_by_date (map income_entry (take n im)
                                            ++ map expense_entry (take n em)))))))
    by apply (search_all_answer GET s L Hq Ht HL Hpos).
  clearbody r. subst r. unfold results_of, count_of. simpl.
  assert (Hlen : List.length (sort_by_date (map income_entry (take n im)
                                            ++ map expense_entry (take n em)))
                 = (Nat.min n (List.length im) + Nat.min n (List.length em))%nat).
  { by rewrite sort_by_date_Permutation, length_app, !length_map, !length_take. }
  split_and!; try done.
  - by rewrite Hlen.
  - intros c [= <-]. rewrite length_take, Hlen. split_and!; lia.
  - apply StronglySorted_take, sort_by_date_sorted.
  - intros m x Hx Hm Hout. eapply search_merged_dominates; [exact Hx|].
    destruct Hm as [Hm|Hm].
    + rewrite <- (take_drop n im), fmap_app in Hm. apply elem_of_app in Hm as [Hm|Hm]; [|by left].
      right; right. split; [|done]. rewrite sort_by_date_Permutation.
      apply elem_of_app. by left.
    + rewrite <- (take_drop n em), fmap_app in Hm.
      apply elem_of_app in Hm as [Hm|Hm]; [|by right; left].
      right; right. split; [|done]. rewrite sort_by_date_Permutation.
      apply elem_of_app. by right.
Qed.

(** C10 amended, on the sample store: with limit 1 the search for job
    returns one entry and counts two. *)
Lemma C10_witness :
  let GET : gmap string string := {[ "q" := "job"; "limit" := "1" ]} in
  SearchAPIView.search_limit GET = Val 1
  /\ count_of (SearchAPIView.get GET store_ex) = Some 2%nat
  /\ List.length (results_of (SearchAPIView.get GET store_ex)) = 1%nat.
Proof.
  intros GET. split; [reflexivity|].
  destruct (C10_search_count_precedes_cut GET store_ex 1 eq_refl eq_refl eq_refl
              ltac:(lia)) as (_ & _ & Hc & Hn & _).
  split; [exact Hc|].
  destruct (Hn 2%nat Hc) as (_ & Hl & _). exact Hl.
Defined.

(** ** The form validators *)

Lemma lstrip_suffix l : exists p, l = p ++ lstrip l.
Proof.
  induction l as [|c l [p IH]]; [by exists []|].
  simpl. destruct (is_space c); [|by exists []].
  exists (c :: p). simpl. by f_equal.
Qed.

Lemma lstrip_head l : no_blank_head (lstrip l).
Proof.
  induction l as [|c l IH]; [done|].
  simpl. by destruct (is_space c) eqn:E.
Qed.

Lemma lstrip_fixed l : no_blank_head l -> lstrip l = l.
Proof. destruct l as [|c l]; [done|]. simpl. by intros ->. Qed.

Lemma strip_chars_fixed l : strip_chars (strip_chars l) = strip_chars l.
Proof.
  unfold strip_chars.
  set (a := lstrip l). set (b := lstrip (rev a)).
  assert (Ha : no_blank_head a) by apply lstrip_head.
  assert (Hb : no_blank_head b) by apply lstrip_head.
  destruct (lstrip_suffix (rev a)) as [p Hp]. fold b in Hp.
  assert (Hr : no_blank_head (rev b)).
  { assert (E : a = rev b ++ rev p).
    { rewrite <- (rev_involutive a), Hp, rev_app_distr. done. }
    destruct (rev b) as [|c r]; [done|]. rewrite E in Ha. exact Ha. }
  rewrite (lstrip_fixed _ Hr), rev_involutive, (lstrip_fixed _ Hb). done.
Qed.

Lemma strip_fixed s : strip (strip s) = strip s.
Proof.
  unfold strip, chars, text.
  by rewrite list_ascii_of_string_of_list_ascii, strip_chars_fixed.
Qed.

(** X1. [clean_amount] returns the amount it was given exactly when the amount
    is a finite number above zero and not above 99999999.99; whatever it
    returns is its argument; an absent amount passes. *)
Theorem clean_amount_accepts_exactly_the_bounded (a : Decimal) :
  (clean_amount (Some a) = Val (Some a) <-> within_amount_bounds a)
  /\ (forall r, clean_amount (Some a) = Val r -> r = Some a)
  /\ clean_amount None = Val None.
Proof.
  split_and!; [|intros r|done].
  - unfold clean_amount, within_amount_bounds, dec_le, dec_gt, dec_zero, max_amount.
    destruct a as [c p|[]|]; simpl; try (split; [discriminate|tauto]).
    + change (pow10 0) with 1. change (pow10 2) with 100.
      destruct (Z.compare_spec (c * 1) (0 * pow10 p)); simpl;
        try (split; [discriminate|lia]).
      destruct (Z.compare_spec (c * 100) (9999999999 * pow10 p)); simpl;
        split; try discriminate; try done; try lia.
  - unfold clean_amount. destruct (dec_le a dec_zero) as [[]|]; simpl; try discriminate.
    destruct (dec_gt a max_amount) as [[]|]; simpl; try discriminate. by intros [= <-].
Qed.
Lemma leap_year_next y : is_leap y = true -> is_leap (y + 1) = false.
Proof.
  unfold is_leap. rewrite andb_true_iff, Z.eqb_eq. intros [H _].
  apply andb_false_iff. left. apply Z.eqb_neq. Z.div_mod_to_equations. lia.
Qed.

Lemma make_date_Val y m d x :
  make_date y m d = Val x ->
  x = mkdate y m d /\ 1 <= y <= 9999 /\ 1 <= m <= 12 /\ 1 <= d <= days_in_month y m.
Proof.
  unfold make_date. case_match eqn:E; [|done]. intros [= <-].
  rewrite !andb_true_iff, !Z.leb_le in E. split; [done|lia].
Qed.

Lemma make_date_raises y m d e : make_date y m d = Exc e -> e = ValueError.
Proof. unfold make_date. case_match; [done|]. by intros [= <-]. Qed.

(** X2. On a 29 February the date checks of the forms fail for every date:
    [date.today().replace(year=...)] has no such day in the following year,
    so [clean_date] and [validate_reasonable_date] raise [ValueError], which
    is no validation error. *)
Theorem date_check_fails_on_leap_day (clk : Clock) (d : Date) :
  calendar_date (today clk) ->
  month (today clk) = 2 -> day (today clk) = 29 ->
  clean_date clk (Some d) = Exc ValueError
  /\ validate_reasonable_date clk d = Exc ValueError.
Proof.
  unfold calendar_date. intros Hc Hm Hd.
  apply make_date_Val in Hc as (_ & Hy & _ & Hdim).
  rewrite Hm, Hd in Hdim. unfold days_in_month in Hdim. simpl in Hdim.
  destruct (is_leap (year (today clk))) eqn:Hl; [|lia].
  apply leap_year_next in Hl.
  assert (E : replace_year (today clk) (year (today clk) + 1) = Exc ValueError).
  { unfold replace_year, make_date. rewrite Hm, Hd. unfold days_in_month.
    simpl. rewrite Hl. simpl. by rewrite !andb_false_r. }
  unfold clean_date, validate_reasonable_date. by rewrite E.
Qed.

(** X2, on 29 February 2024. *)
Lemma date_check_fails_on_leap_day_witness :
  clean_date (mkClock 0 (mkdate 2024 2 29)) (Some (mkdate 2024 3 1)) = Exc ValueError
  /\ validate_reasonable_date (mkClock 0 (mkdate 2024 2 29)) (mkdate 2024 3 1)
     = Exc ValueError.
Proof.
  apply (date_check_fails_on_leap_day (mkClock 0 (mkdate 2024 2 29)) (mkdate 2024 3 1));
    reflexivity.
Defined.

(** X3. On any other day of a year before 9999 the limit of [clean_date] and
    of [validate_reasonable_date] is the same day of the following year: a
    date up to the limit passes, a later one raises the validation error. *)
Theorem date_check_limit_is_same_day_next_year (clk : Clock) (d : Date) :
  calendar_date (today clk) ->
  year (today clk) < 9999 ->
  (month (today clk) = 2 -> day (today clk) <> 29) ->
  let limit := mkdate (year (today clk) + 1) (month (today clk)) (day (today clk)) in
  (date_key d <= date_key limit ->
   clean_date clk (Some d) = Val (Some d) /\ validate_reasonable_date clk d = Val tt)
  /\ (date_key limit < date_key d ->
      clean_date clk (Some d)
      = Exc (ValidationError "Date cannot be more than one year in the future.")
      /\ validate_reasonable_date clk d
         = Exc (ValidationError "Date cannot be more than one year in the future.")).
Proof.
  intros Hc Hy Hleap limit. unfold calendar_date in Hc.
  apply make_date_Val in Hc as (_ & Hy1 & Hm & Hd).
  assert (E : replace_year (today clk) (year (today clk) + 1) = Val limit).
  { unfold replace_year, make_date.
    assert (Hdim : day (today clk)
                   <= days_in_month (year (today clk) + 1) (month (today clk))).
    { revert Hd. unfold days_in_month.
      destruct (month (today clk) =? 2) eqn:E2; [|lia].
      apply Z.eqb_eq in E2. specialize (Hleap E2). repeat case_match; lia. }
    case_match eqn:E; [done|].
    rewrite !andb_false_iff, !Z.leb_gt in E. lia. }
  unfold clean_date, validate_reasonable_date. rewrite E. simpl.
  unfold date_ltb. split; intros H.
  - assert ((date_key limit <? date_key d) = false) as -> by lia. done.
  - assert ((date_key limit <? date_key d) = true) as -> by lia. done.
Qed.

(** X3, on 15 June 2024: the limit itself passes. *)
Lemma date_check_limit_is_same_day_next_year_witness :
  (date_key (mkdate 2025 6 15) <= date_key (mkdate 2025 6 15) ->
   clean_date clock_ex (Some (mkdate 2025 6 15)) = Val (Some (mkdate 2025 6 15))
   /\ validate_reasonable_date clock_ex (mkdate 2025 6 15) = Val tt)
  /\ (date_key (mkdate 2025 6 15) < date_key (mkdate 2025 6 15) ->
      clean_date clock_ex (Some (mkdate 2025 6 15))
      = Exc (ValidationError "Date cannot be more than one year in the future.")
      /\ validate_reasonable_date clock_ex (mkdate 2025 6 15)
         = Exc (ValidationError "Date cannot be more than one year in the future.")).
Proof.
  apply (date_check_limit_is_same_day_next_year clock_ex (mkdate 2025 6 15)).
  - reflexivity.
  - simpl. lia.
  - simpl. intros H. discriminate H.
Defined.
Lemma nonempty_true s : nonempty s = true <-> s <> "".
Proof.
  unfold nonempty. rewrite negb_true_iff. split.
  - intros H ->. by rewrite String.eqb_refl in H.
  - intros H. by apply String.eqb_neq.
Qed.



(** X5. [validate_positive_amount] passes exactly the amounts above zero: it
    has no upper bound, so it passes every amount [clean_amount] accepts and
    also [Infinity], which [clean_amount] refuses. *)
Theorem validate_positive_amount_has_no_upper_bound (a : Decimal) :
  (validate_positive_amount a = Val tt <-> above_zero a)
  /\ (within_amount_bounds a -> validate_positive_amount a = Val tt)
  /\ validate_positive_amount (DInf false) = Val tt
  /\ clean_amount (Some (DInf false))
     = Exc (ValidationError "Amount cannot exceed $99,999,999.99.").
Proof.
  assert (H : validate_positive_amount a = Val tt <-> above_zero a).
  { unfold validate_positive_amount, above_zero, dec_le, dec_zero.
    destruct a as [c p|[]|]; simpl; try (split; [discriminate|done]); try done.
    change (pow10 0) with 1.
    destruct (Z.compare_spec (c * 1) (0 * pow10 p)); simpl;
      split; try discriminate; try done; lia. }
  split_and!; [done| |done|done].
  intros Hb. apply H. destruct a; simpl in *; [lia|done|done].
Qed.

(** X6. [validate_non_empty_string] passes exactly a string that is not
    empty once stripped. *)
Theorem validate_non_empty_string_accepts (value : option string) :
  validate_non_empty_string value = Val tt
  <-> exists s, value = Some s /\ strip s <> "".
Proof.
  unfold validate_non_empty_string. destruct value as [s|].
  - destruct (nonempty s) eqn:Hs; simpl.
    + destruct (nonempty (strip s)) eqn:Hne.
      * apply nonempty_true in Hne. split; [eauto|done].
      * split; [done|]. intros (s' & [= <-] & H). apply nonempty_true in H. congruence.
    + split; [done|]. intros (s' & [= <-] & H).
      unfold nonempty in Hs. apply negb_false_iff, String.eqb_eq in Hs. by subst s.
  - split; [done|]. by intros (s & ? & _).
Qed.
Lemma digit_char_digit k :
  0 <= k <= 9 -> is_digit (digit_char k) = true /\ digit_val (digit_char k) = k.
Proof.
  intros H.
  assert (E : k = 0 \/ k = 1 \/ k = 2 \/ k = 3 \/ k = 4 \/ k = 5 \/ k = 6 \/ k = 7
              \/ k = 8 \/ k = 9) by lia.
  destruct_or!; subst k; done.
Qed.

Lemma year_digits y :
  0 <= y <= 9999 ->
  forallb is_digit [digit_char (y / 1000 mod 10); digit_char (y / 100 mod 10);
                    digit_char (y / 10 mod 10); digit_char (y mod 10)] = true
  /\ digits_val [digit_char (y / 1000 mod 10); digit_char (y / 100 mod 10);
                 digit_char (y / 10 mod 10); digit_char (y mod 10)] = y.
Proof.
  intros Hy.
  destruct (digit_char_digit (y / 1000 mod 10)) as [A1 B1]; [Z.div_mod_to_equations; lia|].
  destruct (digit_char_digit (y / 100 mod 10)) as [A2 B2]; [Z.div_mod_to_equations; lia|].
  destruct (digit_char_digit (y / 10 mod 10)) as [A3 B3]; [Z.div_mod_to_equations; lia|].
  destruct (digit_char_digit (y mod 10)) as [A4 B4]; [Z.div_mod_to_equations; lia|].
  split.
  - simpl. by rewrite A1, A2, A3, A4.
  - unfold digits_val. simpl. rewrite B1, B2, B3, B4. Z.div_mod_to_equations. lia.
Qed.

(** The month and the day that [strptime] reads after the year. *)
Lemma month_day_digits m dd :
  1 <= m <= 12 -> 1 <= dd <= 31 ->
  match filter (fun mr : Z * list ascii => starts_with (chars "-") (snd mr))
               (month_matches [digit_char (m / 10); digit_char (m mod 10); "-"%char;
                               digit_char (dd / 10); digit_char (dd mod 10)]) with
  | (m', _ :: r') :: _ =>
      match day_matches r' with
      | (d', []) :: _ => Some (m', d')
      | _ => None
      end
  | _ => None
  end = Some (m, dd).
Proof.
  intros Hm Hd.
  assert (H : forallb (fun m => forallb (fun dd => bool_decide (
    match filter (fun mr : Z * list ascii => starts_with (chars "-") (snd mr))
                 (month_matches [digit_char (m / 10); digit_char (m mod 10); "-"%char;
                                 digit_char (dd / 10); digit_char (dd mod 10)]) with
    | (m', _ :: r') :: _ =>
        match day_matches r' with
        | (d', []) :: _ => Some (m', d')
        | _ => None
        end
    | _ => None
    end = Some (m, dd))) (seqZ 1 31)) (seqZ 1 12) = true) by (vm_compute; reflexivity).
  rewrite forallb_forall in H.
  assert (Hm' : In m (seqZ 1 12)) by (apply list_elem_of_In, elem_of_seqZ; lia).
  specialize (H m Hm'). rewrite forallb_forall in H.
  assert (Hd' : In dd (seqZ 1 31)) by (apply list_elem_of_In, elem_of_seqZ; lia).
  specialize (H dd Hd'). by apply bool_decide_eq_true in H.
Qed.

Lemma days_in_month_le y m : days_in_month y m <= 31.
Proof. unfold days_in_month. repeat case_match; lia. Qed.

(** X7. What [isoformat] writes for a calendar date, the [strptime] of the
    views reads back as that date. *)
Theorem isoformat_is_read_back (d : Date) :
  calendar_date d -> strptime_date (isoformat d) = Val d.
Proof.
  unfold calendar_date. intros Hc.
  destruct (make_date_Val _ _ _ _ Hc) as (_ & Hy & Hm & Hd).
  pose proof (days_in_month_le (year d) (month d)) as Hle.
  unfold strptime_date, isoformat, chars, text.
  rewrite list_ascii_of_string_of_list_ascii.
  destruct (year_digits (year d)) as [Hdig Hval]; [lia|].
  rewrite Hdig, Hval. cbn [andb is_char].
  change (ascii_eqb "-" "-") with true. cbv iota.
  pose proof (month_day_digits (month d) (day d) Hm ltac:(lia)) as Hmd.
  destruct (filter _ (month_matches _)) as [|[m' [|c r']] l]; try discriminate Hmd.
  destruct (day_matches r') as [|[d' [|c' r'']] l']; try discriminate Hmd.
  injection Hmd as -> ->. by change (is_char "-" "-") with true.
Qed.

(** X7, on a leap day. *)
Lemma isoformat_is_read_back_witness :
  isoformat (mkdate 2024 2 29) = "2024-02-29"
  /\ strptime_date (isoformat (mkdate 2024 2 29)) = Val (mkdate 2024 2 29).
Proof.
  split; [reflexivity|].
  apply (isoformat_is_read_back (mkdate 2024 2 29)). reflexivity.
Defined.

Lemma strptime_date_cases s :
  (exists d, strptime_date s = Val d /\ calendar_date d)
  \/ strptime_date s = Exc ValueError.
Proof.
  assert (H : forall y m d, (exists x, make_date y m d = Val x /\ calendar_date x)
                            \/ make_date y m d = Exc ValueError).
  { intros y m d. destruct (make_date y m d) as [x|e] eqn:E.
    - left. exists x. split; [done|].
      destruct (make_date_Val _ _ _ _ E) as (-> & _). exact E.
    - right. by apply make_date_raises in E as ->. }
  unfold strptime_date. repeat case_match; try (by right); apply H.
Qed.

(** X8. A date [strptime] returns is a calendar date: the year from 1 to
    9999, the month from 1 to 12, the day one that the month has. *)
Theorem strptime_gives_calendar_dates (s : string) (d : Date) :
  strptime_date s = Val d ->
  calendar_date d
  /\ 1 <= year d <= 9999 /\ 1 <= month d <= 12
  /\ 1 <= day d <= days_in_month (year d) (month d).
Proof.
  intros H. destruct (strptime_date_cases s) as [(d' & Hd' & Hc)|He]; [|congruence].
  assert (d' = d) as -> by congruence. split; [done|].
  apply make_date_Val in Hc. tauto.
Qed.

(** X8, on a date written with short fields. *)
Lemma strptime_gives_calendar_dates_witness :
  calendar_date (mkdate 2024 1 5).
Proof.
  apply (strptime_gives_calendar_dates "2024-1-5" (mkdate 2024 1 5)). reflexivity.
Defined.
(** ** Steps that read only *)

Lemma fresh_pk_above {A} (tbl : gmap Z A) k : is_Some (tbl !! k) -> k < fresh_pk tbl.
Proof.
  unfold fresh_pk.
  assert (H : forall k, is_Some (tbl !! k) ->
                k <= map_fold (fun k (_ : A) acc => Z.max k acc) 0 tbl).
  { apply (map_fold_weak_ind (fun r (m : gmap Z A) => forall k, is_Some (m !! k) -> k <= r)).
    - intros k' [x Hx]. by rewrite lookup_empty in Hx.
    - intros i x m r Hi IH k' Hk'. destruct (decide (k' = i)) as [->|Hne]; [lia|].
      rewrite lookup_insert_ne in Hk' by done. specialize (IH k' Hk'). lia. }
  intros Hk. specialize (H k Hk). lia.
Qed.

Lemma fresh_pk_fresh {A} (tbl : gmap Z A) : tbl !! fresh_pk tbl = None.
Proof.
  destruct (tbl !! fresh_pk tbl) as [x|] eqn:E; [|done].
  assert (H : fresh_pk tbl < fresh_pk tbl) by (apply fresh_pk_above; eauto). lia.
Qed.

Lemma fresh_pk_positive {A} (tbl : gmap Z A) : 1 <= fresh_pk tbl.
Proof.
  unfold fresh_pk.
  assert (H : 0 <= map_fold (fun k (_ : A) acc => Z.max k acc) 0 tbl).
  { apply (map_fold_weak_ind (fun r (_ : gmap Z A) => 0 <= r)); [done|]. intros. lia. }
  lia.
Qed.

Lemma reads_only_ret {A} (a : A) : reads_only (mret a).
Proof. intros s o s' [= <- <-]. done. Qed.

Lemma reads_only_lift {A} (x : py A) : reads_only (lift x).
Proof. intros s o s'. unfold lift. destruct x; intros [= <- <-]; done. Qed.

Lemma reads_only_return {A} code msg :
  400 <= code < 500 -> reads_only (@return_ A (error_response code msg)).
Proof. intros H s o s' [= <- <-]. done. Qed.

Lemma reads_only_bind {A B} (x : view A) (f : A -> view B) :
  reads_only x -> (forall a, reads_only (f a)) -> reads_only (x ≫= f).
Proof.
  intros Hx Hf s o s'. unfold mbind, view_bind.
  destruct (x s) as [[a|r|e] s1] eqn:E; destruct (Hx _ _ _ E) as [-> Hr].
  - apply Hf.
  - by intros [= <- <-].
  - by intros [= <- <-].
Qed.

Lemma reads_only_try {A} (body handler : view A) cs :
  reads_only body -> reads_only handler -> reads_only (try_ body cs handler).
Proof.
  intros Hb Hh s o s'. unfold try_.
  destruct (body s) as [[a|r|e] s1] eqn:E; destruct (Hb _ _ _ E) as [-> Hr].
  - by intros [= <- <-].
  - by intros [= <- <-].
  - destruct (caught_by cs e); [apply Hh|by intros [= <- <-]].
Qed.

Lemma reads_only_json_loads body : reads_only (json_loads body).
Proof. destruct body; [apply reads_only_ret|apply reads_only_lift]. Qed.

Lemma reads_only_item data k : reads_only (item data k).
Proof. unfold item. destruct (data !! k); [apply reads_only_ret|apply reads_only_lift]. Qed.

Lemma reads_only_require_fields fields data : reads_only (require_fields fields data).
Proof.
  induction fields as [|f fields IH]; simpl; [apply reads_only_ret|].
  destruct (data !! f) as [v|]; [|by apply reads_only_return].
  destruct (truthy v); [done|by apply reads_only_return].
Qed.

Lemma reads_only_validate_amount v : reads_only (validate_amount v).
Proof.
  apply reads_only_try; [|by apply reads_only_return].
  apply reads_only_bind; [apply reads_only_lift|]. intros a.
  apply reads_only_bind; [apply reads_only_lift|]. intros [].
  - by apply reads_only_return.
  - apply reads_only_ret.
Qed.

Lemma reads_only_validate_date v : reads_only (validate_date v).
Proof.
  apply reads_only_try; [apply reads_only_lift|by apply reads_only_return].
Qed.

Lemma reads_only_get {A} (f : Store -> py A) : reads_only (fun s => lift (f s) s).
Proof. intros s o s'. unfold lift. destruct (f s); intros [= <- <-]; done. Qed.

(** A step that reads only either hands a value to what follows, on the
    same store, or ends the view there. *)
Lemma bind_reads_only {A B} (x : view A) (f : A -> view B) s o s' :
  reads_only x ->
  (x ≫= f) s = (o, s') ->
  (exists a, x s = (Next a, s) /\ f a s = (o, s'))
  \/ (s' = s /\ ((exists r, o = Return r /\ refusal r) \/ exists e, o = Raise e)).
Proof.
  intros Hx. unfold mbind, view_bind.
  destruct (x s) as [[a|r|e] s1] eqn:E; destruct (Hx _ _ _ E) as [-> Hr].
  - left. eauto.
  - intros [= <- <-]. right. eauto.
  - intros [= <- <-]. right. eauto.
Qed.

(** What [respond] makes of a view that ended without changing the store. *)
Lemma respond_failure what (body : view JsonResponse) s o :
  body s = (o, s) ->
  ((exists r, o = Return r /\ refusal r) \/ exists e, o = Raise e) ->
  snd (respond what body s) = s /\ failure (fst (respond what body s)).
Proof.
  intros H Ho. unfold respond. rewrite H.
  destruct Ho as [(r & -> & Hr1 & Hr2 & Hr3)|[e ->]].
  - split; [done|]. unfold failure. simpl. tauto.
  - destruct e; simpl; (split; [done|]); unfold failure; simpl; split_and!; try done; lia.
Qed.
Lemma reads_only_Category_get v : reads_only (Category_objects_get v).
Proof. apply (reads_only_get (fun s => objects_get MCategory (categories s) v)). Qed.

Lemma reads_only_Income_get v : reads_only (Income_objects_get v).
Proof. apply (reads_only_get (fun s => objects_get MIncome (incomes s) v)). Qed.

Lemma reads_only_Expense_get v : reads_only (Expense_objects_get v).
Proof. apply (reads_only_get (fun s => objects_get MExpense (expenses s) v)). Qed.

Create HintDb reads_only.
#[local] Hint Resolve reads_only_ret reads_only_lift reads_only_json_loads
  reads_only_item reads_only_require_fields reads_only_validate_amount
  reads_only_validate_date reads_only_Category_get reads_only_Income_get
  reads_only_Expense_get : reads_only.
#[local] Hint Extern 1 (reads_only (return_ (error_response _ _))) =>
  apply reads_only_return; lia : reads_only.
#[local] Hint Extern 2 (reads_only (try_ _ _ _)) => apply reads_only_try : reads_only.
#[local] Hint Extern 3 (reads_only (_ ≫= _)) =>
  apply reads_only_bind; [|intros ?] : reads_only.
#[local] Hint Extern 4 (reads_only (match ?x with _ => _ end)) =>
  destruct x : reads_only.

(** One step of a view body: either the step read only and the body goes
    on, or the view ended there with the store as it was. *)
Tactic Notation "view_step" hyp(H) ident(a) ident(Ha) :=
  apply bind_reads_only in H; [|solve [auto 12 with reads_only]];
  destruct H as [(a & Ha & H)|H].

Lemma objects_get_Next {A} m (tbl : Store -> gmap Z A) v s k x s' :
  lift (objects_get m (tbl s) v) s = (Next (k, x), s') -> tbl s !! k = Some x.
Proof.
  unfold lift, objects_get. destruct (pk_of_json v) as [[z|]|]; simpl; try done.
  destruct (tbl s !! z) eqn:E; simpl; [|done]. by intros [= <- <- _].
Qed.

Lemma try_Next {A} (body : view A) cs s a s' code msg :
  try_ body cs (return_ (error_response code msg)) s = (Next a, s') ->
  body s = (Next a, s').
Proof.
  unfold try_. destruct (body s) as [[a'|r|e] s1]; try done.
  destruct (caught_by cs e); done.
Qed.

(** The outcomes of the create of an income. *)
Lemma income_post_cases clk body s r s' :
  IncomeAPIView.post clk body s = (r, s') ->
  (failure r /\ s' = s)
  \/ (exists i,
        r = success_response 201 "Income transaction created successfully"
                             (IncomeData (fresh_pk (incomes s)) i)
        /\ s' = set_incomes (<[fresh_pk (incomes s) := i]> (incomes s)) s
        /\ is_Some (categories s !! Income.category_id i)
        /\ dec_le (Income.amount i) dec_zero = Val false
        /\ calendar_date (Income.date i)
        /\ Income.created_at i = now clk /\ Income.updated_at i = now clk).
Proof.
  unfold IncomeAPIView.post. intros H.
  destruct (IncomeAPIView.post_body clk body s) as [o s1] eqn:Hb.
  assert (Hcases :
    (s1 = s /\ ((exists r, o = Return r /\ refusal r) \/ exists e, o = Raise e))
    \/ exists i,
         o = Next (success_response 201 "Income transaction created successfully"
                                    (IncomeData (fresh_pk (incomes s)) i))
         /\ s1 = set_incomes (<[fresh_pk (incomes s) := i]> (incomes s)) s
         /\ is_Some (categories s !! Income.category_id i)
         /\ dec_le (Income.amount i) dec_zero = Val false
         /\ calendar_date (Income.date i)
         /\ Income.created_at i = now clk /\ Income.updated_at i = now clk).
  { unfold IncomeAPIView.post_body in Hb.
    view_step Hb data Hdata; [|by left].
    view_step Hb u Hu; [|by left].
    view_step Hb v Hv; [|by left].
    view_step Hb category Hcat; [|by left].
    view_step Hb v2 Hv2; [|by left].
    view_step Hb d Hd; [|by left].
    view_step Hb v3 Hv3; [|by left].
    view_step Hb a Ha; [|by left].
    view_step Hb v4 Hv4; [|by left].
    view_step Hb source Hsource; [|by left].
    view_step Hb note Hnote; [|by left].
    right. unfold Income_objects_create, mbind, view_bind, mret, view_ret in Hb.
    injection Hb as <- <-. eexists. split; [reflexivity|]. split; [reflexivity|].
    simpl. split_and!; try done.
    - apply try_Next in Hcat. destruct category as [k c].
      apply (objects_get_Next MCategory categories) in Hcat. simpl. eauto.
    - destruct (validate_amount_cases v3 s) as [(a' & _ & Hpos & E)|[[m E]|E]];
        rewrite E in Ha; [|done|done]. by injection Ha as <-.
    - apply try_Next in Hd. unfold lift in Hd.
      destruct (json_strptime v2) as [d'|] eqn:E; [|done]. injection Hd as ->.
      destruct v2; try done. simpl in E.
      destruct (strptime_date_cases s0) as [(d'' & Hd'' & Hc)|He]; congruence. }
  destruct Hcases as [[-> Hf]|(i & -> & -> & Hcat & Hpos & Hdate & Hc & Hu)].
  - left. destruct (respond_failure "create income transaction" _ _ _ Hb Hf) as [H1 H2].
    rewrite H in H1, H2. simpl in H1, H2. by subst.
  - right. unfold respond in H. rewrite Hb in H. injection H as <- <-.
    exists i. split_and!; done.
Qed.

(** The outcomes of the create of an expense. *)
Lemma expense_post_cases clk body s r s' :
  ExpenseAPIView.post clk body s = (r, s') ->
  (failure r /\ s' = s)
  \/ (exists x,
        r = success_response 201 "Expense transaction created successfully"
                             (ExpenseData (fresh_pk (expenses s)) x)
        /\ s' = set_expenses (<[fresh_pk (expenses s) := x]> (expenses s)) s
        /\ dec_le (Expense.amount x) dec_zero = Val false
        /\ calendar_date (Expense.date x)
        /\ Expense.created_at x = now clk /\ Expense.updated_at x = now clk).
Proof.
  unfold ExpenseAPIView.post. intros H.
  destruct (ExpenseAPIView.post_body clk body s) as [o s1] eqn:Hb.
  assert (Hcases :
    (s1 = s /\ ((exists r, o = Return r /\ refusal r) \/ exists e, o = Raise e))
    \/ exists x,
         o = Next (success_response 201 "Expense transaction created successfully"
                                    (ExpenseData (fresh_pk (expenses s)) x))
         /\ s1 = set_expenses (<[fresh_pk (expenses s) := x]> (expenses s)) s
         /\ dec_le (Expense.amount x) dec_zero = Val false
         /\ calendar_date (Expense.date x)
         /\ Expense.created_at x = now clk /\ Expense.updated_at x = now clk).
  { unfold ExpenseAPIView.post_body in Hb.
    view_step Hb data Hdata; [|by left].
    view_step Hb u Hu; [|by left].
    view_step Hb v2 Hv2; [|by left].
    view_step Hb d Hd; [|by left].
    view_step Hb v3 Hv3; [|by left].
    view_step Hb a Ha; [|by left].
    view_step Hb v4 Hv4; [|by left].
    view_step Hb title Htitle; [|by left].
    right. unfold Expense_objects_create, mbind, view_bind, mret, view_ret in Hb.
    injection Hb as <- <-. eexists. split; [reflexivity|]. split; [reflexivity|].
    simpl. split_and!; try done.
    - destruct (validate_amount_cases v3 s) as [(a' & _ & Hpos & E)|[[m E]|E]];
        rewrite E in Ha; [|done|done]. by injection Ha as <-.
    - apply try_Next in Hd. unfold lift in Hd.
      destruct (json_strptime v2) as [d'|] eqn:E; [|done]. injection Hd as ->.
      destruct v2; try done. simpl in E.
      destruct (strptime_date_cases s0) as [(d'' & Hd'' & Hc)|He]; congruence. }
  destruct Hcases as [[-> Hf]|(x & -> & -> & Hpos & Hdate & Hc & Hu)].
  - left. destruct (respond_failure "create expense transaction" _ _ _ Hb Hf) as [H1 H2].
    rewrite H in H1, H2. simpl in H1, H2. by subst.
  - right. unfold respond in H. rewrite Hb in H. injection H as <- <-.
    exists x. split_and!; done.
Qed.


(** ** Reading and deleting one record *)

Lemma income_delete_cases pk s :
  IncomeAPIView_delete pk s =
    match incomes s !! pk with
    | Some i => (success_response 200 "Income transaction deleted successfully"
                                  (IncomeData pk i),
                 set_incomes (delete pk (incomes s)) s)
    | None => (error_response 404 "Income transaction not found", s)
    end.
Proof.
  unfold IncomeAPIView_delete, Income_objects_get, Income_delete, objects_get.
  view_steps. simpl. by destruct (incomes s !! pk).
Qed.

Lemma expense_delete_cases pk s :
  ExpenseAPIView_delete pk s =
    match expenses s !! pk with
    | Some x => (success_response 200 "Expense transaction deleted successfully"
                                  (ExpenseData pk x),
                 set_expenses (delete pk (expenses s)) s)
    | None => (error_response 404 "Expense transaction not found", s)
    end.
Proof.
  unfold ExpenseAPIView_delete, Expense_objects_get, Expense_delete, objects_get.
  view_steps. simpl. by destruct (expenses s !! pk).
Qed.

Lemma income_get_detail pk s :
  pk <> 0 ->
  IncomeAPIView_get (Some pk) s =
    match incomes s !! pk with
    | Some i =>
        match categories s !! Income.category_id i with
        | Some c => Success 200 (IncomeDetail (pk, i, c))
        | None => Failure 404 "Income transaction not found"
        end
    | None => Failure 404 "Income transaction not found"
    end.
Proof.
  intros Hpk. unfold IncomeAPIView_get, pk_given, Income_select_related_get.
  assert ((pk =? 0) = false) as -> by lia.
  destruct (incomes s !! pk) as [i|]; [|done].
  by destruct (categories s !! Income.category_id i).
Qed.

Lemma expense_get_detail pk s :
  pk <> 0 ->
  ExpenseAPIView_get (Some pk) s =
    match expenses s !! pk with
    | Some x => Success 200 (ExpenseDetail (pk, x))
    | None => Failure 404 "Expense transaction not found"
    end.
Proof.
  intros Hpk. unfold ExpenseAPIView_get, pk_given, objects_get.
  assert ((pk =? 0) = false) as -> by lia. simpl.
  by destruct (expenses s !! pk).
Qed.



Lemma size_delete_Some {A} (m : gmap Z A) k x :
  m !! k = Some x -> size m = S (size (delete k m)).
Proof.
  intros H. rewrite <- (insert_delete_id m k x H) at 1.
  apply map_size_insert_None, lookup_delete_eq.
Qed.


Lemma elem_of_select_related s pk i c :
  (pk, i, c) ∈ Income_select_related s
  <-> incomes s !! pk = Some i /\ categories s !! Income.category_id i = Some c.
Proof.
  unfold Income_select_related. rewrite list_elem_of_omap. split.
  - intros ([k i'] & Hin & Hf). apply elem_of_map_to_list in Hin. simpl in Hf.
    destruct (categories s !! Income.category_id i') as [c'|] eqn:Hc; [|done].
    simpl in Hf. injection Hf as -> -> ->. done.
  - intros [Hi Hc]. exists (pk, i). split; [by apply elem_of_map_to_list|].
    simpl. by rewrite Hc.
Qed.






(** ** Updates that fail *)

Lemma income_put_cases clk body pk s :
  (failure (fst (IncomeAPIView.put clk body pk s))
   /\ snd (IncomeAPIView.put clk body pk s) = s)
  \/ (exists i i',
        incomes s !! pk = Some i
        /\ IncomeAPIView.put clk body pk s
           = (success_response 200 "Income transaction updated successfully"
                               (IncomeData pk i'),
              set_incomes (<[pk := i']> (incomes s)) s)).
Proof.
  unfold IncomeAPIView.put.
  destruct (IncomeAPIView.put_body clk body pk s) as [o s1] eqn:Hb.
  assert (Hcases :
    (s1 = s /\ ((exists r, o = Return r /\ refusal r) \/ exists e, o = Raise e))
    \/ exists i i',
         incomes s !! pk = Some i
         /\ o = Next (success_response 200 "Income transaction updated successfully"
                                       (IncomeData pk i'))
         /\ s1 = set_incomes (<[pk := i']> (incomes s)) s).
  { unfold IncomeAPIView.put_body in Hb.
    view_step Hb data Hdata; [|by left].
    view_step Hb income Hincome; [|by left].
    apply try_Next in Hincome. destruct income as [k i].
    assert (k = pk) as ->.
    { unfold Income_objects_get, lift, objects_get in Hincome. simpl in Hincome.
      destruct (incomes s !! pk); simpl in Hincome; congruence. }
    apply (objects_get_Next MIncome incomes) in Hincome.
    view_step Hb i1 H1; [|by left].
    view_step Hb i2 H2; [|by left].
    view_step Hb i3 H3; [|by left].
    view_step Hb i4 H4; [|by left].
    view_step Hb i5 H5; [|by left].
    right. exists i.
    assert (E1 : fst i1 = pk).
    { destruct (data !! "category_id"); [|by injection H1 as <-].
      apply try_Next in H1. view_step H1 c Hc; [|by destruct H1 as (_ & [(? & ? & _)|[? ?]])].
      by injection H1 as <-. }
    assert (E2 : fst i2 = pk).
    { destruct (data !! "source"); [|by injection H2 as <-].
      view_step H2 t Ht; [|by destruct H2 as (_ & [(? & ? & _)|[? ?]])].
      destruct (nonempty t); [by injection H2 as <-|done]. }
    assert (E3 : fst i3 = pk).
    { destruct (data !! "amount"); [|by injection H3 as <-].
      view_step H3 t Ht; [|by destruct H3 as (_ & [(? & ? & _)|[? ?]])].
      by injection H3 as <-. }
    assert (E4 : fst i4 = pk).
    { destruct (data !! "date"); [|by injection H4 as <-].
      view_step H4 t Ht; [|by destruct H4 as (_ & [(? & ? & _)|[? ?]])].
      by injection H4 as <-. }
    assert (E5 : fst i5 = pk).
    { destruct (data !! "note"); [|by injection H5 as <-].
      view_step H5 t Ht; [|by destruct H5 as (_ & [(? & ? & _)|[? ?]])].
      by injection H5 as <-. }
    unfold Income_save, mbind, view_bind, mret, view_ret in Hb.
    injection Hb as <- <-. rewrite E5. eauto. }
  destruct Hcases as [[-> Hf]|(i & i' & Hi & -> & ->)].
  - left. destruct (respond_failure "update income transaction" _ _ _ Hb Hf). done.
  - right. exists i, i'. split; [done|]. unfold respond. by rewrite Hb.
Qed.

Lemma expense_put_cases clk body pk s :
  (failure (fst (ExpenseAPIView.put clk body pk s))
   /\ snd (ExpenseAPIView.put clk body pk s) = s)
  \/ (exists x x',
        expenses s !! pk = Some x
        /\ ExpenseAPIView.put clk body pk s
           = (success_response 200 "Expense transaction updated successfully"
                               (ExpenseData pk x'),
              set_expenses (<[pk := x']> (expenses s)) s)).
Proof.
  unfold ExpenseAPIView.put.
  destruct (ExpenseAPIView.put_body clk body pk s) as [o s1] eqn:Hb.
  assert (Hcases :
    (s1 = s /\ ((exists r, o = Return r /\ refusal r) \/ exists e, o = Raise e))
    \/ exists x x',
         expenses s !! pk = Some x
         /\ o = Next (success_response 200 "Expense transaction updated successfully"
                                       (ExpenseData pk x'))
         /\ s1 = set_expenses (<[pk := x']> (expenses s)) s).
  { unfold ExpenseAPIView.put_body in Hb.
    view_step Hb data Hdata; [|by left].
    view_step Hb expense Hexpense; [|by left].
    apply try_Next in Hexpense. destruct expense as [k x].
    assert (k = pk) as ->.
    { unfold Expense_objects_get, lift, objects_get in Hexpense. simpl in Hexpense.
      destruct (expenses s !! pk); simpl in Hexpense; congruence. }
    apply (objects_get_Next MExpense expenses) in Hexpense.
    view_step Hb x1 H1; [|by left].
    view_step Hb x2 H2; [|by left].
    view_step Hb x3 H3; [|by left].
    right. exists x.
    assert (E1 : fst x1 = pk).
    { destruct (data !! "title"); [|by injection H1 as <-].
      view_step H1 t Ht; [|by destruct H1 as (_ & [(? & ? & _)|[? ?]])].
      destruct (nonempty t); [by injection H1 as <-|done]. }
    assert (E2 : fst x2 = pk).
    { destruct (data !! "amount"); [|by injection H2 as <-].
      view_step H2 t Ht; [|by destruct H2 as (_ & [(? & ? & _)|[? ?]])].
      by injection H2 as <-. }
    assert (E3 : fst x3 = pk).
    { destruct (data !! "date"); [|by injection H3 as <-].
      view_step H3 t Ht; [|by destruct H3 as (_ & [(? & ? & _)|[? ?]])].
      by injection H3 as <-. }
    unfold Expense_save, mbind, view_bind, mret, view_ret in Hb.
    injection Hb as <- <-. rewrite E3. eauto. }
  destruct Hcases as [[-> Hf]|(x & x' & Hx & -> & ->)].
  - left. destruct (respond_failure "update expense transaction" _ _ _ Hb Hf). done.
  - right. exists x, x'. split; [done|]. unfold respond. by rewrite Hb.
Qed.

Lemma reads_only_find_transaction tid :
  reads_only (TransactionAPIView.find_transaction tid).
Proof. unfold TransactionAPIView.find_transaction. auto 12 with reads_only. Qed.

Lemma find_transaction_Next tid s found :
  TransactionAPIView.find_transaction tid s = (Next found, s) ->
  (exists z i, found = (Some (z, i), None) /\ incomes s !! z = Some i)
  \/ (exists z x, found = (None, Some (z, x)) /\ expenses s !! z = Some x).
Proof.
  unfold TransactionAPIView.find_transaction, try_, Income_objects_get,
    Expense_objects_get, objects_get.
  view_steps. destruct (pk_of_json tid) as [[z|]|e]; simpl.
  - destruct (incomes s !! z) as [i|] eqn:Hi; simpl.
    + intros [= <-]. left. eauto.
    + destruct (expenses s !! z) as [x|] eqn:Hx; simpl; [|done].
      intros [= <-]. right. eauto.
  - done.
  - repeat case_match; done.
Qed.

Lemma transaction_put_cases clk body s :
  (failure (fst (TransactionAPIView.put clk body s))
   /\ snd (TransactionAPIView.put clk body s) = s)
  \/ (exists z i i',
        incomes s !! z = Some i
        /\ TransactionAPIView.put clk body s
           = (success_response 200 "Income transaction updated successfully"
                               (IncomeData z i'),
              set_incomes (<[z := i']> (incomes s)) s))
  \/ (exists z x x',
        expenses s !! z = Some x
        /\ TransactionAPIView.put clk body s
           = (success_response 200 "Expense transaction updated successfully"
                               (ExpenseData z x'),
              set_expenses (<[z := x']> (expenses s)) s)).
Proof.
  unfold TransactionAPIView.put.
  destruct (TransactionAPIView.put_body clk body s) as [o s1] eqn:Hb.
  assert (Hfail : forall o,
    TransactionAPIView.put_body clk body s = (o, s) ->
    ((exists r, o = Return r /\ refusal r) \/ exists e, o = Raise e) ->
    failure (fst (respond "update transaction" (TransactionAPIView.put_body clk body) s))
    /\ snd (respond "update transaction" (TransactionAPIView.put_body clk body) s) = s).
  { intros o' Ho' Hf. destruct (respond_failure "update transaction" _ _ _ Ho' Hf). done. }
  pose proof Hb as Hb0.
  unfold TransactionAPIView.put_body in Hb.
  view_step Hb data Hdata; [|destruct Hb as [-> Hf]; left; eapply Hfail; eauto].
  destruct (data !! "id") as [tid|] eqn:Hid.
  2:{ injection Hb as <- <-. left. eapply Hfail; [done|]. left. eexists. split; [done|].
      unfold refusal. simpl. split_and!; try done; lia. }
  apply bind_reads_only in Hb; [|apply reads_only_find_transaction].
  destruct Hb as [(found & Hfound & Hb)|[-> Hf]]; [|left; eapply Hfail; eauto].
  apply find_transaction_Next in Hfound
    as [(z & i & -> & Hi)|(z & x & -> & Hx)].
  - destruct (put_income_cases clk data z i s) as [[i' E]|[[m E]|(e & He & E)]];
      rewrite E in Hb; injection Hb as <- <-.
    + right; left. exists z, i, i'. split; [done|].
      unfold respond. by rewrite Hb0.
    + left. eapply Hfail; [done|]. left. eexists. split; [done|].
      unfold refusal. simpl. split_and!; try done; lia.
    + left. eapply Hfail; [done|]. right. eauto.
  - destruct (put_expense_cases clk data z x s) as [[x' E]|[[m E]|(e & He & E)]];
      rewrite E in Hb; injection Hb as <- <-.
    + right; right. exists z, x, x'. split; [done|].
      unfold respond. by rewrite Hb0.
    + left. eapply Hfail; [done|]. left. eexists. split; [done|].
      unfold refusal. simpl. split_and!; try done; lia.
    + left. eapply Hfail; [done|]. right. eauto.
Qed.


(** X16. [TransactionAPIView.put] reads the keys [id], [amount] and
    [description] only: any other member of the body can take any value
    without changing the answer or the store. *)
Theorem generic_update_reads_three_keys
    (clk : Clock) (req : gmap string json) (k : string) (v : json) (s : Store) :
  k <> "id" -> k <> "amount" -> k <> "description" ->
  TransactionAPIView.put clk (Some (<[k := v]> req)) s
  = TransactionAPIView.put clk (Some req) s.
Proof.
  intros H1 H2 H3.
  unfold TransactionAPIView.put, respond, TransactionAPIView.put_body,
    TransactionAPIView.put_income, TransactionAPIView.put_expense.
  view_steps. by rewrite !lookup_insert_ne.
Qed.

(** X16, with a date in the body. *)
Lemma generic_update_reads_three_keys_witness :
  TransactionAPIView.put clock_ex
    (Some (<["date" := JStr "1999-01-01"]> {[ "id" := JInt 1; "amount" := JStr "5" ]}))
    store_ex
  = TransactionAPIView.put clock_ex (Some {[ "id" := JInt 1; "amount" := JStr "5" ]})
      store_ex.
Proof. apply generic_update_reads_three_keys; discriminate. Defined.
(** ** The generic create *)

Lemma get_or_create_cases clk nm s :
  (exists kc, categories s !! fst kc = Some (snd kc) /\ name (snd kc) = nm
              /\ Category_objects_get_or_create clk nm s = (Next kc, s))
  \/ ((forall k c, categories s !! k = Some c -> name c <> nm)
      /\ Category_objects_get_or_create clk nm s
         = (Next (fresh_pk (categories s), mkCategory nm (now clk)),
            set_categories (<[fresh_pk (categories s) := mkCategory nm (now clk)]>
                              (categories s)) s)).
Proof.
  unfold Category_objects_get_or_create.
  destruct (filter _ (map_to_list (categories s))) as [|[k c] l] eqn:Hf.
  - right. split; [|done]. intros k c Hk Hn.
    assert (Hin : (k, c) ∈ filter (fun kc : Z * Category => String.eqb (name kc.2) nm)
                             (map_to_list (categories s))).
    { apply list_elem_of_filter. split; [|by apply elem_of_map_to_list].
      simpl. apply Is_true_true. by apply String.eqb_eq. }
    rewrite Hf in Hin. by apply elem_of_nil in Hin.
  - left. exists (k, c).
    assert (Hin : (k, c) ∈ filter (fun kc : Z * Category => String.eqb (name kc.2) nm)
                             (map_to_list (categories s))).
    { rewrite Hf. by left. }
    apply list_elem_of_filter in Hin as [Hn Hin]. apply elem_of_map_to_list in Hin.
    simpl in Hn. apply Is_true_true, String.eqb_eq in Hn. done.
Qed.

Lemma transaction_post_cases clk body s :
  let r := fst (TransactionAPIView.post clk body s) in
  let s' := snd (TransactionAPIView.post clk body s) in
  let salary := mkCategory "Salary" (now clk) in
  let s2 := set_categories (<[fresh_pk (categories s) := salary]> (categories s)) s in
  let no_salary := forall k c, categories s !! k = Some c -> name c <> "Salary" in
  (failure r /\ s' = s)
  \/ (failure r /\ s' = s2 /\ no_salary
      /\ exists data, body = Some data
                      /\ TransactionAPIView.transaction_type data = Some Txn.income)
  \/ (exists i s1,
        (s1 = s \/ (s1 = s2 /\ no_salary))
        /\ r = success_response 200 "Income transaction created successfully"
                                (IncomeData (fresh_pk (incomes s)) i)
        /\ s' = set_incomes (<[fresh_pk (incomes s) := i]> (incomes s)) s1)
  \/ (exists x,
        r = success_response 200 "Expense transaction created successfully"
                             (ExpenseData (fresh_pk (expenses s)) x)
        /\ s' = set_expenses (<[fresh_pk (expenses s) := x]> (expenses s)) s).
Proof.
  intros r s' salary s2 no_salary. subst r s'. unfold TransactionAPIView.post.
  destruct (TransactionAPIView.post_body clk body s) as [o s1] eqn:Hb.
  assert (Hfail : forall s1 o,
    TransactionAPIView.post_body clk body s = (o, s1) ->
    ((exists r, o = Return r /\ refusal r) \/ exists e, o = Raise e) ->
    failure (fst (respond "create transaction" (TransactionAPIView.post_body clk body) s))
    /\ snd (respond "create transaction" (TransactionAPIView.post_body clk body) s) = s1).
  { intros s1' o' Ho' Hf. unfold respond. rewrite Ho'.
    destruct Hf as [(r & -> & Hr1 & Hr2 & Hr3)|[e ->]].
    - split; [|done]. unfold failure. simpl. tauto.
    - destruct e; simpl; (split; [|done]); unfold failure; simpl; split_and!;
        try done; lia. }
  pose proof Hb as Hb0. unfold TransactionAPIView.post_body in Hb.
  view_step Hb data Hdata; [|destruct Hb as [-> Hf]; left; eapply Hfail; eauto].
  assert (Hbody : body = Some data).
  { destruct body; [|done]. by injection Hdata as ->. }
  destruct (TransactionAPIView.transaction_type data) as [[]|] eqn:Hty.
  - view_step Hb u Hu; [|destruct Hb as [-> Hf]; left; eapply Hfail; eauto].
    unfold mbind at 1, view_bind at 1 in Hb.
    destruct (get_or_create_cases clk "Salary" s) as [(kc & _ & _ & E)|[Hno E]];
      rewrite E in Hb.
    + view_step Hb v Hv; [|destruct Hb as [-> Hf]; left; eapply Hfail; eauto].
      view_step Hb a Ha; [|destruct Hb as [-> Hf]; left; eapply Hfail; eauto].
      view_step Hb v' Hv'; [|destruct Hb as [-> Hf]; left; eapply Hfail; eauto].
      view_step Hb source Hsrc; [|destruct Hb as [-> Hf]; left; eapply Hfail; eauto].
      view_step Hb note Hnote; [|destruct Hb as [-> Hf]; left; eapply Hfail; eauto].
      unfold Income_objects_create, mbind, view_bind, mret, view_ret in Hb.
      injection Hb as <- <-. right; right; left. eexists _, s.
      split; [by left|]. unfold respond. rewrite Hb0. done.
    + fold salary in Hb. fold s2 in Hb.
      assert (Hfail2 : forall o, TransactionAPIView.post_body clk body s = (o, s2) ->
                ((exists r, o = Return r /\ refusal r) \/ exists e, o = Raise e) ->
                failure (fst (respond "create transaction"
                                (TransactionAPIView.post_body clk body) s))
                /\ snd (respond "create transaction"
                          (TransactionAPIView.post_body clk body) s) = s2
                /\ no_salary
                /\ exists data, body = Some data
                     /\ TransactionAPIView.transaction_type data = Some Txn.income).
      { intros o' Ho' Hf. destruct (Hfail _ _ Ho' Hf). split_and!; eauto. }
      view_step Hb v Hv; [|destruct Hb as [-> Hf]; right; left; eapply Hfail2; eauto].
      view_step Hb a Ha; [|destruct Hb as [-> Hf]; right; left; eapply Hfail2; eauto].
      view_step Hb v' Hv'; [|destruct Hb as [-> Hf]; right; left; eapply Hfail2; eauto].
      view_step Hb source Hsrc;
        [|destruct Hb as [-> Hf]; right; left; eapply Hfail2; eauto].
      view_step Hb note Hnote;
        [|destruct Hb as [-> Hf]; right; left; eapply Hfail2; eauto].
      unfold Income_objects_create, mbind, view_bind, mret, view_ret in Hb.
      injection Hb as <- <-. right; right; left. eexists _, s2.
      split; [by right|]. unfold respond. rewrite Hb0. done.
  - view_step Hb u Hu; [|destruct Hb as [-> Hf]; left; eapply Hfail; eauto].
    view_step Hb v Hv; [|destruct Hb as [-> Hf]; left; eapply Hfail; eauto].
    view_step Hb a Ha; [|destruct Hb as [-> Hf]; left; eapply Hfail; eauto].
    view_step Hb v' Hv'; [|destruct Hb as [-> Hf]; left; eapply Hfail; eauto].
    view_step Hb title Htitle; [|destruct Hb as [-> Hf]; left; eapply Hfail; eauto].
    unfold Expense_objects_create, mbind, view_bind, mret, view_ret in Hb.
    injection Hb as <- <-. right; right; right. eexists.
    unfold respond. rewrite Hb0. done.
  - injection Hb as <- <-. left. eapply Hfail; [done|]. left. eexists. split; [done|].
    unfold refusal. simpl. split_and!; try done; lia.
Qed.

(** ** The answer to a malformed amount *)

Lemma never_says_ret {A} m (a : A) : never_says m (mret a).
Proof. by intros s o s' [= <- <-]. Qed.

Lemma never_says_lift {A} m (x : py A) : never_says m (lift x).
Proof. intros s o s'. unfold lift. by destruct x; intros [= <- <-]. Qed.

Lemma never_says_return {A} m code msg :
  msg <> m -> never_says m (@return_ A (error_response code msg)).
Proof. by intros H s o s' [= <- <-]. Qed.

Lemma never_says_bind {A B} m (x : view A) (f : A -> view B) :
  never_says m x -> (forall a, never_says m (f a)) -> never_says m (x ≫= f).
Proof.
  intros Hx Hf s o s'. unfold mbind, view_bind.
  destruct (x s) as [[a|r|e] s1] eqn:E; pose proof (Hx _ _ _ E) as Hr.
  - apply Hf.
  - by intros [= <- <-].
  - by intros [= <- <-].
Qed.

Lemma never_says_try {A} m (body handler : view A) cs :
  never_says m body -> never_says m handler -> never_says m (try_ body cs handler).
Proof.
  intros Hb Hh s o s'. unfold try_.
  destruct (body s) as [[a|r|e] s1] eqn:E; pose proof (Hb _ _ _ E) as Hr.
  - by intros [= <- <-].
  - by intros [= <- <-].
  - destruct (caught_by cs e); [apply Hh|by intros [= <- <-]].
Qed.

Lemma never_says_item m data k : never_says m (item data k).
Proof. unfold item. destruct (data !! k); [apply never_says_ret|apply never_says_lift]. Qed.

Lemma never_says_json_loads m body : never_says m (json_loads body).
Proof. destruct body; [apply never_says_ret|apply never_says_lift]. Qed.

Lemma never_says_require_fields fields data :
  never_says "Invalid amount format" (require_fields fields data).
Proof.
  induction fields as [|f fields IH]; simpl; [apply never_says_ret|].
  destruct (data !! f) as [v|]; [|by apply never_says_return].
  destruct (truthy v); [done|by apply never_says_return].
Qed.

(** The block that reads the amount: its [except (ValueError, TypeError)]
    never runs, since [Decimal(...)] and the comparison raise
    [InvalidOperation] only. *)
Lemma never_says_validate_amount v :
  never_says "Invalid amount format" (validate_amount v).
Proof.
  intros s o s' H.
  destruct (validate_amount_cases v s) as [(a & Ha & Hle & E)|[[m E]|E]].
  - rewrite E in H. by injection H as <- <-.
  - unfold validate_amount, try_, mbind, view_bind, lift, mret, view_ret, return_ in H.
    destruct (Decimal_of_str (str v)) as [a|e] eqn:Ha.
    + destruct (dec_le a dec_zero) as [[]|e] eqn:Hle.
      * by injection H as <- <-.
      * by injection H as <- <-.
      * apply dec_le_raises in Hle as ->. by injection H as <- <-.
    + apply Decimal_of_str_raises in Ha as ->. by injection H as <- <-.
  - rewrite E in H. by injection H as <- <-.
Qed.

Lemma never_says_validate_date v :
  never_says "Invalid amount format" (validate_date v).
Proof.
  apply never_says_try; [apply never_says_lift|by apply never_says_return].
Qed.

Lemma never_says_get {A} m (f : Store -> py A) : never_says m (fun s => lift (f s) s).
Proof. intros s o s'. unfold lift. by destruct (f s); intros [= <- <-]. Qed.

Lemma never_says_Category_get m v : never_says m (Category_objects_get v).
Proof. apply (never_says_get m (fun s => objects_get MCategory (categories s) v)). Qed.

Lemma never_says_Income_get m v : never_says m (Income_objects_get v).
Proof. apply (never_says_get m (fun s => objects_get MIncome (incomes s) v)). Qed.

Lemma never_says_Expense_get m v : never_says m (Expense_objects_get v).
Proof. apply (never_says_get m (fun s => objects_get MExpense (expenses s) v)). Qed.

Lemma never_says_get_or_create m clk nm :
  never_says m (Category_objects_get_or_create clk nm).
Proof.
  intros s o s'. unfold Category_objects_get_or_create.
  by destruct (filter _ _); intros [= <- <-].
Qed.

Lemma never_says_Income_create m clk c src a d n :
  never_says m (Income_objects_create clk c src a d n).
Proof. by intros s o s' [= <- <-]. Qed.

Lemma never_says_Expense_create m clk t a d :
  never_says m (Expense_objects_create clk t a d).
Proof. by intros s o s' [= <- <-]. Qed.

Lemma never_says_Income_save m clk i : never_says m (Income_save clk i).
Proof. by intros s o s' [= <- <-]. Qed.

Lemma never_says_Expense_save m clk e : never_says m (Expense_save clk e).
Proof. by intros s o s' [= <- <-]. Qed.

Lemma never_says_Income_delete m i : never_says m (Income_delete i).
Proof. by intros s o s' [= <- <-]. Qed.

Lemma never_says_Expense_delete m e : never_says m (Expense_delete e).
Proof. by intros s o s' [= <- <-]. Qed.

Lemma answers_without_ret m code msg d :
  msg <> m -> answers_without m (mret (success_response code msg d)).
Proof. by intros H s o s' [= <- <-]. Qed.

Lemma answers_without_return m code msg :
  msg <> m -> answers_without m (return_ (error_response code msg)).
Proof. by intros H s o s' [= <- <-]. Qed.

Lemma answers_without_lift m (x : py JsonResponse) e :
  x = Exc e -> answers_without m (lift x).
Proof. intros -> s o s' [= <- <-]. done. Qed.

Lemma answers_without_bind {A} m (x : view A) (f : A -> view JsonResponse) :
  never_says m x -> (forall a, answers_without m (f a)) -> answers_without m (x ≫= f).
Proof.
  intros Hx Hf s o s'. unfold mbind, view_bind.
  destruct (x s) as [[a|r|e] s1] eqn:E; pose proof (Hx _ _ _ E) as Hr.
  - apply Hf.
  - by intros [= <- <-].
  - by intros [= <- <-].
Qed.

Create HintDb never_says.
#[local] Hint Resolve never_says_ret never_says_lift never_says_item
  never_says_json_loads never_says_require_fields never_says_validate_amount
  never_says_validate_date
  never_says_Category_get never_says_Income_get never_says_Expense_get
  never_says_get_or_create never_says_Income_create never_says_Expense_create
  never_says_Income_save never_says_Expense_save never_says_Income_delete
  never_says_Expense_delete : never_says.
#[local] Hint Extern 1 (never_says _ (return_ (error_response _ _))) =>
  apply never_says_return; discriminate : never_says.
#[local] Hint Extern 1 (answers_without _ (return_ (error_response _ _))) =>
  apply answers_without_return; discriminate : never_says.
#[local] Hint Extern 1 (answers_without _ (mret (success_response _ _ _))) =>
  apply answers_without_ret; discriminate : never_says.
#[local] Hint Extern 1 (answers_without _ (lift (Exc _))) =>
  eapply answers_without_lift; reflexivity : never_says.
#[local] Hint Extern 2 (never_says _ (try_ _ _ _)) => apply never_says_try : never_says.
#[local] Hint Extern 3 (never_says _ (_ ≫= _)) =>
  apply never_says_bind; [|intros ?] : never_says.
#[local] Hint Extern 3 (answers_without _ (_ ≫= _)) =>
  apply answers_without_bind; [|intros ?] : never_says.
#[local] Hint Extern 4 (never_says _ (match ?x with _ => _ end)) =>
  destruct x : never_says.
#[local] Hint Extern 4 (answers_without _ (match ?x with _ => _ end)) =>
  destruct x : never_says.

Lemma respond_without m what body s :
  answers_without m body ->
  m <> "Invalid JSON data" -> m <> "Failed to " +:+ what ->
  message (fst (respond what body s)) <> m.
Proof.
  intros Hb H1 H2. unfold respond.
  destruct (body s) as [[r|r|e] s1] eqn:E; pose proof (Hb _ _ _ E) as Hr; simpl in *.
  - done.
  - done.
  - destruct e; simpl; congruence.
Qed.


(** ** Search of one kind *)

Lemma sort_by_sorted_fixed {A} (before : A -> A -> bool) l :
  StronglySorted (fun a b => before a b) l -> sort_by before l = l.
Proof.
  induction 1 as [|x l Hl IH Hx]; [done|].
  simpl. fold (sort_by before l). rewrite IH.
  destruct l as [|y l]; [done|]. simpl.
  apply Forall_cons_1 in Hx as [Hxy _]. apply Is_true_true in Hxy. by rewrite Hxy.
Qed.

Lemma StronglySorted_fmap_entry {A} (entry : A -> Txn.t) l :
  StronglySorted (fun a b => date_desc (entry a) (entry b)) l ->
  StronglySorted (fun a b : Txn.t => date_leb (Txn.date b) (Txn.date a)) (map entry l).
Proof.
  induction 1 as [|x l Hl IH Hx]; simpl; constructor; [done|].
  apply Forall_fmap. eapply Forall_impl; [exact Hx|].
  intros y Hy. simpl. apply Is_true_true. unfold date_leb. apply Z.leb_le. exact Hy.
Qed.

Lemma search_one_kind_answer {A} (entry : A -> Txn.t) (matches : list A) (L : Z) :
  0 <= L ->
  StronglySorted (fun a b => date_desc (entry a) (entry b)) matches ->
  let res := map entry (take (Z.to_nat L) matches) in
  sort_by_date res = res /\ list_slice L res = res
  /\ (List.length res <= Z.to_nat L)%nat.
Proof.
  intros HL Hs res.
  assert (Hlen : (List.length res <= Z.to_nat L)%nat).
  { subst res. rewrite length_map, length_take. lia. }
  split_and!; [| |done].
  - apply sort_by_sorted_fixed, StronglySorted_fmap_entry.
    by apply StronglySorted_take.
  - unfold list_slice. assert ((L <? 0) = false) as -> by lia. by apply take_ge.
Qed.

(** X19. A search with a query, a limit [L >= 0] and one kind: for
    [type=income] the results are the first [L] matching incomes, all of
    type income, and [count] is their number, at most [L]; likewise for
    [type=expense]; for any other type than [all], [income] and [expense]
    the answer is 200 with no result and the count 0. *)
Theorem search_of_one_kind
    (GET : gmap string string) (s : Store) (L : Z) :
  nonempty (strip (GET_get GET "q")) = true ->
  SearchAPIView.search_limit GET = Val L ->
  0 <= L ->
  let q := strip (GET_get GET "q") in
  let type := default "all" (GET !! "type") in
  let answer res := mkResponse 200 "success" "" (SearchData res (Some (List.length res))) in
  (type = "income" ->
   let res := map income_entry (take (Z.to_nat L) (SearchAPIView.income_matches q s)) in
   SearchAPIView.get GET s = answer res
   /\ (List.length res <= Z.to_nat L)%nat
   /\ Forall (fun x => Txn.type x = Txn.income) res)
  /\ (type = "expense" ->
      let res := map expense_entry (take (Z.to_nat L) (SearchAPIView.expense_matches q s)) in
      SearchAPIView.get GET s = answer res
      /\ (List.length res <= Z.to_nat L)%nat
      /\ Forall (fun x => Txn.type x = Txn.expense) res)
  /\ (type <> "all" -> type <> "income" -> type <> "expense" ->
      SearchAPIView.get GET s = answer []).
Proof.
  intros Hq HL Hpos q type answer. subst q type answer. cbv beta.
  assert (Hneg : (L <? 0) = false) by lia.
  split_and!.
  - intros Ht res.
    destruct (search_one_kind_answer income_entry (SearchAPIView.income_matches
                (strip (GET_get GET "q")) s) L Hpos (income_matches_sorted _ s))
      as (Hsort & Hslice & Hlen).
    fold res in Hsort, Hslice, Hlen. split_and!; [|done|].
    + unfold SearchAPIView.get. rewrite HL, Hq, Ht. simpl.
      unfold queryset_slice. rewrite Hneg. simpl. fold res.
      by rewrite Hsort, Hslice.
    + subst res. apply Forall_fmap, Forall_forall. intros r _. apply income_entry_type.
  - intros Ht res.
    destruct (search_one_kind_answer expense_entry (SearchAPIView.expense_matches
                (strip (GET_get GET "q")) s) L Hpos (expense_matches_sorted _ s))
      as (Hsort & Hslice & Hlen).
    fold res in Hsort, Hslice, Hlen. split_and!; [|done|].
    + unfold SearchAPIView.get. rewrite HL, Hq, Ht. simpl.
      unfold queryset_slice. rewrite Hneg. simpl. fold res.
      by rewrite Hsort, Hslice.
    + subst res. apply Forall_fmap, Forall_forall. intros r _. apply expense_entry_type.
  - intros H1 H2 H3. unfold SearchAPIView.get. rewrite HL, Hq.
    apply String.eqb_neq in H1, H2, H3. rewrite H1, H2, H3. simpl.
    unfold list_slice. rewrite Hneg. by rewrite take_nil.
Qed.

(** X19, on the sample store: three incomes match, two are returned and counted. *)
Lemma search_of_one_kind_witness :
  let GET : gmap string string := {[ "q" := "job"; "type" := "income"; "limit" := "2" ]} in
  map Txn.id (results_of (SearchAPIView.get GET store_ex)) = [6; 4]
  /\ count_of (SearchAPIView.get GET store_ex) = Some 2%nat
  /\ List.length (SearchAPIView.income_matches "job" store_ex) = 3%nat.
Proof.
  intros GET.
  assert (Hq : nonempty (strip (GET_get GET "q")) = true) by (vm_compute; reflexivity).
  assert (HL : SearchAPIView.search_limit GET = Val 2) by (vm_compute; reflexivity).
  destruct (search_of_one_kind GET store_ex 2 Hq HL ltac:(lia)) as [H _].
  destruct H as (H & _ & _); [vm_compute; reflexivity|].
  rewrite H. vm_compute. done.
Defined.


(** ** The filters of the list views *)

Lemma strptime_date_raises s e : strptime_date s = Exc e -> e = ValueError.
Proof. destruct (strptime_date_cases s) as [(d & -> & _) | ->]; congruence. Qed.

(** One filter of [get_queryset]: the rows kept are those of the query
    that pass the test, and every row when the value does not parse. *)
Lemma filter_step_elem {A B} (parse : string -> py B) (keep : B -> A -> bool)
    (p : string) cs (q l : list A) :
  parse "" = Exc ValueError \/ parse "" = Exc InvalidOperation ->
  (if nonempty p then py_try (b ← parse p; Val (filter (fun r => keep b r) q)) cs (Val q)
   else Val q) = Val l ->
  forall r, r ∈ l <-> r ∈ q /\ match parse p with
                               | Val b => keep b r = true
                               | Exc _ => True
                               end.
Proof.
  intros Hempty H r. destruct (nonempty p) eqn:Hp.
  - unfold py_try in H. destruct (parse p) as [b|e]; simpl in H.
    + injection H as <-. rewrite list_elem_of_filter. rewrite Is_true_true. tauto.
    + destruct (caught_by cs e); [|done]. injection H as <-. tauto.
  - injection H as <-. unfold nonempty in Hp.
    apply negb_false_iff, String.eqb_eq in Hp. subst p.
    destruct Hempty as [-> | ->]; tauto.
Qed.

Lemma filter_step_runs {A B} (parse : string -> py B) (keep : B -> A -> bool)
    (p : string) cs (q : list A) :
  p = "" \/ (exists b, parse p = Val b) \/ (exists e, parse p = Exc e /\ caught_by cs e = true) ->
  exists l,
    (if nonempty p then py_try (b ← parse p; Val (filter (fun r => keep b r) q)) cs (Val q)
     else Val q) = Val l.
Proof.
  intros [-> | [[b Hb]|(e & He & Hc)]].
  - by eexists.
  - destruct (nonempty p); [|by eexists]. rewrite Hb. by eexists.
  - destruct (nonempty p); [|by eexists]. rewrite He. simpl. rewrite Hc. by eexists.
Qed.

Lemma date_step_runs {A} (keep : Date -> A -> bool) p (q : list A) :
  exists l,
    (if nonempty p
     then py_try (b ← strptime_date p; Val (filter (fun r => keep b r) q)) [CValueError]
                 (Val q)
     else Val q) = Val l.
Proof.
  apply filter_step_runs.
  destruct (strptime_date_cases p) as [(d & Hd & _)|He]; [right; left; eauto|].
  right; right. by exists ValueError.
Qed.

Lemma amount_step_runs {A} (keep : Decimal -> A -> bool) GET k (q : list A) :
  column_bound GET k ->
  exists l,
    (if nonempty (strip (GET_get GET k))
     then py_try (b ← Decimal_of_str (strip (GET_get GET k));
                  Val (filter (fun r => keep b r) q))
                 [CValueError; CTypeError] (Val q)
     else Val q) = Val l.
Proof.
  intros [H|(c & p & H & _)]; apply filter_step_runs; [by left|right; left; eauto].
Qed.




(** ** The listing of both kinds *)

(** The sort keeps the order of the entries of a class that no entry of the
    class is moved across. *)
Lemma insert_by_filter {A} (before : A -> A -> bool) (P : A -> Prop)
    `{!forall x, Decision (P x)} x l :
  (forall y, P x -> P y -> before x y = true) ->
  filter P (insert_by before x l) = filter P (x :: l).
Proof.
  intros HP. induction l as [|y l IH]; [done|].
  simpl. destruct (before x y) eqn:Hxy; [done|].
  rewrite filter_cons, IH, !filter_cons.
  destruct (decide (P x)) as [Hx|Hx]; [|done].
  destruct (decide (P y)) as [Hy|Hy]; [|done].
  rewrite (HP y Hx Hy) in Hxy. discriminate.
Qed.

Lemma sort_by_filter {A} (before : A -> A -> bool) (P : A -> Prop)
    `{!forall x, Decision (P x)} l :
  (forall x y, P x -> P y -> before x y = true) ->
  filter P (sort_by before l) = filter P l.
Proof.
  intros HP. induction l as [|x l IH]; [done|].
  simpl. fold (sort_by before l).
  rewrite insert_by_filter by (intros y; apply HP).
  by rewrite !filter_cons, IH.
Qed.

Lemma transaction_get_answer s :
  stored_amounts s ->
  TransactionAPIView_get s
  = let transactions :=
      sort_by (fun a b : transaction_row => date_leb (row_date b) (row_date a))
              (map inl (order_incomes (Income_select_related s))
               ++ map inr (order_expenses (map_to_list (expenses s)))) in
    Success 200
      (Stats.mk transactions
                (DFin (cents_sum (income_amounts s)) 2)
                (DFin (cents_sum (expense_amounts s)) 2)
                (DFin (cents_sum (income_amounts s) - cents_sum (expense_amounts s)) 2)
                (List.length transactions)).
Proof.
  intros [Hi He]. unfold TransactionAPIView_get.
  destruct (Sum_cents _ Hi) as [_ ->]. destruct (Sum_cents _ He) as [_ ->].
  cbn [mbind py_bind]. rewrite dec_sub_cents. done.
Qed.

(** X23. [TransactionAPIView.get], on a store whose amounts are as the data
    model stores them, answers 200 with a listing that is a permutation of
    all incomes (joined with their category) and all expenses, sorted by
    date, newest first; [totalTransactions] is its length, and the sum of
    the sizes of both tables under referential integrity; and since the
    sort is stable, the entries of one date are the incomes of that date in
    the order of the income listing, followed by the expenses of that
    date. *)
Theorem transactions_listing_is_stable_by_date (s : Store) :
  stored_amounts s ->
  exists st,
    TransactionAPIView_get s = Success 200 st
    /\ StronglySorted row_desc (Stats.transactions st)
    /\ Stats.transactions st
       ≡ₚ map inl (Income_select_related s) ++ map inr (map_to_list (expenses s))
    /\ Stats.totalTransactions st = List.length (Stats.transactions st)
    /\ (fk_ok s ->
        Stats.totalTransactions st = (size (incomes s) + size (expenses s))%nat)
    /\ forall k,
         filter (on_date k) (Stats.transactions st)
         = filter (on_date k) (map inl (order_incomes (Income_select_related s)))
           ++ filter (on_date k) (map inr (order_expenses (map_to_list (expenses s)))).
Proof.
  intros Hs. rewrite (transaction_get_answer s Hs). cbv zeta.
  eexists. split; [reflexivity|]. cbn [Stats.transactions Stats.totalTransactions].
  split_and!.
  - eapply StronglySorted_weaken; [|apply sort_by_sorted].
    + intros a b H. apply Is_true_true in H. unfold row_desc.
      unfold date_leb in H. by apply Z.leb_le.
    + intros a b. unfold date_leb. rewrite Z.leb_gt, Z.leb_le. lia.
    + intros a b c. unfold date_leb. rewrite !Z.leb_le. lia.
  - rewrite sort_by_Permutation. unfold order_incomes, order_expenses.
    by rewrite !sort_by_Permutation.
  - done.
  - intros Hfk. rewrite sort_by_length, length_app, !length_map.
    unfold order_incomes, order_expenses. rewrite !sort_by_length.
    rewrite <- (length_map (fun r => fst (fst r)) (Income_select_related s)).
    rewrite (select_related_keys s Hfk), length_map, !length_map_to_list. done.
  - intros k. rewrite sort_by_filter; [apply filter_app|].
    intros a b Ha Hb. unfold on_date in Ha, Hb. unfold date_leb.
    apply Z.leb_le. lia.
Qed.

(** X23, on the sample store. *)
Lemma transactions_listing_is_stable_by_date_witness :
  exists st, TransactionAPIView_get store_ex = Success 200 st
             /\ Stats.totalTransactions st = 7%nat
             /\ StronglySorted row_desc (Stats.transactions st).
Proof.
  assert (Hs : stored_amounts store_ex).
  { split; vm_compute; repeat constructor; eauto. }
  destruct (transactions_listing_is_stable_by_date store_ex Hs)
    as (st & Hst & Hsorted & _ & _ & Hn & _).
  exists st. split; [exact Hst|]. split; [|exact Hsorted].
  rewrite Hn; [reflexivity|]. apply fk_ok_check. vm_compute. reflexivity.
Defined.
(** ** The summaries *)

Lemma or_int_zero_cents c :
  or_int_zero (Some (DFin c 2)) = if c =? 0 then dec_zero else DFin c 2.
Proof. unfold or_int_zero, dec_bool. by destruct (c =? 0). Qed.

Lemma Sum_cents_Some l :
  Forall (fun a => is_Some (cents a)) l ->
  Sum l = Val (match l with [] => None | _ => Some (DFin (cents_sum l) 2) end).
Proof.
  destruct 1 as [|a l [c Hc] Hl]; [done|].
  destruct a as [c' [|[|[|p]]]| |]; try discriminate Hc.
  injection Hc as ->. unfold Sum. rewrite (sum_from_cents _ _ Hl). done.
Qed.

Lemma admin_total_value l :
  Forall (fun a => is_Some (cents a)) l ->
  exists t, or_int_zero <$> Sum l = Val t
            /\ ((t = dec_zero /\ cents_sum l = 0) \/ t = DFin (cents_sum l) 2).
Proof.
  intros H. rewrite (Sum_cents_Some l H). destruct l as [|a l].
  - eexists. split; [reflexivity|]. by left.
  - unfold fmap, py_fmap. rewrite or_int_zero_cents.
    destruct (Z.eqb_spec (cents_sum (a :: l)) 0) as [E|E]; eexists; (split; [reflexivity|]).
    + by left.
    + by right.
Qed.



(** ** The lists of the dashboard page *)


(** ** The category of the generic create *)

(** X26. [Category.objects.get_or_create] on a store whose category names
    are unique: it returns a category of the name asked for, which the
    store holds afterwards; asking again, at any time, returns the same row
    and changes nothing; names stay unique, every category is kept, and the
    incomes and expenses are as they were. *)
Theorem get_or_create_is_idempotent (clk clk' : Clock) (nm : string) (s : Store) :
  category_names_unique s ->
  exists kc s1,
    Category_objects_get_or_create clk nm s = (Next kc, s1)
    /\ Category_objects_get_or_create clk' nm s1 = (Next kc, s1)
    /\ name (snd kc) = nm
    /\ categories s1 !! fst kc = Some (snd kc)
    /\ category_names_unique s1
    /\ (forall k c, categories s !! k = Some c -> categories s1 !! k = Some c)
    /\ incomes s1 = incomes s /\ expenses s1 = expenses s.
Proof.
  intros Hu.
  destruct (get_or_create_cases clk nm s) as [(kc & Hk & Hn & E)|[Hno E]].
  - exists kc, s. split; [done|]. split_and!; try done.
    unfold Category_objects_get_or_create in *.
    destruct (filter _ (map_to_list (categories s))) as [|kc' l]; [|done].
    injection E as _ E. apply (f_equal categories) in E. simpl in E.
    pose proof (fresh_pk_fresh (categories s)) as Hfresh.
    pose proof (lookup_insert_eq (categories s) (fresh_pk (categories s))
                  (mkCategory nm (now clk))) as Hin.
    rewrite E in Hin. congruence.
  - eexists _, _. split; [exact E|]. simpl.
    pose proof (fresh_pk_fresh (categories s)) as Hfresh.
    split_and!; try done.
    + unfold Category_objects_get_or_create. simpl.
      assert (Hp : filter (fun kc : Z * Category => String.eqb (name kc.2) nm)
                     (map_to_list (<[fresh_pk (categories s) := mkCategory nm (now clk)]>
                                     (categories s)))
                   ≡ₚ [(fresh_pk (categories s), mkCategory nm (now clk))]).
      { rewrite (map_to_list_insert _ _ _ Hfresh), filter_cons. simpl.
        rewrite String.eqb_refl. simpl.
        rewrite filter_none; [done|].
        apply Forall_forall. intros [k c] Hin Hn. apply elem_of_map_to_list in Hin.
        simpl in Hn. apply Is_true_true, String.eqb_eq in Hn. by apply (Hno k c). }
      apply Permutation_singleton_r in Hp. by rewrite Hp.
    + by rewrite lookup_insert_eq.
    + intros k1 k2 c1 c2. simpl.
      destruct (decide (k1 = fresh_pk (categories s))) as [->|H1];
        destruct (decide (k2 = fresh_pk (categories s))) as [->|H2]; [done| | |].
      * rewrite lookup_insert_eq, lookup_insert_ne by done.
        intros [= <-] H2' Hn. simpl in Hn. symmetry in Hn. by destruct (Hno _ _ H2').
      * rewrite lookup_insert_eq, lookup_insert_ne by done.
        intros H1' [= <-] Hn. simpl in Hn. by destruct (Hno _ _ H1').
      * rewrite !lookup_insert_ne by done. apply Hu.
    + intros k c Hk. rewrite lookup_insert_ne; [done|]. intros <-. congruence.
Qed.

(** X26, on the sample store. *)
Lemma get_or_create_is_idempotent_witness :
  exists kc s1,
    Category_objects_get_or_create clock_ex "Bonus" store_ex = (Next kc, s1)
    /\ Category_objects_get_or_create clock_ex "Bonus" s1 = (Next kc, s1)
    /\ fst kc = 2.
Proof.
  assert (Hu : category_names_unique store_ex).
  { intros k1 k2 c1 c2 H1 H2 _.
    assert (Hk : forall k c, categories store_ex !! k = Some c -> k = 1).
    { intros k c H. change (categories store_ex)
        with ({[ 1 := mkCategory "Salary" 1 ]} : gmap Z Category) in H.
      apply lookup_singleton_Some in H. by destruct H. }
    rewrite (Hk _ _ H1), (Hk _ _ H2). reflexivity. }
  destruct (get_or_create_is_idempotent clock_ex clock_ex "Bonus" store_ex Hu)
    as (kc & s1 & H1 & H2 & _).
  exists kc, s1. split; [exact H1|]. split; [exact H2|].
  assert (E : Category_objects_get_or_create clock_ex "Bonus" store_ex
              = (Next (2, mkCategory "Bonus" 1000),
                 set_categories (<[2 := mkCategory "Bonus" 1000]> (categories store_ex))
                                store_ex)) by (vm_compute; reflexivity).
  rewrite E in H1. by injection H1 as <- _.
Defined.
(** ** The checks of a create, in their order *)

(** X27. An amount that is present but false in Python's sense ([0], [0.0],
    an empty string, [false], [null]) is answered 400 [Missing required
    field: amount] with the store as it was, by the three creates, once the
    fields required before it are given. *)
Theorem falsy_amount_is_reported_missing
    (clk : Clock) (data : gmap string json) (v : json) (s : Store) :
  data !! "amount" = Some v -> truthy v = false ->
  ((exists c, data !! "category_id" = Some c /\ truthy c = true) ->
   (exists t, data !! "source" = Some t /\ truthy t = true) ->
   IncomeAPIView.post clk (Some data) s
   = (error_response 400 "Missing required field: amount", s))
  /\ ((exists t, data !! "title" = Some t /\ truthy t = true) ->
      ExpenseAPIView.post clk (Some data) s
      = (error_response 400 "Missing required field: amount", s))
  /\ (is_Some (TransactionAPIView.transaction_type data) ->
      TransactionAPIView.post clk (Some data) s
      = (error_response 400 "Missing required field: amount", s)).
Proof.
  intros Hv Hf. split_and!.
  - intros (c & Hc & Htc) (t & Ht & Htt).
    unfold IncomeAPIView.post, respond, IncomeAPIView.post_body, require_fields.
    view_steps. by rewrite Hc, Htc, Ht, Htt, Hv, Hf.
  - intros (t & Ht & Htt).
    unfold ExpenseAPIView.post, respond, ExpenseAPIView.post_body, require_fields.
    view_steps. by rewrite Ht, Htt, Hv, Hf.
  - intros [k Hk].
    unfold TransactionAPIView.post, respond, TransactionAPIView.post_body, require_fields.
    view_steps. rewrite Hk. destruct k; by rewrite Hv, Hf.
Qed.

(** X27, with the amount 0. *)
Lemma falsy_amount_is_reported_missing_witness :
  let data : gmap string json :=
    {[ "title" := JStr "Tea"; "amount" := JInt 0; "date" := JStr "2024-06-10" ]} in
  ExpenseAPIView.post clock_ex (Some data) store_ex
  = (error_response 400 "Missing required field: amount", store_ex).
Proof.
  intros data.
  assert (Hv : data !! "amount" = Some (JInt 0)) by (vm_compute; reflexivity).
  assert (Hf : truthy (JInt 0) = false) by reflexivity.
  apply (proj1 (proj2 (falsy_amount_is_reported_missing clock_ex data (JInt 0) store_ex
                         Hv Hf))).
  exists (JStr "Tea"). split; vm_compute; reflexivity.
Defined.


(** ** The totals of the list pages *)

Lemma filter_step_subset {A B} (parse : py B) (keep : B -> A -> bool)
    (on : bool) cs (q l : list A) :
  (if on then py_try (b ← parse; Val (filter (fun r => keep b r) q)) cs (Val q)
   else Val q) = Val l ->
  l ⊆ q.
Proof.
  destruct on; [|by intros [= <-]].
  unfold py_try. destruct parse as [b|e]; simpl.
  - intros [= <-] r. rewrite list_elem_of_filter. tauto.
  - destruct (caught_by cs e); [|done]. by intros [= <-].
Qed.

Lemma income_queryset_subset request s l :
  IncomeListView.get_queryset request s = Val l -> l ⊆ Income_select_related s.
Proof.
  assert (H0 : order_incomes (Income_select_related s) ⊆ Income_select_related s).
  { intros r. unfold order_incomes. by rewrite elem_of_sort_by. }
  unfold IncomeListView.get_queryset. destruct request as [GET|]; [|by intros [= <-]].
  set (q0 := if nonempty (strip (GET_get GET "category")) then _ else _).
  assert (Hq0 : q0 ⊆ Income_select_related s).
  { subst q0. intros r Hr. apply H0.
    repeat case_match; repeat (apply list_elem_of_filter in Hr as [_ Hr]); done. }
  clearbody q0. unfold mbind, py_bind.
  destruct (if nonempty (strip (GET_get GET "date_from")) then _ else _) as [q1|] eqn:E1;
    [|done].
  apply filter_step_subset in E1.
  destruct (if nonempty (strip (GET_get GET "date_to")) then _ else _) as [q2|] eqn:E2;
    [|done].
  apply filter_step_subset in E2.
  destruct (if nonempty (strip (GET_get GET "amount_min")) then _ else _) as [q3|] eqn:E3;
    [|done].
  apply filter_step_subset in E3.
  destruct (if nonempty (strip (GET_get GET "amount_max")) then _ else _) as [q4|] eqn:E4;
    [|done].
  apply filter_step_subset in E4.
  intros [= <-]. set_solver.
Qed.

Lemma expense_queryset_subset request s l :
  ExpenseListView.get_queryset request s = Val l -> l ⊆ map_to_list (expenses s).
Proof.
  assert (H0 : order_expenses (map_to_list (expenses s)) ⊆ map_to_list (expenses s)).
  { intros r. unfold order_expenses. by rewrite elem_of_sort_by. }
  unfold ExpenseListView.get_queryset. destruct request as [GET|]; [|by intros [= <-]].
  set (q0 := if nonempty (strip (GET_get GET "search")) then _ else _).
  assert (Hq0 : q0 ⊆ map_to_list (expenses s)).
  { subst q0. intros r Hr. apply H0.
    repeat case_match; repeat (apply list_elem_of_filter in Hr as [_ Hr]); done. }
  clearbody q0. unfold mbind, py_bind.
  destruct (if nonempty (strip (GET_get GET "date_from")) then _ else _) as [q1|] eqn:E1;
    [|done].
  apply filter_step_subset in E1.
  destruct (if nonempty (strip (GET_get GET "date_to")) then _ else _) as [q2|] eqn:E2;
    [|done].
  apply filter_step_subset in E2.
  destruct (if nonempty (strip (GET_get GET "amount_min")) then _ else _) as [q3|] eqn:E3;
    [|done].
  apply filter_step_subset in E3.
  destruct (if nonempty (strip (GET_get GET "amount_max")) then _ else _) as [q4|] eqn:E4;
    [|done].
  apply filter_step_subset in E4.
  intros [= <-]. set_solver.
Qed.

Lemma select_related_rows s :
  fk_ok s -> map fst (Income_select_related s) = map_to_list (incomes s).
Proof.
  intros Hfk. unfold Income_select_related.
  assert (H : forall ki, ki ∈ map_to_list (incomes s) ->
                is_Some (categories s !! Income.category_id (snd ki))).
  { intros [k i] Hki. apply elem_of_map_to_list in Hki. by eapply Hfk. }
  induction (map_to_list (incomes s)) as [|ki l IH]; [done|].
  simpl. destruct (H ki) as [c Hc]; [by left|].
  rewrite Hc. simpl. f_equal. apply IH. intros ki' Hin. apply H. by right.
Qed.


